(** * systemctl-dashboard: a shallow embedding of [dashboard.py]

    The development follows the source file top to bottom: the Python
    values the code computes with (unbounded integers, binary64 floats,
    strings, exceptions), the external world it queries (sub-processes,
    [/proc/meminfo], the clock, the SQLite store), then the methods of
    [SystemdDashboard], the request handlers and the dispatch of the
    requests, and finally the properties themselves. *)

From Stdlib Require Import ZArith List String Ascii Lia Bool.
From Stdlib Require Import DecimalString Sorting.Sorted Sorting.Permutation.
From Stdlib Require Import OrderedTypeEx.
From Stdlib Require Import DecimalPos.
From stdpp Require Import base gmap strings.
Import ListNotations.

Local Open Scope list_scope.
Local Open Scope string_scope.
Local Open Scope Z_scope.

(** ** Exceptions

    The exception classes the source names in its [except] clauses, and
    the ones the builtins it calls can raise.  Each carries the text that
    [str(e)] gives. *)

Inductive exn : Type :=
  | TimeoutExpired (msg : string)
  | FileNotFoundError (msg : string)
  | SubprocessError (msg : string)
  | OSError (msg : string)
  | ValueError (msg : string)
  | OverflowError (msg : string)
  | ZeroDivisionError (msg : string)
  | OtherException (msg : string).

Definition exn_str (e : exn) : string :=
  match e with
  | TimeoutExpired m | FileNotFoundError m | SubprocessError m | OSError m
  | ValueError m | OverflowError m | ZeroDivisionError m
  | OtherException m => m
  end.

(** A computation that returns or raises. *)
Inductive Exc (A : Type) : Type :=
  | Ok (a : A)
  | Raise (e : exn).
Arguments Ok {A} a.
Arguments Raise {A} e.

Definition bindE {A B : Type} (c : Exc A) (k : A -> Exc B) : Exc B :=
  match c with
  | Ok a => k a
  | Raise e => Raise e
  end.

Notation "'do' x <- c ; k" := (bindE c (fun x => k))
  (at level 10, x name, c at level 100, k at level 200).

(** ** Binary64 floats

    Every finite double is an integer multiple of [2^-1074] with at most
    53 significant bits and magnitude below [2^1024].  [Fin k] stands for
    the double of value [k * 2^-1074]; the sign of a zero is not kept
    (nothing in the source observes it). *)

Module Float.

Inductive float : Type :=
  | Fin (k : Z)
  | Inf (negative : bool)
  | NaN.

(** The double [1.0], in units of [2^-1074]. *)
Definition one : Z := 2 ^ 1074.

(** The first magnitude that no longer fits, [2^1024]. *)
Definition huge : Z := 2 ^ 2098.

(** [n / d] rounded to the nearest integer, ties to even ([0 < d]). *)
Definition rne (n d : Z) : Z :=
  let q := n / d in
  match 2 * (n mod d) ?= d with
  | Lt => q
  | Gt => q + 1
  | Eq => if Z.even q then q else q + 1
  end.

(** [n / d] rounded to 53 significant bits.  Below [2^53] the spacing is
    one unit (subnormals and the first binade); above, the spacing is
    [2^(log2 t - 52)]. *)
Definition round53 (n d : Z) : Z :=
  let t := Z.abs n / d in
  if t <? 2 ^ 53 then rne n d
  else let k := Z.log2 t - 52 in rne n (d * 2 ^ k) * 2 ^ k.

(** The double nearest to the rational [n / d] ([0 < d]); infinite when
    the rounded magnitude reaches [2^1024]. *)
Definition round64 (n d : Z) : float :=
  let k := round53 (n * one) d in
  if Z.abs k <? huge then Fin k else Inf (k <? 0).

(** The double of an integer that is exactly representable. *)
Definition of_Z (z : Z) : float := Fin (z * one).

(** [k] units is the value of a double: at most 53 significant bits. *)
Definition representable (k : Z) : Prop :=
  exists m e, 0 <= e /\ Z.abs m < 2 ^ 53 /\ k = m * 2 ^ e.

(** [float(z)] for a Python int: [OverflowError] beyond the range. *)
Definition of_int (z : Z) : Exc float :=
  match round64 z 1 with
  | Fin k => Ok (Fin k)
  | _ => Raise (OverflowError "int too large to convert to float")
  end.

(** [a / b] on two Python ints: the correctly rounded quotient. *)
Definition int_truediv (a b : Z) : Exc float :=
  if b =? 0 then Raise (ZeroDivisionError "division by zero")
  else match round64 (a * Z.sgn b) (Z.abs b) with
       | Fin k => Ok (Fin k)
       | _ => Raise (OverflowError "integer division result too large for a float")
       end.

Definition neg (x : float) : float :=
  match x with
  | Fin k => Fin (- k)
  | Inf s => Inf (negb s)
  | NaN => NaN
  end.

Definition is_neg (k : Z) : bool := k <? 0.

(** [x * y] on doubles (never raises). *)
Definition mul (x y : float) : float :=
  match x, y with
  | NaN, _ | _, NaN => NaN
  | Fin a, Fin b => round64 (a * b) (one * one)
  | Inf s, Fin b | Fin b, Inf s =>
      if b =? 0 then NaN else Inf (xorb s (is_neg b))
  | Inf s, Inf s' => Inf (xorb s s')
  end.

(** [x / y] on doubles: [ZeroDivisionError] on a zero divisor. *)
Definition div (x y : float) : Exc float :=
  match y with
  | Fin 0 => Raise (ZeroDivisionError "float division by zero")
  | _ =>
    Ok match x, y with
       | NaN, _ | _, NaN => NaN
       | Fin a, Fin b => round64 (a * Z.sgn b) (Z.abs b)
       | Inf s, Fin b => Inf (xorb s (is_neg b))
       | Fin _, Inf _ => Fin 0
       | Inf _, Inf _ => NaN
       end
  end.

(** [x - y] on doubles. *)
Definition sub (x y : float) : float :=
  match x, y with
  | NaN, _ | _, NaN => NaN
  | Fin a, Fin b => round64 (a - b) one
  | Inf s, Fin _ => Inf s
  | Fin _, Inf s => Inf (negb s)
  | Inf s, Inf s' => if Bool.eqb s s' then NaN else Inf s
  end.

(** [x < y]; every comparison with a NaN is false. *)
Definition ltb (x y : float) : bool :=
  match x, y with
  | NaN, _ | _, NaN => false
  | Fin a, Fin b => a <? b
  | Inf s, Fin _ => s
  | Fin _, Inf s => negb s
  | Inf s, Inf s' => s && negb s'
  end.

(** [x < z] and [x > z] for a double and a Python int: Python compares
    the two exactly, without converting the int. *)
Definition lt_int (x : float) (z : Z) : bool := ltb x (Fin (z * one)).
Definition gt_int (x : float) (z : Z) : bool := ltb (Fin (z * one)) x.

(** [int(x)]: truncation toward zero. *)
Definition to_int (x : float) : Exc Z :=
  match x with
  | Fin k => Ok (Z.quot k one)
  | Inf _ => Raise (OverflowError "cannot convert float infinity to integer")
  | NaN => Raise (ValueError "cannot convert float NaN to integer")
  end.

(** [math.floor]-style rounding down to an integral double (used by the
    floor division below); exact. *)
Definition floor (x : float) : float :=
  match x with
  | Fin k => Fin (k / one * one)
  | _ => x
  end.

(** C's [fmod]: exact, with the sign of the dividend. *)
Definition fmod (x y : float) : float :=
  match x, y with
  | Fin a, Fin b => if b =? 0 then NaN else Fin (Z.rem a b)
  | Fin a, Inf _ => Fin a
  | _, _ => NaN
  end.

(** [x % y] on doubles, as CPython's [float_rem] computes it. *)
Definition rem (x y : float) : Exc float :=
  match y with
  | Fin 0 => Raise (ZeroDivisionError "float modulo by zero")
  | _ =>
    let m := fmod x y in
    Ok match m with
       | Fin 0 => Fin 0
       | Fin r => if Bool.eqb (ltb y (Fin 0)) (ltb m (Fin 0)) then m
                  else match y with
                       | Fin b => round64 (r + b) one
                       | _ => y
                       end
       | _ => m
       end
  end.

(** [x // y] on doubles, as CPython's [float_floor_div] computes it:
    [fmod], a subtraction, a division, then a snap to the nearest
    integral value. *)
Definition floordiv (x y : float) : Exc float :=
  match y with
  | Fin 0 => Raise (ZeroDivisionError "float floor division by zero")
  | _ =>
    let m := fmod x y in
    do d <- div (sub x m) y;
    let d :=
      match m with
      | Fin 0 => d
      | _ => if Bool.eqb (ltb y (Fin 0)) (ltb m (Fin 0)) then d
             else sub d (Fin one)
      end in
    Ok match d with
       | Fin 0 => Fin 0
       | Fin _ =>
           let f := floor d in
           if ltb (Fin (one / 2)) (sub d f) then
             match f with Fin k => round64 (k + one) one | _ => f end
           else f
       | _ => d
       end
  end.

End Float.

(** ** Strings

    The text the source handles is the output of [df], [free],
    [systemctl] and the content of [/proc/meminfo]; it is modelled as
    ASCII text, one [ascii] per character. *)

Module Str.

Definition code (c : ascii) : N := N_of_ascii c.

(** [str.isspace] on ASCII: TAB..CR, FS..US and the space. *)
Definition is_space (c : ascii) : bool :=
  ((9 <=? code c) && (code c <=? 13) || (28 <=? code c) && (code c <=? 32))%N.

Definition is_digit (c : ascii) : bool :=
  ((48 <=? code c) && (code c <=? 57))%N.

Definition digit_val (c : ascii) : Z := Z.of_N (code c) - 48.

(** [s.isdigit()]: non-empty and every character a digit. *)
Fixpoint all_digits (s : string) : bool :=
  match s with
  | EmptyString => true
  | String c r => is_digit c && all_digits r
  end.

Definition isdigit (s : string) : bool :=
  match s with
  | EmptyString => false
  | _ => all_digits s
  end.

(** The number a string of digits writes, most significant first. *)
Fixpoint digits_value (acc : Z) (s : string) : Z :=
  match s with
  | EmptyString => acc
  | String c r => digits_value (10 * acc + digit_val c) r
  end.

(** [c in s] for a one-character needle. *)
Fixpoint contains (c : ascii) (s : string) : bool :=
  match s with
  | EmptyString => false
  | String c' r => Ascii.eqb c c' || contains c r
  end.

(** [s.split(sep)] for a one-character separator. *)
Fixpoint split (sep : ascii) (s : string) : list string :=
  match s with
  | EmptyString => [EmptyString]
  | String c r =>
      if Ascii.eqb c sep then EmptyString :: split sep r
      else match split sep r with
           | x :: xs => String c x :: xs
           | [] => [String c EmptyString]
           end
  end.

(** [s.split(sep, 1)]: cut at the first separator only. *)
Fixpoint split1 (sep : ascii) (s : string) : list string :=
  match s with
  | EmptyString => [EmptyString]
  | String c r =>
      if Ascii.eqb c sep then [EmptyString; r]
      else match split1 sep r with
           | x :: xs => String c x :: xs
           | [] => [String c EmptyString]
           end
  end.

(** [s.split()]: the maximal runs of non-space characters. *)
Fixpoint split_ws (s : string) : list string :=
  match s with
  | EmptyString => []
  | String c r =>
      if is_space c then split_ws r
      else match r with
           | EmptyString => [String c EmptyString]
           | String c' _ =>
               if is_space c' then String c EmptyString :: split_ws r
               else match split_ws r with
                    | w :: ws => String c w :: ws
                    | [] => [String c EmptyString]
                    end
           end
  end.

Fixpoint lstrip_by (p : ascii -> bool) (s : string) : string :=
  match s with
  | EmptyString => EmptyString
  | String c r => if p c then lstrip_by p r else s
  end.

Fixpoint rstrip_by (p : ascii -> bool) (s : string) : string :=
  match s with
  | EmptyString => EmptyString
  | String c r =>
      match rstrip_by p r with
      | EmptyString => if p c then EmptyString else String c EmptyString
      | r' => String c r'
      end
  end.

(** [s.strip()] and [s.rstrip(c)]. *)
Definition strip (s : string) : string := lstrip_by is_space (rstrip_by is_space s).

(** The white space that [float()] skips at both ends of an ASCII text
    ([Py_ISSPACE]): TAB..CR and the space, but not FS..US. *)
Definition is_float_space (c : ascii) : bool :=
  ((9 <=? code c) && (code c <=? 13) || (code c =? 32))%N.

Definition float_strip (s : string) : string :=
  lstrip_by is_float_space (rstrip_by is_float_space s).
Definition rstrip_char (c : ascii) (s : string) : string := rstrip_by (Ascii.eqb c) s.

(** [s.endswith(c)] for a one-character suffix. *)
Fixpoint endswith (c : ascii) (s : string) : bool :=
  match s with
  | EmptyString => false
  | String c' EmptyString => Ascii.eqb c' c
  | String _ r => endswith c r
  end.

(** [s[:-1]]. *)
Fixpoint drop_last (s : string) : string :=
  match s with
  | EmptyString => EmptyString
  | String _ EmptyString => EmptyString
  | String c r => String c (drop_last r)
  end.

(** [sep.join(l)]. *)
Fixpoint join (sep : string) (l : list string) : string :=
  match l with
  | [] => EmptyString
  | [x] => x
  | x :: r => x ++ sep ++ join sep r
  end.

Definition lower (c : ascii) : ascii :=
  if ((65 <=? code c) && (code c <=? 90))%N then ascii_of_N (code c + 32) else c.

Fixpoint lowercase (s : string) : string :=
  match s with
  | EmptyString => EmptyString
  | String c r => String (lower c) (lowercase r)
  end.

End Str.

(** ** Numbers and text *)

Module Num.
Import Float.

(** [str(z)] for a Python int. *)
Definition str (z : Z) : string := NilZero.string_of_int (Z.to_int z).

(** [int(s)] at the call sites of the source, where [s] has passed
    [isdigit()].  CPython refuses to convert more than
    [sys.get_int_max_str_digits()] digits (4300 unless reconfigured, 0 for
    no limit); the setting is the parameter [max_digits]. *)
Definition int_of_str (max_digits : nat) (s : string) : Exc Z :=
  if negb (Str.isdigit s) then
    Raise (ValueError ("invalid literal for int() with base 10: '" ++ s ++ "'"))
  else if negb (Nat.eqb max_digits 0) && Nat.ltb max_digits (String.length s) then
    Raise (ValueError "Exceeds the limit for integer string conversion")
  else Ok (Str.digits_value 0 s).

(** [digitpart ::= digit (["_"] digit)*]: the digits read (underscores
    dropped) and the rest of the text. *)
Fixpoint digitpart_tail (s : string) : string * string :=
  match s with
  | String c r =>
      if Str.is_digit c then
        let '(ds, rest) := digitpart_tail r in (String c ds, rest)
      else if Ascii.eqb c "_" then
        match r with
        | String c' r' =>
            if Str.is_digit c' then
              let '(ds, rest) := digitpart_tail r' in (String c' ds, rest)
            else (EmptyString, s)
        | EmptyString => (EmptyString, s)
        end
      else (EmptyString, s)
  | EmptyString => (EmptyString, s)
  end.

Definition digitpart (s : string) : option (string * string) :=
  match s with
  | String c r =>
      if Str.is_digit c then
        let '(ds, rest) := digitpart_tail r in Some (String c ds, rest)
      else None
  | EmptyString => None
  end.

Definition sign_of (s : string) : bool * string :=
  match s with
  | String "-" r => (true, r)
  | String "+" r => (false, r)
  | _ => (false, s)
  end.

(** [number ::= [digitpart] "." digitpart | digitpart ["."]]: the integer
    digits, the fraction digits and the rest. *)
Definition number (s : string) : option (string * string * string) :=
  match digitpart s with
  | Some (ip, String "." r) =>
      match digitpart r with
      | Some (fp, rest) => Some (ip, fp, rest)
      | None => Some (ip, EmptyString, r)
      end
  | Some (ip, rest) => Some (ip, EmptyString, rest)
  | None =>
      match s with
      | String "." r =>
          match digitpart r with
          | Some (fp, rest) => Some (EmptyString, fp, rest)
          | None => None
          end
      | _ => None
      end
  end.

(** [exponent ::= ("e" | "E") [sign] digitpart]; absent means 0. *)
Definition exponent (s : string) : option Z :=
  match s with
  | EmptyString => Some 0
  | String c r =>
      if Ascii.eqb (Str.lower c) "e" then
        let '(neg, r') := sign_of r in
        match digitpart r' with
        | Some (ds, EmptyString) =>
            let e := Str.digits_value 0 ds in Some (if neg then - e else e)
        | _ => None
        end
      else None
  end.

(** [float(s)] for a string: the white space at both ends is dropped
    (TAB..CR and the space only: a text with one of FS..US at an end is
    refused), then [[sign] (floatnumber | "inf" | "infinity" | "nan")];
    the decimal value is rounded to the nearest double. *)
Definition float_of_str (s : string) : Exc float :=
  let '(neg, body) := sign_of (Str.float_strip s) in
  let signed (x : float) := if neg then Float.neg x else x in
  let low := Str.lowercase body in
  if String.eqb low "inf" || String.eqb low "infinity" then Ok (signed (Inf false))
  else if String.eqb low "nan" then Ok NaN
  else
    match number body with
    | Some (ip, fp, rest) =>
        match exponent rest with
        | Some e =>
            let m := Str.digits_value 0 (ip ++ fp) in
            let e' := e - Z.of_nat (String.length fp) in
            Ok (signed (if 0 <=? e' then round64 (m * 10 ^ e') 1
                        else round64 m (10 ^ (- e'))))
        | None => Raise (ValueError ("could not convert string to float: '" ++ s ++ "'"))
        end
    | None => Raise (ValueError ("could not convert string to float: '" ++ s ++ "'"))
    end.

(** A Python number as the formatter meets it: an int or a float. *)
Inductive number_value : Type :=
  | PyInt (z : Z)
  | PyFloat (x : float).

(** [v < x] for a float [x]; an int is compared exactly. *)
Definition lt_float (v : number_value) (x : float) : bool :=
  match v with
  | PyInt z => ltb (Fin (z * one)) x
  | PyFloat y => ltb y x
  end.

(** [v / x] for a float [x]; an int is converted first. *)
Definition truediv_float (v : number_value) (x : float) : Exc float :=
  match v with
  | PyInt z => do y <- of_int z; div y x
  | PyFloat y => div y x
  end.

(** ["%.1f"] of a double: the exact value rounded to tenths, ties to
    even; the sign is written even when the digits are all zero. *)
Definition fixed1 (x : float) : string :=
  match x with
  | Fin k =>
      let t := rne (10 * Z.abs k) one in
      (if k <? 0 then "-" else "") ++ str (t / 10) ++ "." ++ str (t mod 10)
  | Inf s => if s then "-inf" else "inf"
  | NaN => "nan"
  end.

(** [f"{v:.1f}"]: an int is converted to a float first. *)
Definition format_1f (v : number_value) : Exc string :=
  match v with
  | PyInt z => do x <- of_int z; Ok (fixed1 x)
  | PyFloat x => Ok (fixed1 x)
  end.

End Num.

(** ** The world outside the process

    [subprocess.run], [open('/proc/meminfo')] and [datetime.now()] are
    answered by the environment.  A [world] fixes what each of them gives
    and records every command that has been started. *)

Module Sys.

Record completed : Type := {
  returncode : Z;
  stdout : string;
  stderr : string;
}.

(** What one [subprocess.run(argv, capture_output=True, text=True,
    timeout=t)] gives: a completed process or an exception. *)
Inductive outcome : Type :=
  | Completed (r : completed)
  | Raised (e : exn).

Record command : Type := {
  argv : list string;
  timeout : Z;
}.

Record world : Type := {
  (** the outcome of the [n]-th command started *)
  spawn : nat -> command -> outcome;
  (** the commands started so far, oldest first *)
  started : list command;
  (** what reading [/proc/meminfo] gives *)
  meminfo : Exc string;
  (** [datetime.now()], in microseconds since 0001-01-01 00:00:00 *)
  now_us : Z;
  (** [sys.get_int_max_str_digits()] *)
  int_max_str_digits : nat;
}.

Definition run (args : list string) (t : Z) (w : world) : outcome * world :=
  let c := {| argv := args; timeout := t |} in
  (spawn w (length (started w)) c,
   {| spawn := spawn w; started := (started w ++ [c])%list; meminfo := meminfo w;
      now_us := now_us w; int_max_str_digits := int_max_str_digits w |}).

(** The class tests of the [except] clauses: [TimeoutExpired] derives
    from [SubprocessError], [FileNotFoundError] from [OSError]. *)
Definition is_timeout (e : exn) : bool :=
  match e with TimeoutExpired _ => true | _ => false end.

Definition is_subprocess_error (e : exn) : bool :=
  match e with TimeoutExpired _ | SubprocessError _ => true | _ => false end.

Definition is_file_not_found (e : exn) : bool :=
  match e with FileNotFoundError _ => true | _ => false end.

Definition is_os_error (e : exn) : bool :=
  match e with OSError _ | FileNotFoundError _ => true | _ => false end.

End Sys.

(** ** Dates

    What [datetime.strptime(s, "%Y-%m-%d %H:%M:%S")] and the subtraction
    of two naive datetimes compute. *)

Module Clock.

Definition is_leap (y : Z) : bool :=
  (y mod 4 =? 0) && (negb (y mod 100 =? 0) || (y mod 400 =? 0)).

Definition days_in_month (y m : Z) : Z :=
  if (m =? 2) then (if is_leap y then 29 else 28)
  else if (m =? 4) || (m =? 6) || (m =? 9) || (m =? 11) then 30
  else 31.

Definition days_before_year (y : Z) : Z :=
  let p := y - 1 in p * 365 + p / 4 - p / 100 + p / 400.

Definition days_before_month (y m : Z) : Z :=
  fold_right Z.add 0
    (map (days_in_month y) (map Z.of_nat (seq 1 (Z.to_nat (m - 1))))).

Record datetime : Type := {
  year : Z; month : Z; day : Z;
  hour : Z; minute : Z; second : Z;
}.

(** Microseconds since 0001-01-01 00:00:00. *)
Definition to_us (t : datetime) : Z :=
  let ordinal := days_before_year (year t) + days_before_month (year t) (month t) + day t in
  (((ordinal - 1) * 86400 + hour t * 3600 + minute t * 60 + second t) * 1000000).

Definition pattern : list (ascii -> bool) :=
  let d := Str.is_digit in
  let c (x : ascii) := Ascii.eqb x in
  [d; d; d; d; c "-"; d; d; c "-"; d; d; c " "; d; d; c ":"; d; d; c ":"; d; d]%char.

(** The text matched when the pattern matches at the start of [s]. *)
Fixpoint match_here (p : list (ascii -> bool)) (s : string) : option string :=
  match p, s with
  | [], _ => Some EmptyString
  | f :: p', String c r =>
      if f c then
        match match_here p' r with
        | Some m => Some (String c m)
        | None => None
        end
      else None
  | _ :: _, EmptyString => None
  end.

(** [re.search(r"(\d{4}-\d{2}-\d{2} \d{2}:\d{2}:\d{2})", s)]: the
    leftmost match. *)
Fixpoint search (s : string) : option string :=
  match match_here pattern s with
  | Some m => Some m
  | None =>
      match s with
      | String _ r => search r
      | EmptyString => None
      end
  end.

Definition field (s : string) (start len : nat) : Z :=
  Str.digits_value 0 (substring start len s).

(** [datetime.strptime] on a text of the shape the pattern accepts: the
    regular expressions of the directives refuse a month outside 1..12,
    a day outside 1..31, an hour above 23, a minute above 59 and a second
    above 61; the [datetime] constructor refuses year 0, a day the month
    does not have, and a second above 59.  Every refusal is a
    [ValueError]. *)
Definition strptime (s : string) : Exc datetime :=
  let t := {| year := field s 0 4; month := field s 5 2; day := field s 8 2;
              hour := field s 11 2; minute := field s 14 2; second := field s 17 2 |} in
  if (1 <=? month t) && (month t <=? 12) && (1 <=? day t) && (day t <=? 31)
     && (hour t <=? 23) && (minute t <=? 59) && (second t <=? 61) then
    if (1 <=? year t) && (day t <=? days_in_month (year t) (month t))
       && (second t <=? 59) then Ok t
    else Raise (ValueError "value out of range")
  else Raise (ValueError ("time data '" ++ s ++ "' does not match format '%Y-%m-%d %H:%M:%S'")).

(** [timedelta.total_seconds()]: the microseconds divided by [10**6], one
    correctly rounded quotient of two ints. *)
Definition total_seconds (us : Z) : Exc Float.float :=
  Float.int_truediv us 1000000.

End Clock.

(** ** [SystemdDashboard]: the formatters *)

Module Dashboard.
Import Float Num Sys.

(** [_format_bytes]: the [for] loop over the four units, then the final
    [TB] line. *)
Fixpoint format_bytes_loop (units : list string) (bytes_val : number_value) : Exc string :=
  match units with
  | unit :: rest =>
      if lt_float bytes_val (of_Z 1024) then
        do s <- format_1f bytes_val; Ok (s ++ unit)
      else
        do q <- truediv_float bytes_val (of_Z 1024);
        format_bytes_loop rest (PyFloat q)
  | [] => do s <- format_1f bytes_val; Ok (s ++ "TB")
  end.

Definition _format_bytes (bytes_val : Z) : Exc string :=
  format_bytes_loop ["B"; "KB"; "MB"; "GB"] (PyInt bytes_val).

(** The tail of [_calculate_uptime], from the elapsed seconds on. *)
Definition uptime_of_seconds (uptime_seconds : float) : Exc string :=
  if lt_int uptime_seconds 60 then
    do s <- to_int uptime_seconds; Ok (str s ++ "s")
  else if lt_int uptime_seconds 3600 then
    do q <- floordiv uptime_seconds (of_Z 60);
    do m <- to_int q; Ok (str m ++ "m")
  else if lt_int uptime_seconds 86400 then
    do q <- floordiv uptime_seconds (of_Z 3600);
    do hours <- to_int q;
    do r <- rem uptime_seconds (of_Z 3600);
    do q' <- floordiv r (of_Z 60);
    do minutes <- to_int q';
    Ok (str hours ++ "h " ++ str minutes ++ "m")
  else
    do q <- floordiv uptime_seconds (of_Z 86400);
    do days <- to_int q;
    do r <- rem uptime_seconds (of_Z 86400);
    do q' <- floordiv r (of_Z 3600);
    do hours <- to_int q';
    Ok (str days ++ "d " ++ str hours ++ "h").

(** The body of the [try] of [_calculate_uptime]. *)
Definition calculate_uptime_body (now : Z) (timestamp_str : string) : Exc string :=
  if String.eqb timestamp_str "" || String.eqb timestamp_str "n/a" then Ok "N/A"
  else
    match Clock.search timestamp_str with
    | None => Ok "N/A"
    | Some stamp =>
        do start_time <- Clock.strptime stamp;
        do uptime_seconds <- Clock.total_seconds (now - Clock.to_us start_time);
        uptime_of_seconds uptime_seconds
    end.

(** [_calculate_uptime]: any exception of the body gives ["N/A"]. *)
Definition _calculate_uptime (now : Z) (timestamp_str : string) : string :=
  match calculate_uptime_body now timestamp_str with
  | Ok s => s
  | Raise _ => "N/A"
  end.

(** [_parse_memory_value]. *)
Definition _parse_memory_value (value : string) : Exc float :=
  if Str.endswith "T" value then
    do x <- float_of_str (Str.drop_last value);
    Ok (mul (mul (mul x (of_Z 1024)) (of_Z 1024)) (of_Z 1024))
  else if Str.endswith "G" value then
    do x <- float_of_str (Str.drop_last value);
    Ok (mul (mul x (of_Z 1024)) (of_Z 1024))
  else if Str.endswith "M" value then
    do x <- float_of_str (Str.drop_last value);
    Ok (mul x (of_Z 1024))
  else if Str.endswith "K" value then
    float_of_str (Str.drop_last value)
  else
    do x <- float_of_str value;
    div x (of_Z 1024).

(** ** [get_service_status] *)

Record service_info : Type := {
  name : string;
  status : string;
  active : bool;
  state : string;
  memory : string;
  uptime : string;
  main_pid : string;
  load_state : string;
  unit_file_state : string;
}.

Definition set_memory (v : string) (i : service_info) : service_info :=
  {| name := name i; status := status i; active := active i; state := state i;
     memory := v; uptime := uptime i; main_pid := main_pid i;
     load_state := load_state i; unit_file_state := unit_file_state i |}.

Definition set_uptime (v : string) (i : service_info) : service_info :=
  {| name := name i; status := status i; active := active i; state := state i;
     memory := memory i; uptime := v; main_pid := main_pid i;
     load_state := load_state i; unit_file_state := unit_file_state i |}.

Definition set_main_pid (v : string) (i : service_info) : service_info :=
  {| name := name i; status := status i; active := active i; state := state i;
     memory := memory i; uptime := uptime i; main_pid := v;
     load_state := load_state i; unit_file_state := unit_file_state i |}.

Definition set_load_state (v : string) (i : service_info) : service_info :=
  {| name := name i; status := status i; active := active i; state := state i;
     memory := memory i; uptime := uptime i; main_pid := main_pid i;
     load_state := v; unit_file_state := unit_file_state i |}.

Definition set_unit_file_state (v : string) (i : service_info) : service_info :=
  {| name := name i; status := status i; active := active i; state := state i;
     memory := memory i; uptime := uptime i; main_pid := main_pid i;
     load_state := load_state i; unit_file_state := v |}.

(** One turn of the loop over the lines of [systemctl show]. *)
Definition show_line (w : world) (line : string) (info : service_info) : Exc service_info :=
  if Str.contains "=" line then
    match Str.split1 "=" line with
    | [key; value] =>
        if String.eqb key "MemoryCurrent" && negb (String.eqb value "[not set]")
           && Str.isdigit value then
          do memory_bytes <- int_of_str (int_max_str_digits w) value;
          if 0 <? memory_bytes then
            do m <- _format_bytes memory_bytes; Ok (set_memory m info)
          else Ok info
        else if String.eqb key "MainPID" && negb (String.eqb value "0") then
          Ok (set_main_pid value info)
        else if String.eqb key "ActiveEnterTimestamp" && negb (String.eqb value "") then
          Ok (set_uptime (_calculate_uptime (now_us w) value) info)
        else if String.eqb key "LoadState" then Ok (set_load_state value info)
        else if String.eqb key "UnitFileState" then Ok (set_unit_file_state value info)
        else Ok info
    | _ => Raise (ValueError "not enough values to unpack (expected 2, got 1)")
    end
  else Ok info.

Fixpoint show_lines (w : world) (lines : list string) (info : service_info) : Exc service_info :=
  match lines with
  | [] => Ok info
  | line :: rest => do info' <- show_line w line info; show_lines w rest info'
  end.

(** The two [except] clauses of [get_service_status]. *)
Definition status_on_exception (service_name : string) (e : exn) : service_info :=
  if is_timeout e then
    {| name := service_name; status := "Timeout"; active := false;
       state := "unknown"; memory := "N/A"; uptime := "N/A"; main_pid := "N/A";
       load_state := "N/A"; unit_file_state := "N/A" |}
  else
    {| name := service_name; status := "Error: " ++ exn_str e; active := false;
       state := "error"; memory := "N/A"; uptime := "N/A"; main_pid := "N/A";
       load_state := "N/A"; unit_file_state := "N/A" |}.

Definition show_properties : string :=
  "--property=MainPID,MemoryCurrent,CPUUsageNSec,ActiveEnterTimestamp,LoadState,UnitFileState".

Definition get_service_status (service_name : string) (w : world) : service_info * world :=
  match run ["systemctl"; "status"; service_name] 5 w with
  | (Raised e, w1) => (status_on_exception service_name e, w1)
  | (Completed result, w1) =>
    match run ["systemctl"; "is-active"; service_name] 5 w1 with
    | (Raised e, w2) => (status_on_exception service_name e, w2)
    | (Completed is_active, w2) =>
      match run ["systemctl"; "show"; service_name; show_properties] 5 w2 with
      | (Raised e, w3) => (status_on_exception service_name e, w3)
      | (Completed show_result, w3) =>
        let service_info :=
          {| name := service_name; status := stdout result;
             active := String.eqb (Str.strip (stdout is_active)) "active";
             state := Str.strip (stdout is_active);
             memory := "N/A"; uptime := "N/A"; main_pid := "N/A";
             load_state := "N/A"; unit_file_state := "N/A" |} in
        let parsed :=
          if returncode show_result =? 0 then
            show_lines w3 (Str.split "010" (Str.strip (stdout show_result))) service_info
          else Ok service_info in
        match parsed with
        | Ok info => (info, w3)
        | Raise e => (status_on_exception service_name e, w3)
        end
      end
    end
  end.

(** ** [control_service] *)

Record control_result : Type := {
  success : bool;
  message : string;
}.

Definition control_service (service_name action : string) (w : world) : control_result * world :=
  match run ["sudo"; "systemctl"; action; service_name] 10 w with
  | (Completed result, w1) =>
      ({| success := returncode result =? 0;
          message := stdout result ++ stderr result |}, w1)
  | (Raised e, w1) =>
      if is_timeout e then ({| success := false; message := "Operation timed out" |}, w1)
      else ({| success := false; message := "Error: " ++ exn_str e |}, w1)
  end.

End Dashboard.

(** ** [get_disk_usage] *)

Module Disk.
Import Num Sys.

Record disk_entry : Type := {
  filesystem : string;
  size : string;
  used : string;
  available : string;
  use_percent : string;
  use_percent_num : Z;
  mounted_on : string;
}.

Inductive disk_result : Type :=
  | Disks (disks : list disk_entry)
  | DiskError (error : string).

(** [int(use_percent) if use_percent.isdigit() else 0], inside its
    [try]: a [ValueError] gives 0 as well. *)
Definition percent_num (max_digits : nat) (use_percent : string) : Z :=
  if Str.isdigit use_percent then
    match int_of_str max_digits use_percent with
    | Ok n => n
    | Raise _ => 0
    end
  else 0.

(** The body of the loop over the data lines: a line of fewer than six
    columns adds nothing. *)
Definition disk_row (max_digits : nat) (line : string) : list disk_entry :=
  match Str.split_ws line with
  | p0 :: p1 :: p2 :: p3 :: p4 :: p5 :: rest =>
      let pct := Str.rstrip_char "%" p4 in
      [{| filesystem := p0; size := p1; used := p2; available := p3;
          use_percent := pct; use_percent_num := percent_num max_digits pct;
          mounted_on := Str.join " " (p5 :: rest) |}]
  | _ => []
  end.

(** [list.sort(key=..., reverse=True)]: stable, larger keys first. *)
Fixpoint insert_desc (x : disk_entry) (l : list disk_entry) : list disk_entry :=
  match l with
  | [] => [x]
  | y :: r =>
      if use_percent_num y <=? use_percent_num x then x :: l
      else y :: insert_desc x r
  end.

Definition sort_desc (l : list disk_entry) : list disk_entry :=
  fold_right insert_desc [] l.

Definition get_disk_usage (w : world) : disk_result * world :=
  match run ["df"; "-h"] 10 w with
  | (Completed result, w1) =>
      if negb (returncode result =? 0) then (DiskError "Failed to get disk usage", w1)
      else
        match Str.split "010" (Str.strip (stdout result)) with
        | header :: ((_ :: _) as rows) =>
            (Disks (sort_desc (concat (map (disk_row (int_max_str_digits w1)) rows))), w1)
        | _ => (DiskError "Invalid df output", w1)
        end
  | (Raised e, w1) =>
      if is_timeout e then (DiskError "Disk usage check timed out", w1)
      else (DiskError ("Error getting disk usage: " ++ exn_str e), w1)
  end.

End Disk.

(** ** [get_ram_usage] *)

Module Ram.
Import Float Num Sys Dashboard.

(** The four quantities are strings on both tiers: the columns of
    [free -h] on the first, formatted byte counts on the second. *)
Record ram_snapshot : Type := {
  total : string;
  used : string;
  free : string;
  available : string;
  use_percent : Z;
}.

Inductive ram_result : Type :=
  | RamUsage (r : ram_snapshot)
  | RamError (error : string).

(** [int((used_kb / total_kb) * 100) if total_kb > 0 else 0]. *)
Definition percent_of (used_kb total_kb : float) : Exc Z :=
  if gt_int total_kb 0 then
    do q <- div used_kb total_kb;
    to_int (mul q (of_Z 100))
  else Ok 0.

(** The inner [try] of the first tier: [ValueError] and
    [ZeroDivisionError] give 0, anything else propagates. *)
Definition primary_percent (total used : string) : Exc Z :=
  let r := do total_kb <- _parse_memory_value total;
           do used_kb <- _parse_memory_value used;
           percent_of used_kb total_kb in
  match r with
  | Raise (ValueError _) | Raise (ZeroDivisionError _) => Ok 0
  | _ => r
  end.

(** What the first tier ends with: a result, an exception that leaves
    [get_ram_usage], or the fall through to the second tier. *)
Inductive primary_end : Type :=
  | Returned (r : ram_snapshot)
  | Escaped (e : exn)
  | FellThrough.

Definition primary (o : outcome) : primary_end :=
  match o with
  | Completed result =>
      if returncode result =? 0 then
        match Str.split "010" (Str.strip (stdout result)) with
        | _ :: line1 :: _ =>
            match Str.split_ws line1 with
            | _ :: m1 :: m2 :: m3 :: _ :: _ :: m6 :: _ =>
                match primary_percent m1 m2 with
                | Ok p => Returned {| total := m1; used := m2; free := m3;
                                      available := m6; use_percent := p |}
                | Raise e => Escaped e
                end
            | _ => FellThrough
            end
        | _ => FellThrough
        end
      else FellThrough
  | Raised e =>
      if is_subprocess_error e || is_file_not_found e then FellThrough
      else Escaped e
  end.

(** One turn of the loop over the lines of [/proc/meminfo]. *)
Definition meminfo_line (max_digits : nat) (line : string) (mem_data : gmap string Z)
  : Exc (gmap string Z) :=
  if Str.contains ":" line then
    match Str.split1 ":" line with
    | [key; value] =>
        match Str.split_ws (Str.strip value) with
        | v0 :: _ =>
            if Str.isdigit v0 then
              do n <- int_of_str max_digits v0;
              Ok (<[Str.strip key := n * 1024]> mem_data)
            else Ok mem_data
        | [] => Ok mem_data
        end
    | _ => Raise (ValueError "not enough values to unpack (expected 2, got 1)")
    end
  else Ok mem_data.

Fixpoint meminfo_lines (max_digits : nat) (lines : list string) (mem_data : gmap string Z)
  : Exc (gmap string Z) :=
  match lines with
  | [] => Ok mem_data
  | line :: rest =>
      do m <- meminfo_line max_digits line mem_data;
      meminfo_lines max_digits rest m
  end.

Definition parse_meminfo (max_digits : nat) (text : string) : Exc (gmap string Z) :=
  meminfo_lines max_digits (Str.split "010" text) ∅.

(** [int((used_bytes / total_bytes) * 100) if total_bytes > 0 else 0]
    on two ints. *)
Definition fallback_percent (used_bytes total_bytes : Z) : Exc Z :=
  if 0 <? total_bytes then
    do q <- int_truediv used_bytes total_bytes;
    to_int (mul q (of_Z 100))
  else Ok 0.

(** The [if 'MemTotal' in mem_data] block; [None] when the key is
    absent. *)
Definition fallback_snapshot (mem_data : gmap string Z) : Exc (option ram_snapshot) :=
  match mem_data !! "MemTotal" with
  | Some total_bytes =>
      let available_bytes :=
        default (default 0 (mem_data !! "MemFree")) (mem_data !! "MemAvailable") in
      let free_bytes := default 0 (mem_data !! "MemFree") in
      let used_bytes := total_bytes - available_bytes in
      do total_formatted <- _format_bytes total_bytes;
      do used_formatted <- _format_bytes used_bytes;
      do free_formatted <- _format_bytes free_bytes;
      do available_formatted <- _format_bytes available_bytes;
      do p <- fallback_percent used_bytes total_bytes;
      Ok (Some {| total := total_formatted; used := used_formatted;
                  free := free_formatted; available := available_formatted;
                  use_percent := p |})
  | None => Ok None
  end.

(** The second tier, with its two [except] clauses and the final
    [return]. *)
Definition fallback (w : world) : ram_result :=
  let r := do text <- meminfo w;
           do mem_data <- parse_meminfo (int_max_str_digits w) text;
           fallback_snapshot mem_data in
  match r with
  | Ok (Some snap) => RamUsage snap
  | Ok None => RamError "Unable to determine RAM usage"
  | Raise e =>
      if is_os_error e then RamError ("Error reading memory info: " ++ exn_str e)
      else RamError ("Error getting RAM usage: " ++ exn_str e)
  end.

Definition get_ram_usage (w : world) : Exc ram_result * world :=
  let '(o, w1) := run ["free"; "-h"] 10 w in
  match primary o with
  | Returned r => (Ok (RamUsage r), w1)
  | Escaped e => (Raise e, w1)
  | FellThrough => (Ok (fallback w1), w1)
  end.

End Ram.

(** ** The SQLite store

    The two tables of [init_db].  A table is the list of its rows in
    insertion order; [AUTOINCREMENT] keeps the last id handed out.
    [CURRENT_TIMESTAMP] is the argument [ts] of the writers. *)

Module Store.

Record tracked_row : Type := {
  tr_id : Z;
  tr_service_name : string;
  tr_added_at : Z;
}.

Record toggle_row : Type := {
  tg_id : Z;
  tg_service_name : string;
  tg_toggle_type : string;
  tg_is_expanded : bool;
  tg_updated_at : Z;
}.

Record db : Type := {
  tracked_services : list tracked_row;
  tracked_seq : Z;
  service_toggles : list toggle_row;
  toggles_seq : Z;
}.

(** [init_db] on a fresh file. *)
Definition init_db : db :=
  {| tracked_services := []; tracked_seq := 0;
     service_toggles := []; toggles_seq := 0 |}.

(** [ORDER BY service_name]: ascending, byte by byte. *)
Fixpoint insert_asc (x : string) (l : list string) : list string :=
  match l with
  | [] => [x]
  | y :: r => if String.leb x y then x :: l else y :: insert_asc x r
  end.

Definition order_by_name (l : list string) : list string :=
  fold_right insert_asc [] l.

Definition get_tracked_services (d : db) : list string :=
  order_by_name (map tr_service_name (tracked_services d)).

Definition is_tracked (service_name : string) (d : db) : bool :=
  existsb (fun r => String.eqb (tr_service_name r) service_name) (tracked_services d).

(** [add_service]: the [INSERT] fails on the [UNIQUE] column with an
    [IntegrityError], which the method turns into [False]. *)
Definition add_service (service_name : string) (ts : Z) (d : db) : bool * db :=
  if is_tracked service_name d then (false, d)
  else
    (true,
     {| tracked_services :=
          (tracked_services d ++
           [{| tr_id := tracked_seq d + 1; tr_service_name := service_name;
               tr_added_at := ts |}])%list;
        tracked_seq := tracked_seq d + 1;
        service_toggles := service_toggles d;
        toggles_seq := toggles_seq d |}).

(** [remove_service]: [DELETE ... WHERE service_name = ?]. *)
Definition remove_service (service_name : string) (d : db) : db :=
  {| tracked_services :=
       List.filter (fun r => negb (String.eqb (tr_service_name r) service_name))
              (tracked_services d);
     tracked_seq := tracked_seq d;
     service_toggles := service_toggles d;
     toggles_seq := toggles_seq d |}.

Definition toggle_key (service_name toggle_type : string) (r : toggle_row) : bool :=
  String.eqb (tg_service_name r) service_name && String.eqb (tg_toggle_type r) toggle_type.

(** [get_toggle_state]: [fetchone()] of the selection, [False] when
    there is no row. *)
Definition get_toggle_state (service_name toggle_type : string) (d : db) : bool :=
  match find (toggle_key service_name toggle_type) (service_toggles d) with
  | Some r => tg_is_expanded r
  | None => false
  end.

(** [set_toggle_state]: [INSERT OR REPLACE] deletes the row the
    [UNIQUE(service_name, toggle_type)] constraint conflicts with, then
    inserts the new one under a new id. *)
Definition set_toggle_state (service_name toggle_type : string) (is_expanded : bool)
    (ts : Z) (d : db) : db :=
  {| tracked_services := tracked_services d;
     tracked_seq := tracked_seq d;
     service_toggles :=
       (List.filter (fun r => negb (toggle_key service_name toggle_type r))
                    (service_toggles d) ++
        [{| tg_id := toggles_seq d + 1; tg_service_name := service_name;
            tg_toggle_type := toggle_type; tg_is_expanded := is_expanded;
            tg_updated_at := ts |}])%list;
     toggles_seq := toggles_seq d + 1 |}.

(** The states the store goes through: from [init_db], by the three
    writers. *)
Inductive reachable : db -> Prop :=
  | reach_init : reachable init_db
  | reach_add name ts d : reachable d -> reachable (snd (add_service name ts d))
  | reach_remove name d : reachable d -> reachable (remove_service name d)
  | reach_toggle name ty v ts d : reachable d -> reachable (set_toggle_state name ty v ts d).

End Store.

(** ** The request handlers *)

Module Handler.
Import Sys Dashboard.

(** A decoded JSON value. *)
#[local] Unset Elimination Schemes.
Inductive json : Type :=
  | JNull
  | JBool (b : bool)
  | JNumber (n : Z)
  | JString (s : string)
  | JArray (l : list json)
  | JObject (l : list (string * json)).
#[local] Set Elimination Schemes.

(** What a handler sends. *)
Inductive response : Type :=
  | SendError (code : Z) (message : string)
  | SendControl (status : Z) (result : control_result)
  | SendServices (status : Z) (services : list service_info).

(** [action not in ["start", "stop", "restart"]], for [action =
    data.get("action")]: the allowed action, if it is one. *)
Definition allowed_action (action : option json) : option string :=
  match action with
  | Some (JString s) =>
      if String.eqb s "start" || String.eqb s "stop" || String.eqb s "restart"
      then Some s else None
  | _ => None
  end.

Definition _handle_control_service (service_name : string) (data : gmap string json)
    (w : world) : response * world :=
  match allowed_action (data !! "action") with
  | None => (SendError 400 "Invalid action", w)
  | Some action =>
      let '(result, w1) := control_service service_name action w in
      (SendControl 200 result, w1)
  end.

(** The loop of [_handle_get_services]. *)
Fixpoint service_data (services : list string) (w : world) : list service_info * world :=
  match services with
  | [] => ([], w)
  | service :: rest =>
      let '(status, w1) := get_service_status service w in
      let '(l, w2) := service_data rest w1 in
      (status :: l, w2)
  end.

Definition _handle_get_services (d : Store.db) (w : world) : response * world :=
  let '(l, w1) := service_data (Store.get_tracked_services d) w in
  (SendServices 200 l, w1).

End Handler.

(** ** The vocabulary of the properties *)

Module Spec.
Import Float Num Sys Dashboard Handler.

(** The unit the size of a byte count calls for: 0 for [B], ..., 4 for
    [TB]. *)
Definition unit_index (b : Z) : nat :=
  if b <? 1024 then 0
  else if b <? 1024 ^ 2 then 1
  else if b <? 1024 ^ 3 then 2
  else if b <? 1024 ^ 4 then 3
  else 4.

Definition unit_name (i : nat) : string := nth i ["B"; "KB"; "MB"; "GB"; "TB"] "".

(** Digits, a point, one digit. *)
Definition one_decimal (s : string) : Prop :=
  exists ip d, s = ip ++ "." ++ String d "" /\
               Str.isdigit ip = true /\ Str.is_digit d = true.

(** The first int that [float()] refuses: it rounds to [2^1024]. *)
Definition float_limit : Z := 2 ^ 1024 - 2 ^ 970.

(** The buckets of the uptime formatter, on an elapsed time that is the
    double of [k] units: whole seconds below a minute, whole minutes
    below an hour, hours and remainder minutes below a day, days and
    remainder hours from there on. *)
Definition uptime_text (k : Z) : string :=
  if k <? 60 * one then str (k / one) ++ "s"
  else if k <? 3600 * one then str (k / (60 * one)) ++ "m"
  else if k <? 86400 * one then
    str (k / (3600 * one)) ++ "h " ++ str (k mod (3600 * one) / (60 * one)) ++ "m"
  else
    str (k / (86400 * one)) ++ "d " ++ str (k mod (86400 * one) / (3600 * one)) ++ "h".

(** The largest [timedelta], in microseconds: 999999999 days,
    23:59:59.999999. *)
Definition timedelta_max_us : Z := 1000000000 * 86400 * 1000000 - 1.

(** [x] times [n] in double arithmetic, for [n] a power of two: exact,
    or infinite when the product leaves the range. *)
Definition scaled (x : float) (n : Z) : float :=
  match x with
  | Fin k => if Z.abs (k * n) <? huge then Fin (k * n) else Inf (k <? 0)
  | _ => x
  end.

(** What [float()] returns is a double. *)
Definition is_double (x : float) : Prop :=
  match x with
  | Fin k => representable k /\ Z.abs k < huge
  | _ => True
  end.

(** The three sub-queries of a status query, each with its timeout. *)
Definition status_query (service_name : string) : list command :=
  [ {| argv := ["systemctl"; "status"; service_name]; timeout := 5 |};
    {| argv := ["systemctl"; "is-active"; service_name]; timeout := 5 |};
    {| argv := ["systemctl"; "show"; service_name; show_properties]; timeout := 5 |} ].

Definition timed_out (o : outcome) : Prop := exists m, o = Raised (TimeoutExpired m).
Definition completes (o : outcome) : Prop := exists r, o = Completed r.

(** The [i]-th command of [cs] is started, every one before it having
    completed, and it exceeds its timeout. *)
Definition times_out_at (w : world) (cs : list command) (i : nat) : Prop :=
  (forall j c, (j < i)%nat -> nth_error cs j = Some c ->
               completes (spawn w (length (started w) + j) c)) /\
  exists c, nth_error cs i = Some c /\ timed_out (spawn w (length (started w) + i) c).

Definition timeout_record (service_name : string) : service_info :=
  {| name := service_name; status := "Timeout"; active := false; state := "unknown";
     memory := "N/A"; uptime := "N/A"; main_pid := "N/A";
     load_state := "N/A"; unit_file_state := "N/A" |}.

(** The action of a control request is one of the three allowed. *)
Definition allowed (action : option json) : Prop :=
  action = Some (JString "start") \/ action = Some (JString "stop") \/
  action = Some (JString "restart").

Definition control_command (service_name action : string) : command :=
  {| argv := ["sudo"; "systemctl"; action; service_name]; timeout := 10 |}.

(** A world in which every command has the outcome [o] and
    [/proc/meminfo] reads as [mi]; nothing has been started yet. *)
Definition world_of (o : outcome) (mi : Exc string) : world :=
  {| spawn := fun _ _ => o; started := []; meminfo := mi;
     now_us := 0; int_max_str_digits := 4300 |}.

(** Larger percentage first. *)
Definition by_percent_desc (a b : Disk.disk_entry) : Prop :=
  Disk.use_percent_num b <= Disk.use_percent_num a.

(** What is said of one row: the number is a valid integer, not
    negative, and 0 when the percent column is not all digits. *)
Definition row_ok (r : Disk.disk_entry) : Prop :=
  0 <= Disk.use_percent_num r /\
  (Str.isdigit (Disk.use_percent r) = false -> Disk.use_percent_num r = 0).

Definition df_command : command := {| argv := ["df"; "-h"]; timeout := 10 |}.

(** The tracked names, in insertion order. *)
Definition names (d : Store.db) : list string :=
  map Store.tr_service_name (Store.tracked_services d).

(** The order of [ORDER BY service_name]: byte by byte. *)
Definition str_lt (a b : string) : Prop := String.ltb a b = true.
Definition str_le (a b : string) : Prop := String.leb a b = true.

Definition free_command : command := {| argv := ["free"; "-h"]; timeout := 10 |}.

(** The first tier is unavailable: the command times out, is absent,
    fails (as a sub-process error or with a non-zero exit code), or its
    output lacks the second line or the seven columns expected on it. *)
Definition primary_unavailable (o : outcome) : Prop :=
  timed_out o \/ (exists m, o = Raised (FileNotFoundError m)) \/
  (exists m, o = Raised (SubprocessError m)) \/
  (exists r, o = Completed r /\
     (returncode r <> 0 \/
      (length (Str.split "010" (Str.strip (stdout r))) < 2)%nat \/
      exists line1,
        nth_error (Str.split "010" (Str.strip (stdout r))) 1 = Some line1 /\
        (length (Str.split_ws line1) < 7)%nat)).

(** A bound on the quantities of [/proc/meminfo] under which no double
    of the second tier leaves the range. *)
Definition meminfo_bound : Z := 2 ^ 1000.

(** A [/proc/meminfo] of a machine of 16 GB with 29 % in use. *)
Definition meminfo_16g : string :=
  "MemTotal:       16000000 kB
MemFree:         1000000 kB
MemAvailable:   11360000 kB
".

End Spec.

(** ** [_format_memory_kb] *)

Module Memory.
Import Float Num.

(** [v >= z] for a Python int [z]: the two are compared exactly. *)
Definition ge_int (v : number_value) (z : Z) : bool :=
  match v with
  | PyInt n => z <=? n
  | PyFloat (Fin a) => z * one <=? a
  | PyFloat (Inf s) => negb s
  | PyFloat NaN => false
  end.

(** [v / z] for a Python int [z]: two ints give the correctly rounded
    quotient; a float has the int converted first. *)
Definition truediv_int (v : number_value) (z : Z) : Exc float :=
  match v with
  | PyInt n => int_truediv n z
  | PyFloat x => do y <- of_int z; div x y
  end.

Definition _format_memory_kb (kb_value : number_value) : Exc string :=
  if ge_int kb_value (1024 * 1024 * 1024) then
    do q <- truediv_int kb_value (1024 * 1024 * 1024); Ok (fixed1 q ++ "T")
  else if ge_int kb_value (1024 * 1024) then
    do q <- truediv_int kb_value (1024 * 1024); Ok (fixed1 q ++ "G")
  else if ge_int kb_value 1024 then
    do q <- truediv_int kb_value 1024; Ok (fixed1 q ++ "M")
  else
    do s <- format_1f kb_value; Ok (s ++ "K").

End Memory.

(** ** [get_all_toggle_states] *)

Module Toggles.
Import Store.



End Toggles.

(** ** [get_service_logs] and [get_full_journal]

    [json.loads] is the decoder of the standard library; the two methods
    only tell a decoded value, a [JSONDecodeError] and any other exception
    apart, so the decoder is a parameter. *)

Module Journal.
Import Num Sys.

Inductive loaded (value : Type) : Type :=
  | Loaded (log_entry : value)
  | JSONDecodeError (msg : string)
  | LoadRaised (e : exn).
Arguments Loaded {value} log_entry.
Arguments JSONDecodeError {value} msg.
Arguments LoadRaised {value} e.

(** What the two methods return: the list of entries or a text. *)
Inductive journal (value : Type) : Type :=
  | Entries (json_logs : list value)
  | Text (message : string).
Arguments Entries {value} json_logs.
Arguments Text {value} message.

(** [str(z)] for an int, with the limit on the number of digits. *)
Definition str_of_int (max_digits : nat) (z : Z) : Exc string :=
  if negb (Nat.eqb max_digits 0) && Nat.ltb max_digits (String.length (str (Z.abs z))) then
    Raise (ValueError "Exceeds the limit for integer string conversion")
  else Ok (str z).

Section Decoder.
Context {value : Type}.
Variable json_loads : string -> loaded value.

(** The loop over the lines of the output: a blank line and a line that
    does not decode are passed over. *)
Fixpoint journal_lines (lines : list string) (json_logs : list value) : Exc (list value) :=
  match lines with
  | [] => Ok json_logs
  | line :: rest =>
      if String.eqb (Str.strip line) "" then journal_lines rest json_logs
      else
        match json_loads line with
        | Loaded log_entry => journal_lines rest (json_logs ++ [log_entry])%list
        | JSONDecodeError _ => journal_lines rest json_logs
        | LoadRaised e => Raise e
        end
  end.

(** From the completed process on. *)
Definition journal_of (failure : string) (result : completed) : Exc (journal value) :=
  if negb (returncode result =? 0) then
    Ok (Text (if String.eqb (stderr result) "" then failure else stderr result))
  else
    do json_logs <- journal_lines (Str.split "010" (Str.strip (stdout result))) [];
    Ok (Entries json_logs).

Definition get_service_logs (service_name : string) (lines : Z) (w : world)
  : journal value * world :=
  match str_of_int (int_max_str_digits w) lines with
  | Raise e => (Text ("Error getting logs: " ++ exn_str e), w)
  | Ok n =>
      match run ["journalctl"; "-u"; service_name; "-n"; n; "--no-pager"; "-o"; "json"]
                10 w with
      | (Completed result, w1) =>
          match journal_of "Error getting logs" result with
          | Ok j => (j, w1)
          | Raise e => (Text ("Error getting logs: " ++ exn_str e), w1)
          end
      | (Raised e, w1) => (Text ("Error getting logs: " ++ exn_str e), w1)
      end
  end.

Definition get_full_journal (service_name : string) (w : world) : journal value * world :=
  match run ["journalctl"; "-u"; service_name; "--no-pager"; "-o"; "json"] 30 w with
  | (Completed result, w1) =>
      match journal_of "Error getting journal" result with
      | Ok j => (j, w1)
      | Raise e => (Text ("Error getting journal: " ++ exn_str e), w1)
      end
  | (Raised e, w1) => (Text ("Error getting journal: " ++ exn_str e), w1)
  end.

End Decoder.

End Journal.

(** ** The dispatch of [do_GET] and [do_DELETE]

    Both start from the path that [urllib.parse.urlparse] cuts out of the
    request line and, for [do_GET], the dict that [parse_qs] makes of the
    query. *)

Module Router.
Import Num Store.

(** [s[n:]]. *)
Fixpoint drop (n : nat) (s : string) : string :=
  match n, s with
  | O, _ => s
  | S n', String _ r => drop n' r
  | S _, EmptyString => EmptyString
  end.

(** [s.startswith(p)] and [s.endswith(p)]. *)
Definition startswith (p s : string) : bool := String.prefix p s.

Definition endswith (p s : string) : bool :=
  (String.length p <=? String.length s)%nat &&
  String.eqb (drop (String.length s - String.length p) s) p.

(** The white space that [int()] skips around an ASCII text: TAB..CR and
    the space. *)
Definition is_c_space (c : ascii) : bool :=
  ((9 <=? Str.code c) && (Str.code c <=? 13) || (Str.code c =? 32))%N.

(** [int(s)] for a string: white space around, a sign, then digits with
    single underscores between them. *)
Definition int_of_text (max_digits : nat) (s : string) : Exc Z :=
  let '(neg, body) := sign_of (Str.lstrip_by is_c_space (Str.rstrip_by is_c_space s)) in
  match digitpart body with
  | Some (ds, EmptyString) =>
      if negb (Nat.eqb max_digits 0) && Nat.ltb max_digits (String.length ds) then
        Raise (ValueError "Exceeds the limit for integer string conversion")
      else
        let n := Str.digits_value 0 ds in Ok (if neg then - n else n)
  | _ => Raise (ValueError ("invalid literal for int() with base 10: '" ++ s ++ "'"))
  end.

(** [DashboardRequestHandler.__init__]: the base URL without its
    trailing slashes. *)
Definition handler_base_url (base_url : string) : string := Str.rstrip_char "/" base_url.

(** The first lines of the three methods: the base URL is cut off a path
    that starts with it. *)
Definition strip_base_url (base_url path : string) : string :=
  if negb (String.eqb base_url "") && startswith base_url path then
    let rest := drop (String.length base_url) path in
    if String.eqb rest "" then "/" else rest
  else path.

(** [path.split("/")[3]]. *)
Definition service_segment (path : string) : Exc string :=
  match nth_error (Str.split "/" path) 3 with
  | Some service_name => Ok service_name
  | None => Raise (OtherException "list index out of range")
  end.

(** [query_params.get("lines", ["50"])[0]]. *)
Definition lines_param (query_params : gmap string (list string)) : Exc string :=
  match default ["50"] (query_params !! "lines") with
  | v :: _ => Ok v
  | [] => Raise (OtherException "list index out of range")
  end.

(** The method of the handler that [do_GET] calls, with its arguments. *)
Inductive get_call : Type :=
  | ServeTemplate
  | HandleGetServices
  | HandleGetLogs (service_name : string) (lines : Z)
  | HandleGetJournal (service_name : string)
  | HandleGetToggleStates
  | HandleGetDiskUsage
  | HandleGetRamUsage
  | GetSendError (code : Z) (message : string).

Definition do_GET (base_url : string) (max_digits : nat) (path : string)
    (query_params : gmap string (list string)) : Exc get_call :=
  let path := strip_base_url base_url path in
  if String.eqb path "/" then Ok ServeTemplate
  else if String.eqb path "/api/services" then Ok HandleGetServices
  else if startswith "/api/services/" path && endswith "/logs" path then
    do service_name <- service_segment path;
    do v <- lines_param query_params;
    do lines <- int_of_text max_digits v;
    Ok (HandleGetLogs service_name lines)
  else if startswith "/api/services/" path && endswith "/journal" path then
    do service_name <- service_segment path;
    Ok (HandleGetJournal service_name)
  else if String.eqb path "/api/toggle-states" then Ok HandleGetToggleStates
  else if String.eqb path "/api/disk-usage" then Ok HandleGetDiskUsage
  else if String.eqb path "/api/ram-usage" then Ok HandleGetRamUsage
  else Ok (GetSendError 404 "Not Found").

(** What [do_DELETE] sends. *)
Inductive delete_reply : Type :=
  | DeleteError (code : Z) (message : string)
  | DeleteDone (status : Z) (success : bool) (message : string).

Definition _handle_remove_service_by_name (service_name : string) (d : db)
  : delete_reply * db :=
  (DeleteDone 200 true ("Stopped tracking " ++ service_name),
   remove_service service_name d).

Definition do_DELETE (base_url path : string) (d : db) : Exc (delete_reply * db) :=
  let path := strip_base_url base_url path in
  if startswith "/api/services/" path && (length (Str.split "/" path) =? 4)%nat then
    do service_name <- service_segment path;
    Ok (_handle_remove_service_by_name service_name d)
  else Ok (DeleteError 404 "Not Found", d).

End Router.
(** ** Further vocabulary *)

Module Terms.
Import Float Num Sys Dashboard Store Spec.

(** The last instant a [datetime] can hold, 9999-12-31 23:59:59.999999,
    in microseconds since 0001-01-01 00:00:00. *)
Definition datetime_max_us : Z := 3652059 * 86400 * 1000000 - 1.



(** The [i]-th command of [cs] is started, every one before it having
    completed, and raises [e]. *)
Definition raises_at (w : world) (cs : list command) (i : nat) (e : exn) : Prop :=
  (forall j c, (j < i)%nat -> nth_error cs j = Some c ->
               completes (spawn w (length (started w) + j) c)) /\
  exists c, nth_error cs i = Some c /\ spawn w (length (started w) + i) c = Raised e.


(** The record of the second [except] clause of [get_service_status]. *)
Definition error_record (service_name : string) (e : exn) : service_info :=
  {| name := service_name; status := "Error: " ++ exn_str e; active := false;
     state := "error"; memory := "N/A"; uptime := "N/A"; main_pid := "N/A";
     load_state := "N/A"; unit_file_state := "N/A" |}.

(** What the memory field of a record can hold: the placeholder, or a
    positive byte count as [_format_bytes] writes it. *)
Definition memory_text (s : string) : Prop :=
  s = "N/A" \/ exists n, 0 < n /\ _format_bytes n = Ok s.

(** What every record of [get_service_status] satisfies. *)
Definition record_ok (i : service_info) : Prop :=
  active i = String.eqb (state i) "active" /\ memory_text (memory i).

(** A column of a line of output: not empty, no white space in it. *)
Fixpoint no_space (s : string) : bool :=
  match s with
  | EmptyString => true
  | String c r => negb (Str.is_space c) && no_space r
  end.

Definition word (s : string) : Prop := s <> "" /\ no_space s = true.

(** A line of output: each word after so many further blanks, one
    blank between two words. *)
Fixpoint blanks (k : nat) : string :=
  match k with
  | O => EmptyString
  | S k' => String " " (blanks k')
  end.

Fixpoint spaced (ws : list (nat * string)) : string :=
  match ws with
  | [] => EmptyString
  | (k, w) :: r =>
      blanks k ++ w ++ match r with [] => EmptyString | _ :: _ => String " " (spaced r) end
  end.

(** A last character that no text of a float has and that is none of
    the suffixes [T], [G], [M], [K]: the [i] of [Gi], the [B] of [512B]. *)
Definition foreign_suffix (c : ascii) : bool :=
  negb (Str.is_digit c || Str.is_space c
        || existsb (Ascii.eqb c) ["."; "+"; "-"; "T"; "G"; "M"; "K"]%char
        || existsb (Ascii.eqb (Str.lower c)) ["e"; "f"; "n"; "y"]%char).

(** An output of [free -h] in binary units. *)
Definition free_iec : completed :=
  {| returncode := 0; stderr := "";
     stdout := "               total        used        free      shared  buff/cache   available
Mem:            15Gi       4.2Gi       8.1Gi       312Mi       3.1Gi        10Gi
Swap:          2.0Gi          0B       2.0Gi" |}.

(** An output of [free] whose used column reads [inf]. *)
Definition free_inf : completed :=
  {| returncode := 0; stderr := "";
     stdout := "       total  used  free  shared  buff/cache  available
Mem:   2G  inf  0  0  0  0" |}.

(** The entries of a list that show the percentage [p]. *)
Definition with_percent (p : Z) (l : list Disk.disk_entry) : list Disk.disk_entry :=
  List.filter (fun e => Disk.use_percent_num e =? p) l.

(** The two commands of the journal. *)
Definition logs_command (service_name : string) (lines : Z) : command :=
  {| argv := ["journalctl"; "-u"; service_name; "-n"; str lines; "--no-pager"; "-o"; "json"];
     timeout := 10 |}.

Definition journal_command (service_name : string) : command :=
  {| argv := ["journalctl"; "-u"; service_name; "--no-pager"; "-o"; "json"];
     timeout := 30 |}.

(** The lines of the output of a command, as the methods cut them. *)
Definition output_lines (r : completed) : list string :=
  Str.split "010" (Str.strip (stdout r)).

(** The entries that a list of lines holds: the decoded value of every
    line that is not blank and decodes, in the order of the lines. *)
Definition entries_of {value : Type} (json_loads : string -> Journal.loaded value)
    (lines : list string) : list value :=
  flat_map (fun line =>
              if String.eqb (Str.strip line) "" then []
              else match json_loads line with
                   | Journal.Loaded log_entry => [log_entry]
                   | _ => []
                   end) lines.

(** The first line, if any, on which the decoder raises something else
    than a [JSONDecodeError]. *)
Fixpoint first_raised {value : Type} (json_loads : string -> Journal.loaded value)
    (lines : list string) : option exn :=
  match lines with
  | [] => None
  | line :: rest =>
      if String.eqb (Str.strip line) "" then first_raised json_loads rest
      else match json_loads line with
           | Journal.LoadRaised e => Some e
           | _ => first_raised json_loads rest
           end
  end.

End Terms.

(** * Properties *)

(** ** Rounding

    What the proofs below need of the rounding: it is exact on a value
    that is representable, it always gives a representable value, and it
    never crosses a representable bound. *)

Module FloatFacts.
Import Float.

Lemma one_pos : 0 < one.
Proof. reflexivity. Qed.

Lemma rne_cases n d : 0 < d ->
  (rne n d = n / d \/ rne n d = n / d + 1) /\
  (n mod d = 0 -> rne n d = n / d).
Proof.
  intros Hd. unfold rne.
  destruct (Z.compare_spec (2 * (n mod d)) d) as [H|H|H];
    [destruct (Z.even (n / d))|..]; split; auto; intros; lia.
Qed.

Lemma rne_le n d t : 0 < d -> n <= t * d -> rne n d <= t.
Proof.
  intros Hd Hn.
  destruct (rne_cases n d Hd) as [[H|H] H0].
  - rewrite H. apply Z.div_le_upper_bound; lia.
  - destruct (Z.eq_dec (n mod d) 0) as [E|E];
      [rewrite (H0 E); apply Z.div_le_upper_bound; lia|].
    rewrite H.
    assert (n / d < t); [|lia].
    apply Z.div_lt_upper_bound; [lia|].
    pose proof (Z.mod_pos_bound n d Hd). pose proof (Z.div_mod n d ltac:(lia)).
    destruct (Z.eq_dec n (t * d)) as [->|]; [|lia].
    rewrite Z.mod_mul in E; lia.
Qed.

Lemma rne_ge n d t : 0 < d -> t * d <= n -> t <= rne n d.
Proof.
  intros Hd Hn.
  assert (t <= n / d) by (apply Z.div_le_lower_bound; lia).
  destruct (rne_cases n d Hd) as [[H'|H'] _]; lia.
Qed.

(** Below the midpoint between [t] and [t + 1] the rounding stays at
    [t] or under. *)
Lemma rne_le_half n d t : 0 < d -> 2 * n < (2 * t + 1) * d -> rne n d <= t.
Proof.
  intros Hd Hn. unfold rne.
  pose proof (Z.mod_pos_bound n d Hd) as Hr.
  pose proof (Z.div_mod n d ltac:(lia)) as Hq.
  assert (n / d <= t) by (apply Z.lt_succ_r, Z.div_lt_upper_bound; nia).
  destruct (Z.compare_spec (2 * (n mod d)) d) as [H1|H1|H1];
    [destruct (Z.even (n / d))|..]; try lia;
    destruct (Z.eq_dec (n / d) t) as [E|E]; try lia; rewrite E in Hq; nia.
Qed.

Lemma rne_exact t d : 0 < d -> rne (t * d) d = t.
Proof.
  intros Hd. destruct (rne_cases (t * d) d Hd) as [_ H].
  rewrite H by (apply Z.mod_mul; lia). apply Z.div_mul; lia.
Qed.

Lemma rne_opp n d : 0 < d -> rne (- n) d = - rne n d.
Proof.
  intros Hd. unfold rne.
  destruct (Z.eq_dec (n mod d) 0) as [E|E].
  - rewrite Z.mod_opp_l_z, Z.div_opp_l_z, E by lia.
    replace (2 * 0) with 0 by lia.
    destruct (Z.compare_spec 0 d); lia.
  - rewrite Z.mod_opp_l_nz, Z.div_opp_l_nz by lia.
    pose proof (Z.mod_pos_bound n d Hd).
    destruct (Z.compare_spec (2 * (n mod d)) d) as [H1|H1|H1];
    destruct (Z.compare_spec (2 * (d - n mod d)) d) as [H2|H2|H2]; try lia.
    replace (- (n / d) - 1) with (- (n / d + 1)) by lia.
    rewrite Z.even_opp, Z.even_add. simpl.
    destruct (Z.even (n / d)); simpl; lia.
Qed.

Lemma rne_abs_le n d : 0 < d -> Z.abs (rne n d) <= Z.abs n / d + 1.
Proof.
  intros Hd.
  assert (Hpos : forall n, 0 <= n -> Z.abs (rne n d) <= Z.abs n / d + 1).
  { intros n0 Hn0. rewrite (Z.abs_eq n0) by lia.
    assert (0 <= n0 / d) by (apply Z.div_pos; lia).
    destruct (rne_cases n0 d Hd) as [[H'|H'] _]; lia. }
  destruct (Z.le_gt_cases 0 n) as [Hn|Hn]; [auto|].
  replace n with (- (- n)) at 1 by lia.
  rewrite rne_opp, Z.abs_opp, <- (Z.abs_opp n) by lia.
  apply Hpos; lia.
Qed.

Lemma binade_pos t : 2 ^ 53 <= t -> 1 <= Z.log2 t - 52 /\ 0 < 2 ^ (Z.log2 t - 52).
Proof.
  intros Ht.
  assert (53 <= Z.log2 t) by (apply Z.log2_le_pow2; lia).
  split; [lia|]. apply Z.pow_pos_nonneg; lia.
Qed.

Lemma round53_opp n d : 0 < d -> round53 (- n) d = - round53 n d.
Proof.
  intros Hd. unfold round53. rewrite Z.abs_opp.
  destruct (Z.ltb_spec (Z.abs n / d) (2 ^ 53)) as [H|H].
  - apply rne_opp; lia.
  - cbv zeta. destruct (binade_pos _ H) as [_ Hk].
    rewrite rne_opp; [lia|]. apply Z.mul_pos_pos; lia.
Qed.

(** A representable value of 54 bits or more is a multiple of the
    spacing of its binade. *)
Lemma representable_divide t k :
  representable t -> 2 ^ 53 <= Z.abs t -> 0 <= k <= Z.log2 (Z.abs t) - 52 ->
  exists t', t = t' * 2 ^ k.
Proof.
  intros (m & e & He & Hm & ->) Ht Hk.
  assert (Hke : k <= e).
  { assert (Z.log2 (Z.abs (m * 2 ^ e)) < 53 + e); [|lia].
    apply Z.log2_lt_pow2; [lia|].
    rewrite Z.abs_mul, (Z.abs_eq (2 ^ e)), Z.pow_add_r by lia.
    assert (0 < 2 ^ e) by (apply Z.pow_pos_nonneg; lia). nia. }
  exists (m * 2 ^ (e - k)).
  replace e with (e - k + k) at 1 by lia.
  rewrite (Z.pow_add_r 2 (e - k) k) by lia. ring.
Qed.

Lemma round53_exact t d : 0 < d -> representable t -> round53 (t * d) d = t.
Proof.
  intros Hd Ht. unfold round53.
  rewrite Z.abs_mul, (Z.abs_eq d), Z.div_mul by lia.
  destruct (Z.ltb_spec (Z.abs t) (2 ^ 53)) as [H|H].
  - apply rne_exact; lia.
  - cbv zeta. destruct (binade_pos _ H) as [Hk1 Hk].
    set (k := Z.log2 (Z.abs t) - 52) in *.
    destruct (representable_divide t k Ht H ltac:(lia)) as [t' Et].
    replace (t * d) with (t' * (d * 2 ^ k)) by (rewrite Et at 1; ring).
    rewrite rne_exact by (apply Z.mul_pos_pos; lia). symmetry; exact Et.
Qed.

Lemma representable_of_bound r e : 0 <= e -> Z.abs r <= 2 ^ 53 -> representable (r * 2 ^ e).
Proof.
  intros He Hr.
  destruct (Z.eq_dec (Z.abs r) (2 ^ 53)) as [E|E].
  - exists (Z.sgn r), (53 + e). split; [lia|]. split; [lia|].
    rewrite Z.pow_add_r, <- E, Z.mul_assoc by lia.
    f_equal. lia.
  - exists r, e. repeat split; lia.
Qed.

Lemma round53_representable n d : 0 < d -> representable (round53 n d).
Proof.
  intros Hd. unfold round53.
  pose proof (rne_abs_le n d Hd) as Hb.
  destruct (Z.ltb_spec (Z.abs n / d) (2 ^ 53)) as [H|H].
  - replace (rne n d) with (rne n d * 2 ^ 0) by (simpl; lia).
    apply representable_of_bound; lia.
  - cbv zeta. destruct (binade_pos _ H) as [Hk1 Hk].
    set (t := Z.abs n / d) in *. set (k := Z.log2 t - 52) in *.
    apply representable_of_bound; [lia|].
    pose proof (rne_abs_le n (d * 2 ^ k) ltac:(apply Z.mul_pos_pos; lia)) as Hb'.
    rewrite <- Z.div_div in Hb' by lia. fold t in Hb'.
    assert (t / 2 ^ k < 2 ^ 53); [|lia].
    apply Z.div_lt_upper_bound; [lia|].
    rewrite <- Z.pow_add_r by lia.
    replace (k + 53) with (Z.succ (Z.log2 t)) by lia.
    apply Z.log2_spec. lia.
Qed.

Lemma round53_le n d t :
  0 < d -> 0 <= n -> representable t -> n <= t * d -> round53 n d <= t.
Proof.
  intros Hd Hn Ht Hnt. unfold round53. rewrite (Z.abs_eq n) by lia.
  assert (HT : n / d <= t) by (apply Z.div_le_upper_bound; lia).
  destruct (Z.ltb_spec (n / d) (2 ^ 53)) as [H|H].
  - apply rne_le; auto.
  - cbv zeta. destruct (binade_pos _ H) as [Hk1 Hk].
    set (k := Z.log2 (n / d) - 52) in *.
    destruct (representable_divide t k Ht) as [t' ->].
    + lia.
    + rewrite (Z.abs_eq t) by lia.
      assert (Z.log2 (n / d) <= Z.log2 t) by (apply Z.log2_le_mono; lia). lia.
    + apply Z.mul_le_mono_nonneg_r; [lia|].
      apply rne_le; [apply Z.mul_pos_pos; lia|lia].
Qed.

Lemma round53_ge n d t :
  0 < d -> 0 <= t -> representable t -> t * d <= n -> t <= round53 n d.
Proof.
  intros Hd Ht0 Ht Hnt. unfold round53.
  assert (Hn : 0 <= n) by nia. rewrite (Z.abs_eq n) by lia.
  assert (HT : t <= n / d) by (apply Z.div_le_lower_bound; lia).
  destruct (Z.ltb_spec (n / d) (2 ^ 53)) as [H|H].
  - apply rne_ge; auto.
  - cbv zeta. destruct (binade_pos _ H) as [Hk1 Hk].
    set (T := n / d) in *. set (k := Z.log2 T - 52) in *.
    assert (HTs : 2 ^ Z.log2 T <= T) by (apply Z.log2_spec; lia).
    assert (HdT : T * d <= n) by (unfold T; rewrite Z.mul_comm; apply Z.mul_div_le; lia).
    destruct (Z.lt_ge_cases t (2 ^ Z.log2 T)) as [Hlt|Hge].
    + assert (2 ^ 52 <= rne n (d * 2 ^ k)).
      { apply rne_ge; [apply Z.mul_pos_pos; lia|].
        replace (2 ^ 52 * (d * 2 ^ k)) with (2 ^ (52 + k) * d)
          by (rewrite Z.pow_add_r by lia; ring).
        replace (52 + k) with (Z.log2 T) by lia. nia. }
      replace (2 ^ Z.log2 T) with (2 ^ 52 * 2 ^ k) in Hlt
        by (rewrite <- Z.pow_add_r by lia; f_equal; lia).
      nia.
    + assert (Hlog : Z.log2 t = Z.log2 T).
      { apply Z.le_antisymm; [apply Z.log2_le_mono; lia|].
        apply Z.log2_le_pow2; lia. }
      assert (2 ^ 53 <= 2 ^ Z.log2 T) by (apply Z.pow_le_mono_r; lia).
      destruct (representable_divide t k Ht) as [t' ->].
      * rewrite (Z.abs_eq t); lia.
      * rewrite (Z.abs_eq t) by lia. lia.
      * apply Z.mul_le_mono_nonneg_r; [lia|].
        apply rne_ge; [apply Z.mul_pos_pos; lia|lia].
Qed.

End FloatFacts.

(** ** [_format_bytes] *)

Module FormatFacts.
Import Float Num Dashboard FloatFacts Spec.

Lemma one_ge : 2 ^ 53 <= one.
Proof. unfold one. apply Z.pow_le_mono_r; lia. Qed.

Lemma huge_split : huge = 2 ^ 54 * 2 ^ 970 * one.
Proof. reflexivity. Qed.

Lemma float_limit_split : float_limit = (2 ^ 54 - 1) * 2 ^ 970.
Proof. reflexivity. Qed.

Lemma huge_ge : 2 ^ 53 * one <= huge.
Proof.
  rewrite huge_split. pose proof one_pos.
  assert (0 < 2 ^ 970) by (apply Z.pow_pos_nonneg; lia).
  generalize dependent (2 ^ 970). intros A HA. nia.
Qed.

Lemma rne_scale n d c : 0 < d -> 0 < c -> rne (n * c) (d * c) = rne n d.
Proof.
  intros Hd Hc. unfold rne.
  rewrite Z.div_mul_cancel_r, Z.mul_mod_distr_r by lia.
  replace (2 * (n mod d * c)) with (2 * (n mod d) * c) by ring.
  rewrite <- (Zcompare_mult_compat (Z.to_pos c) (2 * (n mod d)) d).
  rewrite Z2Pos.id by lia.
  rewrite (Z.mul_comm c d), (Z.mul_comm c). reflexivity.
Qed.

Lemma representable_int z : Z.abs z < 2 ^ 53 -> representable (z * one).
Proof. intros H. exists z, 1074. repeat split; auto; lia. Qed.

Lemma representable_pow2 e : 0 <= e -> representable (2 ^ e).
Proof. intros He. exists 1, e. repeat split; lia. Qed.

Lemma representable_2_53_one : representable (2 ^ 53 * one).
Proof.
  replace (2 ^ 53 * one) with (2 ^ (53 + 1074)).
  - apply representable_pow2. lia.
  - rewrite Z.pow_add_r by lia. reflexivity.
Qed.

Lemma round64_exact k d :
  0 < d -> representable k -> Z.abs k < huge -> round64 (k * d) (d * one) = Fin k.
Proof.
  intros Hd Hk Hh. unfold round64.
  replace (k * d * one) with (k * (d * one)) by ring.
  rewrite round53_exact by (auto; pose proof one_pos; nia).
  destruct (Z.ltb_spec (Z.abs k) huge); [reflexivity|lia].
Qed.

Lemma small_lt_huge z : Z.abs z < 2 ^ 53 -> Z.abs (z * one) < huge.
Proof.
  intros H. pose proof huge_ge. pose proof one_pos.
  rewrite Z.abs_mul, (Z.abs_eq one) by lia. nia.
Qed.

Lemma of_int_small z : Z.abs z < 2 ^ 53 -> of_int z = Ok (Fin (z * one)).
Proof.
  intros H. unfold of_int, round64.
  assert (E : round53 (z * one) 1 = z * one).
  { rewrite <- (Z.mul_1_r (z * one)) at 1.
    apply round53_exact; auto using representable_int; lia. }
  rewrite E. pose proof (small_lt_huge z H).
  destruct (Z.ltb_spec (Z.abs (z * one)) huge); [reflexivity|lia].
Qed.

Lemma limit_half A D q b :
  0 < D -> 0 < q -> D * q = 2 * A -> b < (2 ^ 54 - 1) * A ->
  2 * b < (2 * (2 ^ 53 * q - 1) + 1) * D.
Proof. intros. nia. Qed.

Lemma limit_bound A D q P R :
  0 < P -> 0 < D -> 0 < q -> D * q = 2 * A -> R <= 2 ^ 53 * q - 1 ->
  R * (D * P) < 2 ^ 54 * A * P.
Proof.
  intros HP HD Hq HA HR.
  assert (R * D <= (2 ^ 53 * q - 1) * D) by (apply Z.mul_le_mono_nonneg_r; lia).
  assert (R * D < 2 ^ 54 * A) by lia.
  replace (R * (D * P)) with (R * D * P) by ring.
  apply Z.mul_lt_mono_pos_r; lia.
Qed.

Lemma limit_log2 A b : 0 < A -> 0 < b -> b < (2 ^ 54 - 1) * A -> b < 2 ^ 54 * A.
Proof. intros. nia. Qed.

(** An int of 54 bits or more is rounded to 53 bits, and stays finite as
    long as it is below the midpoint between the largest double and
    [2^1024]. *)
Lemma of_int_large b :
  2 ^ 53 <= b < float_limit ->
  exists k, of_int b = Ok (Fin k) /\ representable k /\ 2 ^ 53 * one <= k < huge.
Proof.
  intros [Hlo Hhi]. unfold of_int, round64.
  set (k := round53 (b * one) 1).
  pose proof one_pos as Hone.
  assert (Hrep : representable k) by (apply round53_representable; lia).
  assert (Hb1 : 2 ^ 53 * one * 1 <= b * one) by (clear - Hlo Hone; nia).
  assert (Hge : 2 ^ 53 * one <= k).
  { apply round53_ge; [lia|lia|apply representable_2_53_one|exact Hb1]. }
  assert (Hlt : k < huge).
  { unfold k, round53.
    rewrite Z.abs_eq, Z.div_1_r by (clear - Hb1 Hone; lia).
    destruct (Z.ltb_spec (b * one) (2 ^ 53)) as [H|H]; [clear - H Hb1 Hone; nia|].
    cbv zeta. rewrite Z.mul_1_l.
    assert (Hlog : Z.log2 (b * one) = 1074 + Z.log2 b)
      by (apply Z.log2_mul_pow2; lia).
    rewrite Hlog.
    assert (H53 : 53 <= Z.log2 b) by (apply Z.log2_le_pow2; lia).
    rewrite float_limit_split in Hhi.
    assert (HA0 : 0 < 2 ^ 970) by (apply Z.pow_pos_nonneg; lia).
    assert (H1023 : Z.log2 b < 1024).
    { apply Z.log2_lt_pow2; [lia|].
      replace (2 ^ 1024) with (2 ^ 54 * 2 ^ 970)
        by (rewrite <- Z.pow_add_r by lia; reflexivity).
      apply limit_log2; [exact HA0|lia|exact Hhi]. }
    set (j := Z.log2 b - 52) in *.
    replace (1074 + Z.log2 b - 52) with (j + 1074) by lia.
    rewrite Z.pow_add_r by lia. fold one.
    assert (HD : 0 < 2 ^ j) by (apply Z.pow_pos_nonneg; lia).
    assert (Hq : 0 < 2 ^ (971 - j)) by (apply Z.pow_pos_nonneg; lia).
    rewrite rne_scale by assumption.
    assert (HA : 2 ^ j * 2 ^ (971 - j) = 2 * 2 ^ 970).
    { rewrite <- Z.pow_add_r by lia. replace (j + (971 - j)) with (1 + 970) by lia.
      rewrite Z.pow_add_r by lia. reflexivity. }
    assert (HR : rne b (2 ^ j) <= 2 ^ 53 * 2 ^ (971 - j) - 1).
    { apply rne_le_half; [exact HD|].
      exact (limit_half _ _ _ _ HD Hq HA Hhi). }
    rewrite huge_split.
    exact (limit_bound _ _ _ _ _ Hone HD Hq HA HR). }
  fold k.
  destruct (Z.ltb_spec (Z.abs k) huge) as [|Hh]; [exists k; auto|].
  exfalso. clear - Hh Hlt Hge Hone. lia.
Qed.

(** At the midpoint above an odd [t], or beyond it, the rounding goes up
    to [t + 1]. *)
Lemma rne_half_up n d t :
  0 < d -> Z.odd t = true -> (2 * t + 1) * d <= 2 * n -> n < (t + 1) * d ->
  rne n d = t + 1.
Proof.
  intros Hd Ht Hlo Hhi. unfold rne.
  assert (Hq : n / d = t).
  { symmetry. apply (Z.div_unique_pos n d t (n - t * d)); nia. }
  pose proof (Z.div_mod n d ltac:(lia)) as Hm. rewrite Hq in *.
  rewrite <- Z.negb_odd, Ht. cbn [negb].
  destruct (Z.compare_spec (2 * (n mod d)) d) as [H|H|H]; try reflexivity.
  exfalso. nia.
Qed.

Lemma limit_up A b :
  0 < A -> (2 ^ 54 - 1) * A <= b -> (2 * (2 ^ 53 - 1) + 1) * (2 * A) <= 2 * b.
Proof. intros. nia. Qed.

Lemma huge_representable : representable huge.
Proof. unfold huge. apply representable_pow2. lia. Qed.

(** From the midpoint between the largest double and [2^1024] on, an int
    rounds to [2^1024] or more. *)
Lemma round53_limit b : float_limit <= b -> huge <= round53 (b * one) 1.
Proof.
  intros Hlim. pose proof one_pos as Hone.
  assert (HA0 : 0 < 2 ^ 970) by (apply Z.pow_pos_nonneg; lia).
  assert (E1024 : 2 ^ 1024 = 2 ^ 54 * 2 ^ 970)
    by (rewrite <- Z.pow_add_r by lia; reflexivity).
  destruct (Z.le_gt_cases (2 ^ 1024) b) as [Hb|Hb].
  - apply round53_ge; [lia|unfold huge; lia|apply huge_representable|].
    rewrite huge_split, <- E1024, Z.mul_1_r.
    apply Z.mul_le_mono_nonneg_r; lia.
  - rewrite float_limit_split in Hlim.
    assert (Hb0 : 2 ^ 1023 <= b).
    { replace (2 ^ 1023) with (2 ^ 53 * 2 ^ 970)
        by (rewrite <- Z.pow_add_r by lia; reflexivity).
      clear - Hlim HA0. generalize dependent (2 ^ 970). intros. nia. }
    assert (Hbpos : 0 < b).
    { assert (0 < 2 ^ 1023) by (apply Z.pow_pos_nonneg; lia). lia. }
    assert (Hlog : Z.log2 b = 1023).
    { apply Z.log2_unique; [lia|]. split; [exact Hb0|].
      replace (1023 + 1) with 1024 by lia. exact Hb. }
    unfold round53. rewrite Z.abs_eq, Z.div_1_r by (clear - Hbpos Hone; nia).
    destruct (Z.ltb_spec (b * one) (2 ^ 53)) as [H|H].
    { exfalso.
      assert (2 ^ 53 <= b).
      { apply Z.le_trans with (2 ^ 1023); [apply Z.pow_le_mono_r; lia|exact Hb0]. }
      clear - H H0 Hone. nia. }
    cbv zeta. rewrite Z.mul_1_l.
    assert (Hlog' : Z.log2 (b * one) = 1074 + Z.log2 b)
      by (apply Z.log2_mul_pow2; lia).
    rewrite Hlog', Hlog.
    replace (1074 + 1023 - 52) with (971 + 1074) by lia.
    rewrite Z.pow_add_r by lia. fold one.
    assert (HD : 0 < 2 ^ 971) by (apply Z.pow_pos_nonneg; lia).
    rewrite rne_scale by assumption.
    assert (E971 : 2 ^ 971 = 2 * 2 ^ 970)
      by (replace 971 with (1 + 970) by lia; rewrite Z.pow_add_r by lia; reflexivity).
    assert (R : rne b (2 ^ 971) = 2 ^ 53 - 1 + 1).
    { apply rne_half_up; [exact HD|reflexivity| |].
      - rewrite E971. apply limit_up; assumption.
      - rewrite E971. rewrite E1024 in Hb. clear - Hb HA0.
        generalize dependent (2 ^ 970). intros. lia. }
    rewrite R, huge_split, E971.
    clear. generalize (2 ^ 970) one. intros. apply Z.eq_le_incl. ring. 
Qed.

Lemma of_int_overflow b :
  float_limit <= b -> of_int b = Raise (OverflowError "int too large to convert to float").
Proof.
  intros Hlim. pose proof (round53_limit b Hlim) as H.
  unfold of_int, round64.
  destruct (Z.ltb_spec (Z.abs (round53 (b * one) 1)) huge) as [Hh|Hh]; [|reflexivity].
  exfalso. lia.
Qed.

(** An int of 1024 or more is converted for the first division, which
    is where the loop stops when the conversion fails. *)
Lemma format_bytes_raises b e :
  1024 <= b -> of_int b = Raise e -> _format_bytes b = Raise e.
Proof.
  intros Hb E. unfold _format_bytes.
  cbn [format_bytes_loop lt_float ltb of_Z truediv_float].
  pose proof one_pos.
  destruct (Z.ltb_spec (b * one) (1024 * one)); [nia|].
  rewrite E. reflexivity.
Qed.

Lemma float_limit_ge : 1024 <= float_limit.
Proof. unfold float_limit. lia. Qed.

Lemma div_fin a b :
  b <> 0 -> div (Fin a) (Fin b) = Ok (round64 (a * Z.sgn b) (Z.abs b)).
Proof. intros Hb. unfold div. destruct b; [lia|reflexivity..]. Qed.

(** A double of 1024 or more is divided by 1024 exactly. *)
Lemma div_1024 k :
  representable k -> 1024 * one <= k < huge ->
  div (Fin k) (of_Z 1024) = Ok (Fin (k / 1024)) /\
  representable (k / 1024) /\ k = 1024 * (k / 1024).
Proof.
  intros (m & e & He & Hm & ->) [Hlo Hhi].
  pose proof one_pos as Hone. pose proof one_ge as Hone'.
  assert (He10 : 10 <= e).
  { destruct (Z.le_gt_cases 10 e) as [|Hlt]; [auto|exfalso].
    assert (2 ^ e <= 2 ^ 10) by (apply Z.pow_le_mono_r; lia).
    assert (0 < 2 ^ e) by (apply Z.pow_pos_nonneg; lia).
    assert (m * 2 ^ e < 2 ^ 53 * 2 ^ 10) by (clear - Hm H H0; nia).
    clear - Hlo Hone' H1. lia. }
  assert (E : m * 2 ^ e = m * 2 ^ (e - 10) * 1024).
  { replace e with (e - 10 + 10) at 1 by lia.
    rewrite (Z.pow_add_r 2 (e - 10) 10) by lia. change (2 ^ 10) with 1024. ring. }
  rewrite E in Hhi |- *. rewrite Z.div_mul by lia.
  assert (Hrep : representable (m * 2 ^ (e - 10)))
    by (exists m, (e - 10); repeat split; lia).
  split; [|split; [auto|ring]].
  unfold of_Z. rewrite div_fin by lia.
  rewrite Z.sgn_pos, Z.abs_eq, Z.mul_1_r by lia.
  f_equal. apply round64_exact; [lia|auto|].
  clear - Hhi Hlo E Hone. lia.
Qed.

Lemma step_1024 k :
  representable k -> 1024 * one <= k < huge ->
  exists k', k = 1024 * k' /\ representable k' /\ k / 1024 = k'.
Proof.
  intros Hk Hr. destruct (div_1024 k Hk Hr) as (_ & Hrep & E).
  exists (k / 1024). auto.
Qed.

Lemma loop_float_lt u r k :
  k < 1024 * one ->
  format_bytes_loop (u :: r) (PyFloat (Fin k)) = Ok (fixed1 (Fin k) ++ u).
Proof.
  intros H. cbn [format_bytes_loop lt_float ltb of_Z].
  destruct (Z.ltb_spec k (1024 * one)); [reflexivity|lia].
Qed.

Lemma loop_float_ge u r k :
  representable k -> 1024 * one <= k < huge ->
  format_bytes_loop (u :: r) (PyFloat (Fin k)) =
  format_bytes_loop r (PyFloat (Fin (k / 1024))).
Proof.
  intros Hk H. cbn [format_bytes_loop lt_float ltb of_Z truediv_float].
  destruct (Z.ltb_spec k (1024 * one)); [lia|].
  destruct (div_1024 k Hk H) as (E & _). rewrite E. reflexivity.
Qed.

Lemma loop_int_lt u r b k :
  b < 1024 -> of_int b = Ok (Fin k) ->
  format_bytes_loop (u :: r) (PyInt b) = Ok (fixed1 (Fin k) ++ u).
Proof.
  intros H E. cbn [format_bytes_loop lt_float ltb of_Z format_1f].
  pose proof one_pos.
  destruct (Z.ltb_spec (b * one) (1024 * one)); [|nia].
  rewrite E. reflexivity.
Qed.

Lemma loop_int_ge u r b k :
  1024 <= b -> of_int b = Ok (Fin k) -> representable k -> 1024 * one <= k < huge ->
  format_bytes_loop (u :: r) (PyInt b) =
  format_bytes_loop r (PyFloat (Fin (k / 1024))).
Proof.
  intros H E Hk Hr. cbn [format_bytes_loop lt_float ltb of_Z truediv_float].
  pose proof one_pos.
  destruct (Z.ltb_spec (b * one) (1024 * one)); [clear - H H0 H1; nia|].
  rewrite E. cbn [bindE].
  destruct (div_1024 k Hk Hr) as (E' & _). rewrite E'. reflexivity.
Qed.

Lemma uint_all_digits d : Str.all_digits (NilEmpty.string_of_uint d) = true.
Proof. induction d; simpl; auto. Qed.

Lemma str_isdigit z : 0 <= z -> Str.isdigit (str z) = true.
Proof.
  intros Hz. unfold str. destruct z as [|p|p]; [reflexivity| |lia].
  unfold Z.to_int, NilZero.string_of_int, NilZero.string_of_uint.
  destruct (Pos.to_uint p) eqn:E; try reflexivity;
    rewrite <- E; pose proof (uint_all_digits (Pos.to_uint p)) as H;
    rewrite E in *; simpl in *; exact H.
Qed.

Lemma str_one_digit z :
  0 <= z < 10 -> exists d, str z = String d "" /\ Str.is_digit d = true.
Proof.
  intros Hz.
  assert (z = 0 \/ z = 1 \/ z = 2 \/ z = 3 \/ z = 4 \/ z = 5 \/ z = 6 \/ z = 7
          \/ z = 8 \/ z = 9) as H by lia.
  repeat (destruct H as [->|H]; [eexists; split; reflexivity|]).
  subst. eexists; split; reflexivity.
Qed.

Lemma fixed1_shape k : 0 <= k -> one_decimal (fixed1 (Fin k)).
Proof.
  intros Hk. unfold fixed1.
  destruct (Z.ltb_spec k 0); [lia|].
  set (t := rne (10 * Z.abs k) one).
  assert (0 <= t) by (apply rne_ge; [apply one_pos|lia]).
  destruct (str_one_digit (t mod 10)) as (d & Ed & Hd); [apply Z.mod_pos_bound; lia|].
  exists (str (t / 10)), d. rewrite Ed. repeat split; auto.
  apply str_isdigit, Z.div_pos; lia.
Qed.

Lemma one_split : exists c, 0 < c /\ one = 1024 ^ 4 * c.
Proof. exists (2 ^ 1034). split; reflexivity. Qed.

(** The double of a byte count: exact below [2^53], at least [2^53]
    above. *)
Lemma of_int_bytes b :
  0 <= b < float_limit ->
  exists k, of_int b = Ok (Fin k) /\ representable k /\ 0 <= k < huge /\
            (b < 2 ^ 53 -> k = b * one) /\ (2 ^ 53 <= b -> 2 ^ 53 * one <= k).
Proof.
  intros [Hb0 Hblim]. pose proof one_pos as Hone.
  destruct (Z.lt_ge_cases b (2 ^ 53)) as [Hs|Hl].
  - exists (b * one). rewrite of_int_small by lia.
    pose proof (small_lt_huge b ltac:(lia)) as Hh.
    rewrite Z.abs_eq in Hh by (clear - Hb0 Hone; nia).
    repeat split; auto; try lia; try (clear - Hb0 Hone; nia).
    apply representable_int; lia.
  - destruct (of_int_large b ltac:(lia)) as (k & E & Hr & Hk).
    exists k. repeat split; auto; try (clear - Hk Hone; lia); intros; lia.
Qed.

(** The comparisons of the loop, read on the byte count. *)
Lemma scaled_lt b c n : 0 < c -> b < n -> b * c < n * c.
Proof. intros. nia. Qed.

Lemma scaled_ge b c n : 0 < c -> n <= b -> n * c <= b * c.
Proof. intros. nia. Qed.

(** The rendering of a byte count in the range of doubles: unit by
    size, exact divisions, one decimal. *)
Lemma format_bytes_render b :
  0 <= b < float_limit ->
  exists k,
    of_int b = Ok (Fin k) /\ (b < 2 ^ 53 -> k = b * one) /\
    let i := unit_index b in
    k mod 1024 ^ Z.of_nat i = 0 /\
    _format_bytes b = Ok (fixed1 (Fin (k / 1024 ^ Z.of_nat i)) ++ unit_name i) /\
    one_decimal (fixed1 (Fin (k / 1024 ^ Z.of_nat i))).
Proof.
  intros Hb. destruct (of_int_bytes b Hb) as (k & E & Hrep & Hrange & Hs & Hl).
  destruct Hb as [Hb0 _].
  destruct one_split as (c & Hc & Hone).
  exists k. split; [exact E|]. split; [exact Hs|].
  unfold _format_bytes, unit_index.
  assert (Hbc : b < 2 ^ 53 -> k = 1024 ^ 4 * (b * c))
    by (intros; rewrite Hs by lia; clear - Hone; lia).
  assert (Hbig : 2 ^ 53 <= b -> 2 ^ 53 * (1024 ^ 4 * c) <= k)
    by (intros; rewrite <- Hone; auto).
  clear Hs Hl.
  destruct (Z.ltb_spec b 1024) as [H1|H1].
  { cbn [Z.of_nat Z.pow unit_name nth]. rewrite Z.pow_0_r, Z.mod_1_r, Z.div_1_r.
    rewrite (loop_int_lt _ _ _ _ H1 E). repeat split. apply fixed1_shape; lia. }
  pose proof (scaled_ge b c 1024 Hc H1) as S1.
  assert (Hk1 : 1024 * one <= k < huge).
  { split; [|lia]. destruct (Z.lt_ge_cases b (2 ^ 53)) as [Hlt|Hge];
      [specialize (Hbc Hlt)|specialize (Hbig Hge)]; clear - Hone Hc S1 Hbc Hbig; lia. }
  destruct (step_1024 k Hrep Hk1) as (k1 & E1 & Hrep1 & D1).
  rewrite (loop_int_ge _ _ _ _ H1 E Hrep Hk1), D1.
  destruct (Z.ltb_spec b (1024 ^ 2)) as [H2|H2].
  { pose proof (scaled_lt b c (1024 ^ 2) Hc H2).
    rewrite loop_float_lt by (specialize (Hbc ltac:(lia)); clear - Hone Hbc E1 H; lia).
    change (1024 ^ Z.of_nat 1) with 1024. rewrite D1.
    repeat split; [rewrite E1, Z.mul_comm; apply Z.mod_mul; lia|].
    apply fixed1_shape; lia. }
  pose proof (scaled_ge b c (1024 ^ 2) Hc H2) as S2.
  assert (Hk2 : 1024 * one <= k1 < huge).
  { split; [|lia]. destruct (Z.lt_ge_cases b (2 ^ 53)) as [Hlt|Hge];
      [specialize (Hbc Hlt)|specialize (Hbig Hge)];
      clear - Hone Hc S2 Hbc Hbig E1; lia. }
  destruct (step_1024 k1 Hrep1 Hk2) as (k2 & E2 & Hrep2 & D2).
  rewrite (loop_float_ge _ _ _ Hrep1 Hk2), D2.
  assert (Dk2 : k / 1024 ^ 2 = k2 /\ k mod 1024 ^ 2 = 0).
  { replace k with (k2 * 1024 ^ 2) by lia. rewrite Z.div_mul, Z.mod_mul by lia. auto. }
  destruct (Z.ltb_spec b (1024 ^ 3)) as [H3|H3].
  { pose proof (scaled_lt b c (1024 ^ 3) Hc H3).
    rewrite loop_float_lt
      by (specialize (Hbc ltac:(lia)); clear - Hone Hbc E1 E2 H; lia).
    change (Z.of_nat 2) with 2. destruct Dk2 as [-> ->].
    repeat split. apply fixed1_shape; lia. }
  pose proof (scaled_ge b c (1024 ^ 3) Hc H3) as S3.
  assert (Hk3 : 1024 * one <= k2 < huge).
  { split; [|lia]. destruct (Z.lt_ge_cases b (2 ^ 53)) as [Hlt|Hge];
      [specialize (Hbc Hlt)|specialize (Hbig Hge)];
      clear - Hone Hc S3 Hbc Hbig E1 E2; lia. }
  destruct (step_1024 k2 Hrep2 Hk3) as (k3 & E3 & Hrep3 & D3).
  rewrite (loop_float_ge _ _ _ Hrep2 Hk3), D3.
  assert (Dk3 : k / 1024 ^ 3 = k3 /\ k mod 1024 ^ 3 = 0).
  { replace k with (k3 * 1024 ^ 3) by lia. rewrite Z.div_mul, Z.mod_mul by lia. auto. }
  destruct (Z.ltb_spec b (1024 ^ 4)) as [H4|H4].
  { pose proof (scaled_lt b c (1024 ^ 4) Hc H4).
    rewrite loop_float_lt
      by (specialize (Hbc ltac:(lia)); clear - Hone Hbc E1 E2 E3 H; lia).
    change (Z.of_nat 3) with 3. destruct Dk3 as [-> ->].
    repeat split. apply fixed1_shape; lia. }
  pose proof (scaled_ge b c (1024 ^ 4) Hc H4) as S4.
  assert (Hk4 : 1024 * one <= k3 < huge).
  { split; [|lia]. destruct (Z.lt_ge_cases b (2 ^ 53)) as [Hlt|Hge];
      [specialize (Hbc Hlt)|specialize (Hbig Hge)];
      clear - Hone Hc S4 Hbc Hbig E1 E2 E3; lia. }
  destruct (step_1024 k3 Hrep3 Hk4) as (k4 & E4 & Hrep4 & D4).
  rewrite (loop_float_ge _ _ _ Hrep3 Hk4), D4.
  assert (Dk4 : k / 1024 ^ 4 = k4 /\ k mod 1024 ^ 4 = 0).
  { replace k with (k4 * 1024 ^ 4) by lia. rewrite Z.div_mul, Z.mod_mul by lia. auto. }
  change (Z.of_nat 4) with 4. destruct Dk4 as [-> ->].
  cbn [format_bytes_loop format_1f bindE unit_name nth].
  repeat split. apply fixed1_shape; lia.
Qed.

(** C1, as amended.  For every byte count [0 <= b] that [float()] accepts
    ([b < 2^1024 - 2^970]), [_format_bytes b] returns the number
    [float(b) / 1024^i] followed directly by the unit of index [i], where
    [i] is 0 ([B]) below 1024, 1 ([KB]) below [1024^2], 2 ([MB]) below
    [1024^3], 3 ([GB]) below [1024^4] and 4 ([TB]) from there on; each of
    the [i] divisions by 1024 is exact; the number is written as digits,
    a point and exactly one digit.  Below [2^53] the conversion
    [float(b)] is exact as well.  For every byte count from
    [2^1024 - 2^970] on, the conversion [float(b)] raises [OverflowError],
    and so does [_format_bytes b]: the bound is the exact one. *)
Theorem format_bytes_units b :
  0 <= b ->
  (b < float_limit ->
   exists k,
     of_int b = Ok (Fin k) /\ (b < 2 ^ 53 -> k = b * one) /\
     let i := unit_index b in
     k mod 1024 ^ Z.of_nat i = 0 /\
     _format_bytes b = Ok (fixed1 (Fin (k / 1024 ^ Z.of_nat i)) ++ unit_name i) /\
     one_decimal (fixed1 (Fin (k / 1024 ^ Z.of_nat i)))) /\
  (float_limit <= b ->
   of_int b = Raise (OverflowError "int too large to convert to float") /\
   _format_bytes b = Raise (OverflowError "int too large to convert to float")).
Proof.
  intros Hb. split.
  - intros Hlim. exact (format_bytes_render b (conj Hb Hlim)).
  - intros Hlim. pose proof (of_int_overflow b Hlim) as E.
    split; [exact E|]. apply format_bytes_raises; [|exact E].
    pose proof float_limit_ge. lia.
Qed.

Lemma format_bytes_units_witness :
  (exists k, of_int 1536 = Ok (Fin k) /\
             _format_bytes 1536 = Ok (fixed1 (Fin (k / 1024 ^ 1)) ++ "KB")) /\
  (exists k, of_int (float_limit - 1) = Ok (Fin k) /\
             _format_bytes (float_limit - 1) = Ok (fixed1 (Fin (k / 1024 ^ 4)) ++ "TB")) /\
  _format_bytes float_limit = Raise (OverflowError "int too large to convert to float").
Proof.
  split; [|split].
  - destruct (proj1 (format_bytes_units 1536 ltac:(lia))) as (k & E & _ & _ & F & _).
    + unfold float_limit. lia.
    + exists k. split; [exact E|exact F].
  - assert (H0 : 0 <= float_limit - 1) by (unfold float_limit; lia).
    destruct (proj1 (format_bytes_units (float_limit - 1) H0)) as (k & E & _ & _ & F & _).
    + lia.
    + exists k. split; [exact E|exact F].
  - assert (H0 : 0 <= float_limit) by (unfold float_limit; lia).
    exact (proj2 (proj2 (format_bytes_units float_limit H0) (Z.le_refl _))).
Defined.

(** C1 as stated fails: a byte count of [2^1024] is at least [1024^4],
    and [_format_bytes] raises instead of rendering it in [TB]. *)
Lemma format_bytes_overflow :
  0 <= 2 ^ 1024 /\ 1024 ^ 4 <= 2 ^ 1024 /\
  _format_bytes (2 ^ 1024) = Raise (OverflowError "int too large to convert to float").
Proof. split; [lia|]. split; [lia|]. vm_compute. reflexivity. Qed.

End FormatFacts.

(** ** [_calculate_uptime] *)

Module UptimeFacts.
Import Float Num Dashboard FloatFacts Spec FormatFacts.

Lemma lt_huge_of_small k : 0 <= k < 2 ^ 53 * one -> Z.abs k < huge.
Proof. intros H. pose proof huge_ge. lia. Qed.

Lemma round64_one k :
  representable k -> Z.abs k < huge -> round64 k one = Fin k.
Proof.
  intros Hk Hh. pose proof (round64_exact k 1 ltac:(lia) Hk Hh) as E.
  rewrite Z.mul_1_r, Z.mul_1_l in E. exact E.
Qed.

Lemma sub_exact a b :
  representable (a - b) -> Z.abs (a - b) < huge -> sub (Fin a) (Fin b) = Fin (a - b).
Proof. intros. cbn [sub]. apply round64_one; auto. Qed.

Lemma div_exact q w :
  0 < w -> representable (q * one) -> Z.abs (q * one) < huge ->
  div (Fin (q * (w * one))) (Fin (w * one)) = Ok (Fin (q * one)).
Proof.
  intros Hw Hq Hh. pose proof one_pos.
  rewrite div_fin by nia.
  rewrite Z.sgn_pos, Z.abs_eq, Z.mul_1_r by nia.
  replace (q * (w * one)) with (q * one * w) by ring.
  rewrite round64_exact; auto.
Qed.

(** The quotient of a double by a whole number of seconds: its product
    with the divisor is below [2^53] and so are both factors. *)
Lemma quotient_small k w :
  0 <= k < 2 ^ 53 * one -> 0 < w ->
  let q := k / (w * one) in
  0 <= q /\ q * w < 2 ^ 53 /\ q < 2 ^ 53 /\ q * (w * one) <= k.
Proof.
  intros Hk Hw q. pose proof one_pos as Hone.
  assert (HW : 0 < w * one) by nia.
  assert (Hq0 : 0 <= q) by (apply Z.div_pos; lia).
  assert (Hqk : q * (w * one) <= k)
    by (unfold q; rewrite Z.mul_comm; apply Z.mul_div_le; lia).
  assert (Hqw : q * w < 2 ^ 53) by nia.
  repeat split; auto. nia.
Qed.

Lemma floordiv_exact k w :
  representable k -> 0 <= k < 2 ^ 53 * one -> 0 < w ->
  floordiv (Fin k) (of_Z w) = Ok (Fin (k / (w * one) * one)).
Proof.
  intros Hrep Hk Hw. pose proof one_pos as Hone.
  destruct (quotient_small k w Hk Hw) as (Hq0 & Hqw & Hq & Hqk).
  set (q := k / (w * one)) in *.
  assert (HW : 0 < w * one) by nia.
  assert (Hmod : k - k mod (w * one) = q * (w * one)).
  { pose proof (Z.div_mod k (w * one) ltac:(lia)). fold q in H. lia. }
  assert (Hr : 0 <= k mod (w * one) < w * one) by (apply Z.mod_pos_bound; lia).
  unfold floordiv, of_Z.
  destruct (w * one) as [|W|W] eqn:EW; try lia. rewrite <- EW in *.
  cbn [fmod]. destruct (Z.eqb_spec (w * one) 0) as [|_]; [lia|].
  rewrite Z.rem_mod_nonneg by lia.
  assert (Hrepq : representable (q * one)) by (apply representable_int; lia).
  assert (Hhq : Z.abs (q * one) < huge).
  { apply lt_huge_of_small. split; [nia|]. apply Z.mul_lt_mono_pos_r; lia. }
  rewrite sub_exact.
  2:{ rewrite Hmod. replace (q * (w * one)) with (q * w * one) by ring.
      apply representable_int. lia. }
  2:{ rewrite Hmod. apply lt_huge_of_small. lia. }
  rewrite Hmod, div_exact by auto. cbn [bindE].
  assert (Hsame : forall y, match Fin (k mod (w * one)) with
                        | Fin 0 => Fin (q * one)
                        | _ => if Bool.eqb (ltb (Fin (w * one)) (Fin 0))
                                           (ltb (Fin (k mod (w * one))) (Fin 0))
                               then Fin (q * one) else y
                        end = Fin (q * one)).
  { intros y. cbn [ltb].
    destruct (Z.ltb_spec (w * one) 0); [lia|].
    destruct (Z.ltb_spec (k mod (w * one)) 0); [lia|].
    destruct (k mod (w * one)); reflexivity. }
  rewrite Hsame. f_equal.
  destruct (q * one) as [|Q|Q] eqn:EQ; [reflexivity| |lia].
  rewrite <- EQ. cbn [floor]. rewrite Z.div_mul by lia.
  rewrite sub_exact.
  - rewrite Z.sub_diag. cbn [ltb].
    destruct (Z.ltb_spec (one / 2) 0) as [Hneg|]; [|reflexivity].
    pose proof (Z.div_pos one 2 ltac:(lia) ltac:(lia)). lia.
  - rewrite Z.sub_diag. exists 0, 0. repeat split; lia.
  - rewrite Z.sub_diag. pose proof huge_ge. simpl. lia.
Qed.

Lemma mod_representable k w :
  representable k -> 0 <= k -> 0 < w < 2 ^ 53 -> representable (k mod (w * one)).
Proof.
  intros (m & e & He & Hm & ->) Hk Hw.
  assert (Hpe : 0 < 2 ^ e) by (apply Z.pow_pos_nonneg; lia).
  assert (Hm0 : 0 <= m) by nia.
  destruct (Z.le_gt_cases e 1074) as [Hle|Hgt].
  - replace (w * one) with (w * 2 ^ (1074 - e) * 2 ^ e).
    2:{ unfold one. replace 1074 with (1074 - e + e) at 2 by lia.
        rewrite (Z.pow_add_r 2 (1074 - e) e) by lia. ring. }
    assert (0 < 2 ^ (1074 - e)) by (apply Z.pow_pos_nonneg; lia).
    rewrite Z.mul_mod_distr_r by nia.
    exists (m mod (w * 2 ^ (1074 - e))), e. repeat split; auto.
    pose proof (Z.mod_pos_bound m (w * 2 ^ (1074 - e)) ltac:(nia)).
    pose proof (Z.mod_le m (w * 2 ^ (1074 - e)) Hm0 ltac:(nia)). lia.
  - replace (m * 2 ^ e) with (m * 2 ^ (e - 1074) * one).
    2:{ unfold one. replace e with (e - 1074 + 1074) at 2 by lia.
        rewrite (Z.pow_add_r 2 (e - 1074) 1074) by lia. ring. }
    pose proof one_pos.
    rewrite Z.mul_mod_distr_r by lia.
    apply representable_int.
    pose proof (Z.mod_pos_bound (m * 2 ^ (e - 1074)) w ltac:(lia)). lia.
Qed.

Lemma rem_exact k w :
  0 <= k -> 0 < w -> rem (Fin k) (of_Z w) = Ok (Fin (k mod (w * one))).
Proof.
  intros Hk Hw. pose proof one_pos as Hone.
  assert (HW : 0 < w * one) by nia.
  assert (Hr : 0 <= k mod (w * one) < w * one) by (apply Z.mod_pos_bound; lia).
  unfold rem, of_Z.
  destruct (w * one) as [|W|W] eqn:EW; try lia. rewrite <- EW in *.
  cbn [fmod]. destruct (Z.eqb_spec (w * one) 0) as [|_]; [lia|].
  rewrite Z.rem_mod_nonneg by lia. cbn [ltb].
  destruct (Z.ltb_spec (w * one) 0); [lia|].
  destruct (Z.ltb_spec (k mod (w * one)) 0); [lia|].
  destruct (k mod (w * one)); reflexivity.
Qed.

Lemma to_int_whole q : to_int (Fin (q * one)) = Ok q.
Proof. cbn [to_int]. rewrite Z.quot_mul by (pose proof one_pos; lia). reflexivity. Qed.

Lemma to_int_nonneg k : 0 <= k -> to_int (Fin k) = Ok (k / one).
Proof.
  intros Hk. cbn [to_int]. rewrite Z.quot_div_nonneg by (pose proof one_pos; lia).
  reflexivity.
Qed.

Lemma uptime_of_seconds_spec k :
  representable k -> 0 <= k < 2 ^ 53 * one ->
  uptime_of_seconds (Fin k) = Ok (uptime_text k).
Proof.
  intros Hrep Hk. pose proof one_pos as Hone.
  unfold uptime_of_seconds, uptime_text, lt_int. cbn [ltb].
  destruct (Z.ltb_spec k (60 * one)).
  { rewrite to_int_nonneg by lia. reflexivity. }
  destruct (Z.ltb_spec k (3600 * one)).
  { rewrite floordiv_exact by (auto; lia). cbn [bindE].
    rewrite to_int_whole. reflexivity. }
  assert (Hmod : forall w, 0 < w < 2 ^ 53 ->
            representable (k mod (w * one)) /\ 0 <= k mod (w * one) < 2 ^ 53 * one).
  { intros w Hw. split; [apply mod_representable; auto; lia|].
    pose proof (Z.mod_pos_bound k (w * one) ltac:(nia)). nia. }
  destruct (Z.ltb_spec k (86400 * one)).
  - rewrite floordiv_exact by (auto; lia). cbn [bindE]. rewrite to_int_whole.
    cbn [bindE]. rewrite rem_exact by lia. cbn [bindE].
    destruct (Hmod 3600 ltac:(lia)) as [Hr1 Hr2].
    rewrite floordiv_exact by (auto; lia). cbn [bindE]. rewrite to_int_whole.
    reflexivity.
  - rewrite floordiv_exact by (auto; lia). cbn [bindE]. rewrite to_int_whole.
    cbn [bindE]. rewrite rem_exact by lia. cbn [bindE].
    destruct (Hmod 86400 ltac:(lia)) as [Hr1 Hr2].
    rewrite floordiv_exact by (auto; lia). cbn [bindE]. rewrite to_int_whole.
    reflexivity.
Qed.

Lemma total_seconds_range us :
  0 <= us <= timedelta_max_us ->
  exists k, Clock.total_seconds us = Ok (Fin k) /\ representable k /\
            0 <= k < 2 ^ 53 * one.
Proof.
  intros Hus. unfold timedelta_max_us in Hus. pose proof one_pos as Hone.
  unfold Clock.total_seconds, int_truediv.
  change (1000000 =? 0) with false. cbv iota.
  change (Z.sgn 1000000) with 1. change (Z.abs 1000000) with 1000000.
  rewrite Z.mul_1_r. unfold round64.
  set (k := round53 (us * one) 1000000).
  assert (Hrep : representable k) by (apply round53_representable; lia).
  assert (H0 : 0 <= k).
  { apply round53_ge; [lia|lia|exists 0, 0; repeat split; lia|nia]. }
  assert (Hle : k <= 2 ^ 47 * one).
  { apply round53_le; [lia|nia| |nia].
    replace (2 ^ 47 * one) with (2 ^ 47 * one) by ring.
    apply representable_int. lia. }
  assert (Hk : 0 <= k < 2 ^ 53 * one) by lia.
  pose proof (lt_huge_of_small k Hk).
  destruct (Z.ltb_spec (Z.abs k) huge); [|lia].
  exists k. auto.
Qed.

Lemma search_nonempty ts stamp :
  Clock.search ts = Some stamp ->
  (String.eqb ts "" || String.eqb ts "n/a") = false.
Proof.
  intros H.
  destruct (String.eqb_spec ts "") as [->|_]; [discriminate H|].
  destruct (String.eqb_spec ts "n/a") as [->|_]; [discriminate H|reflexivity].
Qed.

(** C2.  For every activation timestamp [ts] that carries a valid date
    and every clock reading [now] not before it, with [s] the elapsed
    seconds the code computes ([total_seconds()] of the difference, the
    double of [k] units): [_calculate_uptime] returns ["{int(s)}s"] when
    [s < 60], ["{m}m"] with [m = floor(s/60)] when [60 <= s < 3600],
    ["{h}h {m}m"] with the remainder minutes when [3600 <= s < 86400],
    and ["{d}d {h}h"] with the remainder hours from 86400 on.  In
    particular 3725 seconds give ["1h 2m"], 45 seconds ["45s"] and 90000
    seconds ["1d 1h"]. *)
Theorem calculate_uptime_buckets now ts stamp start :
  Clock.search ts = Some stamp ->
  Clock.strptime stamp = Ok start ->
  0 <= now - Clock.to_us start <= timedelta_max_us ->
  (exists k, Clock.total_seconds (now - Clock.to_us start) = Ok (Fin k) /\ 0 <= k /\
             _calculate_uptime now ts = uptime_text k) /\
  (now - Clock.to_us start = 3725 * 1000000 -> _calculate_uptime now ts = "1h 2m") /\
  (now - Clock.to_us start = 45 * 1000000 -> _calculate_uptime now ts = "45s") /\
  (now - Clock.to_us start = 90000 * 1000000 -> _calculate_uptime now ts = "1d 1h").
Proof.
  intros Hs Hp Hus.
  destruct (total_seconds_range _ Hus) as (k & E & Hrep & Hk).
  assert (R : _calculate_uptime now ts = uptime_text k).
  { unfold _calculate_uptime, calculate_uptime_body.
    rewrite (search_nonempty _ _ Hs), Hs, Hp. cbn [bindE]. rewrite E. cbn [bindE].
    rewrite uptime_of_seconds_spec by auto. reflexivity. }
  split; [exists k; repeat split; auto; lia|].
  repeat split; intros Hel; rewrite R; rewrite Hel in E;
    vm_compute in E; injection E as <-; vm_compute; reflexivity.
Qed.

Lemma calculate_uptime_buckets_witness :
  _calculate_uptime 63844801325000000 "Thu 2024-02-29 10:00:00 UTC" = "1h 2m".
Proof.
  refine (proj1 (proj2 (calculate_uptime_buckets 63844801325000000
            "Thu 2024-02-29 10:00:00 UTC" "2024-02-29 10:00:00"
            {| Clock.year := 2024; Clock.month := 2; Clock.day := 29;
               Clock.hour := 10; Clock.minute := 0; Clock.second := 0 |}
            _ _ _)) _).
  - vm_compute. reflexivity.
  - vm_compute. reflexivity.
  - vm_compute. split; discriminate.
  - vm_compute. reflexivity.
Defined.

End UptimeFacts.

(** ** [_parse_memory_value] *)

Module MemoryFacts.
Import Float Num Dashboard FloatFacts Spec FormatFacts.

Lemma snoc_nonempty c p : exists b r, p ++ String c "" = String b r.
Proof. destruct p; simpl; eauto. Qed.

Lemma endswith_snoc c c' p : Str.endswith c (p ++ String c' "") = Ascii.eqb c' c.
Proof.
  induction p as [|a p IH]; [reflexivity|].
  destruct (snoc_nonempty c' p) as (b & r & E).
  change (String a p ++ String c' "") with (String a (p ++ String c' "")).
  rewrite E in IH |- *. exact IH.
Qed.

Lemma drop_last_snoc c p : Str.drop_last (p ++ String c "") = p.
Proof.
  induction p as [|a p IH]; [reflexivity|].
  destruct (snoc_nonempty c p) as (b & r & E).
  change (String a p ++ String c "") with (String a (p ++ String c "")).
  rewrite E in IH |- *.
  change (Str.drop_last (String a (String b r)))
    with (String a (Str.drop_last (String b r))).
  rewrite IH. reflexivity.
Qed.

Lemma representable_shift k e : 0 <= e -> representable k -> representable (k * 2 ^ e).
Proof.
  intros He (m & e' & He' & Hm & ->). exists m, (e' + e). repeat split; [lia|auto|].
  rewrite Z.pow_add_r by lia. ring.
Qed.

Lemma representable_opp k : representable k -> representable (- k).
Proof.
  intros (m & e & He & Hm & ->). exists (- m), e. repeat split; auto; lia.
Qed.

Lemma round64_is_double n d : 0 < d -> is_double (round64 n d).
Proof.
  intros Hd. unfold round64.
  destruct (Z.ltb_spec (Z.abs (round53 (n * one) d)) huge); cbn; auto.
  split; auto. apply round53_representable; auto.
Qed.

Lemma neg_is_double x : is_double x -> is_double (neg x).
Proof.
  destruct x; cbn; auto. intros [H1 H2]. split; [apply representable_opp; auto|lia].
Qed.

Lemma float_of_str_is_double s x : float_of_str s = Ok x -> is_double x.
Proof.
  unfold float_of_str.
  destruct (sign_of (Str.float_strip s)) as [sg body].
  assert (Hs : forall y, is_double y -> is_double (if sg then neg y else y))
    by (intros y Hy; destruct sg; auto using neg_is_double).
  destruct (_ || _); [intros [= <-]; apply (Hs (Inf false)); exact I|].
  destruct (String.eqb _ "nan"); [intros [= <-]; exact I|].
  destruct (number body) as [[[ip fp] rest]|]; [|discriminate].
  destruct (exponent rest) as [e|]; [|discriminate].
  intros [= <-]. apply Hs.
  destruct (0 <=? _) eqn:E; apply round64_is_double; [lia|].
  apply Z.pow_pos_nonneg; lia.
Qed.

Lemma mul_1024 x : is_double x -> mul x (of_Z 1024) = scaled x 1024.
Proof.
  pose proof one_pos as Hone.
  destruct x as [k|s|]; cbn [is_double mul of_Z scaled]; auto.
  - intros [Hrep Hh].
    unfold round64.
    replace (k * (1024 * one) * one) with (k * 1024 * (one * one)) by ring.
    rewrite round53_exact; [|nia|].
    + destruct (Z.ltb_spec (Z.abs (k * 1024)) huge); [reflexivity|].
      f_equal. destruct (Z.ltb_spec (k * 1024) 0), (Z.ltb_spec k 0); auto; lia.
    + change 1024 with (2 ^ 10). apply representable_shift; auto. lia.
  - intros _. destruct (Z.eqb_spec (1024 * one) 0); [lia|].
    unfold is_neg. destruct (Z.ltb_spec (1024 * one) 0); [lia|].
    destruct s; reflexivity.
Qed.

Lemma scaled_is_double x : is_double x -> is_double (scaled x 1024).
Proof.
  destruct x as [k| |]; cbn [is_double scaled]; auto. intros [Hrep Hh].
  destruct (Z.ltb_spec (Z.abs (k * 1024)) huge); cbn; auto.
  split; auto. change 1024 with (2 ^ 10). apply representable_shift; auto. lia.
Qed.

Lemma scaled_scaled x n :
  0 < n -> scaled (scaled x 1024) n = scaled x (1024 * n).
Proof.
  intros Hn. destruct x as [k| |]; cbn [scaled]; auto.
  destruct (Z.ltb_spec (Z.abs (k * 1024)) huge) as [H1|H1]; cbn [scaled].
  - replace (k * 1024 * n) with (k * (1024 * n)) by ring.
    destruct (Z.ltb_spec (Z.abs (k * (1024 * n))) huge); [reflexivity|].
    f_equal. destruct (Z.ltb_spec (k * 1024) 0), (Z.ltb_spec k 0); auto; lia.
  - destruct (Z.ltb_spec (Z.abs (k * (1024 * n))) huge) as [H2|H2]; [|reflexivity].
    exfalso. assert (Z.abs (k * 1024) <= Z.abs (k * (1024 * n))); [|lia].
    rewrite !Z.abs_mul. change (Z.abs 1024) with 1024.
    assert (0 <= Z.abs k) by lia. assert (1 <= Z.abs n) by lia. nia.
Qed.

Lemma div_1024_never_raises x : exists y, div x (of_Z 1024) = Ok y.
Proof.
  pose proof one_pos. unfold div, of_Z.
  destruct (1024 * one) eqn:E; [lia|eauto..].
Qed.

Lemma div_1024_multiple k :
  representable k -> Z.abs k < huge -> k mod 1024 = 0 ->
  div (Fin k) (of_Z 1024) = Ok (Fin (k / 1024)).
Proof.
  intros (m & e & He & Hm & ->) Hh Hmod. pose proof one_pos as Hone.
  set (k := m * 2 ^ e) in *.
  assert (Hk : k = k / 1024 * 1024).
  { pose proof (Z.div_mod k 1024 ltac:(lia)). lia. }
  unfold of_Z. rewrite div_fin by lia.
  rewrite Z.sgn_pos, Z.abs_eq, Z.mul_1_r by lia.
  rewrite Hk at 1. f_equal. apply round64_exact; [lia| |lia].
  (* the quotient keeps the significant bits of [m] *)
  destruct (Z.le_gt_cases 10 e) as [Hle|Hgt].
  - exists m, (e - 10). repeat split; auto; [lia|].
    unfold k. replace e with (e - 10 + 10) at 1 by lia.
    rewrite (Z.pow_add_r 2 (e - 10) 10) by lia. change (2 ^ 10) with 1024.
    rewrite Z.mul_assoc, Z.div_mul by lia. reflexivity.
  - assert (Hpe : 0 < 2 ^ e) by (apply Z.pow_pos_nonneg; lia).
    exists (k / 1024), 0. repeat split; [lia| |simpl; lia].
    assert (Z.abs k < 2 ^ 53 * 2 ^ 10).
    { unfold k. rewrite Z.abs_mul, (Z.abs_eq (2 ^ e)) by lia.
      assert (2 ^ e <= 2 ^ 10) by (apply Z.pow_le_mono_r; lia). nia. }
    change (2 ^ 10) with 1024 in H. lia.
Qed.

Lemma parse_memory_value_suffix p x :
  float_of_str p = Ok x ->
  _parse_memory_value (p ++ "T") = Ok (scaled x (1024 ^ 3)) /\
  _parse_memory_value (p ++ "G") = Ok (scaled x (1024 ^ 2)) /\
  _parse_memory_value (p ++ "M") = Ok (scaled x 1024) /\
  _parse_memory_value (p ++ "K") = Ok x.
Proof.
  intros E. pose proof (float_of_str_is_double _ _ E) as Hx.
  pose proof (scaled_is_double x Hx) as Hx1.
  pose proof (scaled_is_double _ Hx1) as Hx2.
  unfold _parse_memory_value.
  rewrite !endswith_snoc, !drop_last_snoc, E.
  change (Ascii.eqb "T" "T") with true. change (Ascii.eqb "G" "G") with true.
  change (Ascii.eqb "M" "M") with true. change (Ascii.eqb "K" "K") with true.
  change (Ascii.eqb "G" "T") with false. change (Ascii.eqb "M" "T") with false.
  change (Ascii.eqb "M" "G") with false. change (Ascii.eqb "K" "T") with false.
  change (Ascii.eqb "K" "G") with false. change (Ascii.eqb "K" "M") with false.
  cbv iota. cbn [bindE].
  rewrite (mul_1024 x Hx), (mul_1024 _ Hx1), (mul_1024 _ Hx2).
  rewrite !scaled_scaled by lia. repeat split.
Qed.

Lemma parse_memory_value_bare p x :
  float_of_str p = Ok x ->
  Str.endswith "T" p = false -> Str.endswith "G" p = false ->
  Str.endswith "M" p = false -> Str.endswith "K" p = false ->
  exists y, _parse_memory_value p = Ok y /\ div x (of_Z 1024) = Ok y /\
            forall k, x = Fin k -> k mod 1024 = 0 -> y = Fin (k / 1024).
Proof.
  intros E HT HG HM HK. pose proof (float_of_str_is_double _ _ E) as Hx.
  unfold _parse_memory_value.
  rewrite HT, HG, HM, HK, E. cbn [bindE].
  destruct (div_1024_never_raises x) as [y Hy]. exists y. repeat split; auto.
  intros k -> Hk. cbn [is_double] in Hx. destruct Hx as [Hrep Hh].
  rewrite div_1024_multiple in Hy by auto. congruence.
Qed.

(** The white space [float()] accepts around the number: a TAB or a
    space, but not a separator such as FS. *)
Lemma float_of_str_padding :
  float_of_str (String "009" "2 ") = Ok (of_Z 2) /\
  float_of_str (String "028" "2") =
    Raise (ValueError ("could not convert string to float: '" ++ String "028" "2'")).
Proof. split; vm_compute; reflexivity. Qed.

Lemma float_of_str_2 : float_of_str "2" = Ok (of_Z 2).
Proof. vm_compute. reflexivity. Qed.

Lemma float_of_str_512 : float_of_str "512" = Ok (of_Z 512).
Proof. vm_compute. reflexivity. Qed.

Lemma float_of_str_1024 : float_of_str "1024" = Ok (of_Z 1024).
Proof. vm_compute. reflexivity. Qed.

Lemma scaled_small z n :
  Z.abs (z * n) < 2 ^ 53 -> scaled (of_Z z) n = of_Z (z * n).
Proof.
  intros H. unfold scaled, of_Z.
  replace (z * one * n) with (z * n * one) by ring.
  pose proof (small_lt_huge _ H).
  destruct (Z.ltb_spec (Z.abs (z * n * one)) huge); [reflexivity|lia].
Qed.

(** C3.  For every numeric prefix [p] (a text [float()] accepts, of value
    [x]): [_parse_memory_value] returns [x * 1024^3] for [p + "T"],
    [x * 1024^2] for [p + "G"], [x * 1024] for [p + "M"] and [x] for
    [p + "K"], the products being those of double arithmetic (exact, or
    infinite beyond the range); for a bare value it returns [x / 1024],
    exactly so when the division is exact.  No case raises.  In
    particular ["2G"] gives [2 * 1024^2], ["512M"] gives [512 * 1024] and
    ["1024"] gives [1.0]. *)
Theorem parse_memory_value_scales p x :
  float_of_str p = Ok x ->
  _parse_memory_value (p ++ "T") = Ok (scaled x (1024 ^ 3)) /\
  _parse_memory_value (p ++ "G") = Ok (scaled x (1024 ^ 2)) /\
  _parse_memory_value (p ++ "M") = Ok (scaled x 1024) /\
  _parse_memory_value (p ++ "K") = Ok x /\
  (Str.endswith "T" p = false -> Str.endswith "G" p = false ->
   Str.endswith "M" p = false -> Str.endswith "K" p = false ->
   exists y, _parse_memory_value p = Ok y /\ div x (of_Z 1024) = Ok y /\
             forall k, x = Fin k -> k mod 1024 = 0 -> y = Fin (k / 1024)) /\
  _parse_memory_value "2G" = Ok (of_Z (2 * 1024 ^ 2)) /\
  _parse_memory_value "512M" = Ok (of_Z (512 * 1024)) /\
  _parse_memory_value "1024" = Ok (of_Z 1).
Proof.
  intros E.
  destruct (parse_memory_value_suffix p x E) as (HT & HG & HM & HK).
  repeat (split; [assumption|]).
  split; [apply parse_memory_value_bare; exact E|].
  split; [|split].
  - destruct (parse_memory_value_suffix "2" _ float_of_str_2) as (_ & H & _).
    change ("2" ++ "G") with "2G" in H. rewrite H, scaled_small; [reflexivity|].
    vm_compute. reflexivity.
  - destruct (parse_memory_value_suffix "512" _ float_of_str_512) as (_ & _ & H & _).
    change ("512" ++ "M") with "512M" in H. rewrite H, scaled_small; [reflexivity|].
    vm_compute. reflexivity.
  - destruct (parse_memory_value_bare "1024" _ float_of_str_1024
                eq_refl eq_refl eq_refl eq_refl) as (y & H & _ & Hy).
    rewrite H, (Hy (1024 * one) eq_refl) by (rewrite Z.mul_comm; apply Z.mod_mul; lia).
    unfold of_Z. rewrite (Z.mul_comm 1024 one), Z.div_mul, Z.mul_1_l by lia.
    reflexivity.
Qed.

Lemma parse_memory_value_scales_witness :
  exists x, float_of_str "7.7" = Ok x /\
            _parse_memory_value "7.7G" = Ok (scaled x (1024 ^ 2)).
Proof.
  destruct (float_of_str "7.7") as [x|e] eqn:E.
  - exists x. split; [reflexivity|].
    exact (proj1 (proj2 (parse_memory_value_scales "7.7" x E))).
  - vm_compute in E. discriminate E.
Defined.

End MemoryFacts.

(** ** [get_service_status] and [control_service] *)

Module CommandFacts.
Import Sys Dashboard Handler Spec.

(** C4.  For every unit name, when a sub-query of the status query (each
    is bounded by 5 time units) is started and exceeds its timeout, the
    ones before it having completed, [get_service_status] returns the
    record with status ["Timeout"], active false, state ["unknown"] and
    every derived field ["N/A"]; it returns a record in every case, and
    starts no further sub-query. *)
Theorem status_timeout service_name w i :
  times_out_at w (status_query service_name) i ->
  fst (get_service_status service_name w) = timeout_record service_name /\
  started (snd (get_service_status service_name w)) =
    (started w ++ firstn (S i) (status_query service_name))%list.
Proof.
  intros [Hbefore (c & Hc & m & Hto)].
  unfold get_service_status, run. cbn [spawn started].
  rewrite !length_app. cbn [length].
  destruct i as [|[|[|i]]].
  - cbn in Hc. injection Hc as <-. rewrite Nat.add_0_r in Hto.
    rewrite Hto. split; reflexivity.
  - destruct (Hbefore 0%nat _ ltac:(lia) eq_refl) as [r1 E1].
    rewrite Nat.add_0_r in E1. rewrite E1.
    cbn in Hc. injection Hc as <-. rewrite Hto.
    split; [reflexivity|]. cbn [snd started]. rewrite <- app_assoc. reflexivity.
  - destruct (Hbefore 0%nat _ ltac:(lia) eq_refl) as [r1 E1].
    destruct (Hbefore 1%nat _ ltac:(lia) eq_refl) as [r2 E2].
    rewrite Nat.add_0_r in E1. rewrite E1, E2.
    cbn in Hc. injection Hc as <-.
    replace (length (started w) + 1 + 1)%nat with (length (started w) + 2)%nat by lia.
    rewrite Hto. split; [reflexivity|]. cbn [snd started].
    rewrite <- !app_assoc. reflexivity.
  - destruct i; discriminate Hc.
Qed.


Lemma status_timeout_witness :
  fst (get_service_status "nginx" (world_of (Raised (TimeoutExpired "timed out")) (Ok "")))
  = timeout_record "nginx".
Proof.
  refine (proj1 (status_timeout "nginx" _ 0 _)).
  split.
  - intros j c Hj. inversion Hj.
  - eexists. split; [reflexivity|]. eexists. reflexivity.
Defined.

Lemma allowed_action_none a : ~ allowed a -> allowed_action a = None.
Proof.
  intros H. unfold allowed_action.
  destruct a as [[| | |s| |]|]; try reflexivity.
  destruct (String.eqb_spec s "start") as [->|_]; [destruct H; left; reflexivity|].
  destruct (String.eqb_spec s "stop") as [->|_]; [destruct H; right; left; reflexivity|].
  destruct (String.eqb_spec s "restart") as [->|_];
    [destruct H; right; right; reflexivity|reflexivity].
Qed.

Lemma allowed_action_some a :
  allowed a -> exists s, a = Some (JString s) /\ allowed_action a = Some s.
Proof. intros [-> | [-> | ->]]; eexists; split; reflexivity. Qed.

(** C7.  For every control request: an action outside start, stop and
    restart (or none at all) is answered with the error 400 "Invalid
    action" and the world is left as it was, no command started; for an
    allowed action exactly one command is started, and the result has
    success true exactly when the exit code is zero and the message is
    standard output followed by standard error, or, on timeout, success
    false and the message "Operation timed out". *)
Theorem control_request service_name (data : gmap string json) w :
  (~ allowed (data !! "action") ->
   _handle_control_service service_name data w = (SendError 400 "Invalid action", w)) /\
  (forall action, data !! "action" = Some (JString action) ->
     allowed (data !! "action") ->
     let o := spawn w (length (started w)) (control_command service_name action) in
     exists result w1,
       _handle_control_service service_name data w = (SendControl 200 result, w1) /\
       started w1 = (started w ++ [control_command service_name action])%list /\
       (forall r, o = Completed r ->
          (success result = true <-> returncode r = 0) /\
          message result = stdout r ++ stderr r) /\
       (timed_out o ->
          success result = false /\ message result = "Operation timed out")).
Proof.
  split.
  - intros H. unfold _handle_control_service.
    rewrite (allowed_action_none _ H). reflexivity.
  - intros action Ea Hal o.
    destruct (allowed_action_some _ Hal) as (s & Es & Ha).
    rewrite Ea in Es. injection Es as <-.
    unfold _handle_control_service. rewrite Ha.
    unfold control_service, run. cbn [spawn started].
    fold (control_command service_name action). fold o.
    destruct o as [r|e] eqn:Eo.
    + eexists _, _. split; [reflexivity|]. split; [reflexivity|]. split.
      * intros r' [= <-]. cbn [success message]. split; [|reflexivity].
        destruct (Z.eqb_spec (returncode r) 0); split; auto; discriminate.
      * intros [m Hm]. discriminate Hm.
    + destruct (is_timeout e) eqn:Et.
      * eexists _, _. split; [reflexivity|]. split; [reflexivity|]. split.
        -- intros r [=].
        -- intros _. split; reflexivity.
      * eexists _, _. split; [reflexivity|]. split; [reflexivity|]. split.
        -- intros r [=].
        -- intros [m [= ->]]. discriminate Et.
Qed.

Lemma control_request_witness :
  _handle_control_service "nginx" {[ "action" := JString "reboot" ]}
    (world_of (Raised (TimeoutExpired "timed out")) (Ok ""))
  = (SendError 400 "Invalid action",
     world_of (Raised (TimeoutExpired "timed out")) (Ok "")).
Proof.
  refine (proj1 (control_request "nginx" _ _) _).
  intros [H|[H|H]]; vm_compute in H; discriminate H.
Defined.

End CommandFacts.

(** ** [get_disk_usage] *)

Module DiskFacts.
Import Sys Num Disk Spec.

Lemma insert_desc_perm x l : Permutation (insert_desc x l) (x :: l).
Proof.
  induction l as [|y r IH]; cbn [insert_desc]; [reflexivity|].
  destruct (use_percent_num y <=? use_percent_num x); [reflexivity|].
  rewrite IH. apply perm_swap.
Qed.

Lemma sort_desc_perm l : Permutation (sort_desc l) l.
Proof.
  induction l as [|x l IH]; cbn; [reflexivity|].
  fold (sort_desc l). rewrite insert_desc_perm. auto.
Qed.

Lemma insert_desc_sorted x l :
  StronglySorted by_percent_desc l -> StronglySorted by_percent_desc (insert_desc x l).
Proof.
  induction 1 as [|y r Hs IH Hy]; cbn [insert_desc].
  - constructor; constructor.
  - destruct (Z.leb_spec (use_percent_num y) (use_percent_num x)) as [Hle|Hgt].
    + constructor; [constructor; auto|].
      constructor; [exact Hle|].
      eapply List.Forall_impl; [|exact Hy]. unfold by_percent_desc. intros; lia.
    + constructor; [exact IH|].
      eapply Permutation_Forall; [symmetry; apply insert_desc_perm|].
      constructor; [unfold by_percent_desc; lia|exact Hy].
Qed.

Lemma sort_desc_sorted l : StronglySorted by_percent_desc (sort_desc l).
Proof.
  induction l as [|x l IH]; cbn; [constructor|].
  apply insert_desc_sorted. exact IH.
Qed.

Lemma digits_value_nonneg s acc :
  Str.all_digits s = true -> 0 <= acc -> 0 <= Str.digits_value acc s.
Proof.
  revert acc. induction s as [|c s IH]; cbn; intros acc Hd Hacc; [exact Hacc|].
  apply andb_prop in Hd. destruct Hd as [Hc Hs]. apply IH; [exact Hs|].
  unfold Str.is_digit in Hc. apply andb_prop in Hc. destruct Hc as [Hc _].
  apply N.leb_le in Hc. unfold Str.digit_val. lia.
Qed.

Lemma percent_num_ok m pct :
  0 <= percent_num m pct /\ (Str.isdigit pct = false -> percent_num m pct = 0).
Proof.
  unfold percent_num. destruct (Str.isdigit pct) eqn:E; [|split; [lia|reflexivity]].
  split; [|discriminate]. unfold int_of_str. rewrite E. cbn [negb].
  destruct (_ && _); [lia|].
  apply digits_value_nonneg; [|lia].
  destruct pct; [discriminate E|exact E].
Qed.

Lemma disk_row_ok m line : Forall row_ok (disk_row m line).
Proof.
  unfold disk_row.
  destruct (Str.split_ws line) as [|p0 [|p1 [|p2 [|p3 [|p4 [|p5 rest]]]]]];
    try constructor; [|constructor].
  apply percent_num_ok.
Qed.

Lemma rows_ok m rows : Forall row_ok (concat (map (disk_row m) rows)).
Proof.
  induction rows as [|l rows IH]; cbn; [constructor|].
  apply List.Forall_app. split; [apply disk_row_ok|exact IH].
Qed.

(** C6.  For every output of [df -h]: the list [get_disk_usage] returns
    is sorted by [use_percent_num], larger first, and in every row
    [use_percent_num] is a non-negative integer that is 0 when the
    percent column, its trailing ["%"] stripped, is not all digits; the
    function raises in no case, and on a successful run of at least two
    lines it returns the rows of the data lines, reordered. *)
Theorem disk_usage_sorted w :
  (forall l, fst (get_disk_usage w) = Disks l ->
     StronglySorted by_percent_desc l /\ Forall row_ok l) /\
  (forall r header row rows,
     spawn w (length (started w)) df_command = Completed r ->
     returncode r = 0 ->
     Str.split "010" (Str.strip (stdout r)) = header :: row :: rows ->
     exists l, fst (get_disk_usage w) = Disks l /\
               Permutation l
                 (concat (map (disk_row (int_max_str_digits w)) (row :: rows)))).
Proof.
  unfold get_disk_usage, run. cbn [spawn started int_max_str_digits].
  fold df_command. split.
  - intros l. destruct (spawn w _ df_command) as [r|e].
    + destruct (negb _); [discriminate|].
      destruct (Str.split _ _) as [|header [|row rows]]; try discriminate.
      intros [= <-]. split; [apply sort_desc_sorted|].
      eapply Permutation_Forall; [symmetry; apply sort_desc_perm|].
      apply (rows_ok _ (row :: rows)).
    + destruct (is_timeout e); discriminate.
  - intros r header row rows -> -> ->. cbn [Z.eqb negb].
    eexists. split; [reflexivity|apply sort_desc_perm].
Qed.

(** An output of five data lines: the percent column of the first is
    ["-"], that of the fourth ["12.5%"], the fifth line has two columns
    only, and the percentages of the other two are out of order. *)
Lemma disk_usage_sorted_witness :
  let w := world_of (Completed {| returncode := 0; stderr := "";
                                  stdout := "Filesystem Size Used Avail Use% Mounted on
tmpfs 1.6G 0 1.6G - /run/lock
/dev/sda1 100G 50G 50G 50% /
/dev/sdb1 200G 180G 20G 90% /data
/dev/sdc1 8G 1G 7G 12.5% /mnt/my disk
none 0
" |}) (Ok "") in
  let l :=
    [ {| filesystem := "/dev/sdb1"; size := "200G"; used := "180G"; available := "20G";
         use_percent := "90"; use_percent_num := 90; mounted_on := "/data" |};
      {| filesystem := "/dev/sda1"; size := "100G"; used := "50G"; available := "50G";
         use_percent := "50"; use_percent_num := 50; mounted_on := "/" |};
      {| filesystem := "tmpfs"; size := "1.6G"; used := "0"; available := "1.6G";
         use_percent := "-"; use_percent_num := 0; mounted_on := "/run/lock" |};
      {| filesystem := "/dev/sdc1"; size := "8G"; used := "1G"; available := "7G";
         use_percent := "12.5"; use_percent_num := 0; mounted_on := "/mnt/my disk" |} ] in
  fst (get_disk_usage w) = Disks l /\
  StronglySorted by_percent_desc l /\ Forall row_ok l /\
  Permutation l
    (concat (map (disk_row (int_max_str_digits w))
               ["tmpfs 1.6G 0 1.6G - /run/lock"; "/dev/sda1 100G 50G 50G 50% /";
                "/dev/sdb1 200G 180G 20G 90% /data";
                "/dev/sdc1 8G 1G 7G 12.5% /mnt/my disk"; "none 0"])).
Proof.
  intros w l.
  assert (El : fst (get_disk_usage w) = Disks l) by (vm_compute; reflexivity).
  split; [exact El|].
  destruct (proj1 (disk_usage_sorted w) l El) as [Hs Hr].
  split; [exact Hs|]. split; [exact Hr|].
  destruct (proj2 (disk_usage_sorted w) _ "Filesystem Size Used Avail Use% Mounted on"
              "tmpfs 1.6G 0 1.6G - /run/lock"
              ["/dev/sda1 100G 50G 50G 50% /"; "/dev/sdb1 200G 180G 20G 90% /data";
               "/dev/sdc1 8G 1G 7G 12.5% /mnt/my disk"; "none 0"] eq_refl eq_refl)
    as (l' & El' & P).
  - vm_compute. reflexivity.
  - rewrite El in El'. injection El' as <-. exact P.
Defined.

End DiskFacts.

(** ** The registry and the toggle store *)

Module StoreFacts.
Import Sys Num Dashboard Handler Store Spec.

Lemma is_tracked_In n d : is_tracked n d = true <-> In n (names d).
Proof.
  unfold is_tracked, names. rewrite existsb_exists, in_map_iff. split.
  - intros (r & Hr & E). apply String.eqb_eq in E. eauto.
  - intros (r & E & Hr). exists r. split; [exact Hr|]. apply String.eqb_eq. exact E.
Qed.

Lemma is_tracked_false n d : is_tracked n d = false <-> ~ In n (names d).
Proof.
  rewrite <- is_tracked_In. destruct (is_tracked n d); split; intros; congruence.
Qed.

Lemma names_add n ts d :
  is_tracked n d = false -> names (snd (add_service n ts d)) = (names d ++ [n])%list.
Proof.
  intros H. unfold add_service, names. rewrite H. cbn.
  rewrite map_app. reflexivity.
Qed.

Lemma names_add_tracked n ts d :
  is_tracked n d = true -> snd (add_service n ts d) = d.
Proof. intros H. unfold add_service. rewrite H. reflexivity. Qed.

Lemma filter_all {A} (p : A -> bool) l :
  (forall x, In x l -> p x = true) -> List.filter p l = l.
Proof.
  induction l as [|x l IH]; intros H; cbn; [reflexivity|].
  rewrite (H x (or_introl eq_refl)). f_equal. apply IH. intros; apply H; right; auto.
Qed.

Lemma remove_untracked n d : is_tracked n d = false -> remove_service n d = d.
Proof.
  intros H. apply is_tracked_false in H. unfold names in H.
  unfold remove_service. destruct d as [t s g q]. cbn in *. f_equal.
  apply filter_all. intros r Hr.
  destruct (String.eqb_spec (tr_service_name r) n) as [E|]; [|reflexivity].
  destruct H. apply in_map_iff. eauto.
Qed.

Lemma names_remove n d :
  names (remove_service n d) = List.filter (fun x => negb (String.eqb x n)) (names d).
Proof.
  unfold names, remove_service. cbn.
  induction (tracked_services d) as [|r l IH]; cbn; [reflexivity|].
  destruct (String.eqb (tr_service_name r) n); cbn; [exact IH|f_equal; exact IH].
Qed.

Lemma names_unique d : reachable d -> List.NoDup (names d).
Proof.
  induction 1 as [|n ts d Hd IH|n d Hd IH|n ty v ts d Hd IH].
  - constructor.
  - destruct (is_tracked n d) eqn:E.
    + rewrite names_add_tracked by exact E. exact IH.
    + rewrite names_add by exact E.
      apply List.NoDup_app; [exact IH|constructor; [intros []|constructor]|].
      intros x Hx [<-|[]]. apply is_tracked_false in E. exact (E Hx).
  - rewrite names_remove. apply List.NoDup_filter. exact IH.
  - exact IH.
Qed.

(** C8.  For every service name that is not tracked yet: the first
    [add_service] returns true, the second returns false and leaves the
    store as the first left it, so a name is never stored twice; and
    [remove_service] on a name that is not tracked leaves the store as it
    is, without error. *)
Theorem add_twice_remove_absent service_name ts1 ts2 d :
  is_tracked service_name d = false ->
  let r1 := add_service service_name ts1 d in
  let r2 := add_service service_name ts2 (snd r1) in
  fst r1 = true /\ fst r2 = false /\ snd r2 = snd r1 /\
  remove_service service_name d = d /\
  (reachable d -> List.NoDup (names (snd r2))).
Proof.
  intros H r1 r2.
  assert (H1 : fst r1 = true) by (unfold r1, add_service; rewrite H; reflexivity).
  assert (Ht : is_tracked service_name (snd r1) = true).
  { apply is_tracked_In. unfold r1. rewrite names_add by exact H.
    apply in_or_app. right. left. reflexivity. }
  assert (H2 : r2 = (false, snd r1)) by (unfold r2, add_service; rewrite Ht; reflexivity).
  rewrite H2. repeat split; auto using remove_untracked.
  intros Hd. cbn [snd]. apply names_unique. unfold r1. constructor. exact Hd.
Qed.

(** *** Toggles *)

Lemma find_app {A} (p : A -> bool) l l' :
  find p (l ++ l')%list = match find p l with Some x => Some x | None => find p l' end.
Proof.
  induction l as [|x l IH]; cbn; [reflexivity|]. destruct (p x); [reflexivity|exact IH].
Qed.

Lemma find_filter_out {A} (p : A -> bool) l :
  find p (List.filter (fun r => negb (p r)) l) = None.
Proof.
  induction l as [|x l IH]; cbn; [reflexivity|].
  destruct (p x) eqn:E; cbn; [exact IH|]. rewrite E. exact IH.
Qed.

Lemma find_filter_keep {A} (p q : A -> bool) l :
  (forall r, p r = true -> q r = true) -> find p (List.filter q l) = find p l.
Proof.
  intros H. induction l as [|x l IH]; cbn; [reflexivity|].
  destruct (q x) eqn:Eq; cbn.
  - destruct (p x); [reflexivity|exact IH].
  - destruct (p x) eqn:Ep; [|exact IH]. rewrite (H x Ep) in Eq. discriminate.
Qed.

Lemma toggle_key_inj s t s' t' r :
  toggle_key s t r = true -> toggle_key s' t' r = true -> (s', t') = (s, t).
Proof.
  unfold toggle_key. intros [H1 H2]%andb_prop [H3 H4]%andb_prop.
  apply String.eqb_eq in H1, H2, H3, H4. congruence.
Qed.

Lemma toggle_key_row s t i v ts :
  toggle_key s t {| tg_id := i; tg_service_name := s; tg_toggle_type := t;
                    tg_is_expanded := v; tg_updated_at := ts |} = true.
Proof. unfold toggle_key. cbn. rewrite !String.eqb_refl. reflexivity. Qed.

Lemma get_set_same s t v ts d :
  get_toggle_state s t (set_toggle_state s t v ts d) = v.
Proof.
  unfold get_toggle_state, set_toggle_state. cbn [service_toggles].
  rewrite find_app, find_filter_out. cbn [find].
  rewrite toggle_key_row. reflexivity.
Qed.

Lemma get_set_other s t s' t' v ts d :
  (s', t') <> (s, t) ->
  get_toggle_state s' t' (set_toggle_state s t v ts d) = get_toggle_state s' t' d.
Proof.
  intros Hne. unfold get_toggle_state, set_toggle_state. cbn [service_toggles].
  rewrite find_app, find_filter_keep.
  - destruct (find _ (service_toggles d)); [reflexivity|].
    cbn [find]. destruct (toggle_key s' t' _) eqn:E; [|reflexivity].
    exfalso. apply Hne. unfold toggle_key in E. cbn in E.
    apply andb_prop in E. destruct E as [E1 E2].
    apply String.eqb_eq in E1, E2. congruence.
  - intros r Hr. destruct (toggle_key s t r) eqn:E; [|reflexivity].
    exfalso. apply Hne. eapply toggle_key_inj; eauto.
Qed.

Lemma rows_set_other s t v ts d r :
  toggle_key s t r = false ->
  In r (service_toggles (set_toggle_state s t v ts d)) <-> In r (service_toggles d).
Proof.
  intros Hr. unfold set_toggle_state. cbn [service_toggles].
  rewrite in_app_iff, filter_In. cbn [In]. rewrite Hr. cbn [negb]. split.
  - intros [[H _]|[<-|[]]]; [exact H|].
    rewrite toggle_key_row in Hr. discriminate.
  - intros H. left. split; [exact H|reflexivity].
Qed.

Lemma rows_set_one s t v ts d :
  List.filter (toggle_key s t) (service_toggles (set_toggle_state s t v ts d)) =
  [{| tg_id := toggles_seq d + 1; tg_service_name := s; tg_toggle_type := t;
      tg_is_expanded := v; tg_updated_at := ts |}].
Proof.
  unfold set_toggle_state. cbn [service_toggles].
  rewrite List.filter_app. cbn [List.filter]. rewrite toggle_key_row.
  replace (List.filter _ (List.filter _ (service_toggles d))) with (@nil toggle_row);
    [reflexivity|].
  induction (service_toggles d) as [|x l IH]; cbn; [reflexivity|].
  destruct (toggle_key s t x) eqn:E; cbn; [exact IH|].
  fold (toggle_key s t x). rewrite E. exact IH.
Qed.

(** C9.  For every service name and two distinct panel types [p1] and
    [p2]: after the toggle of [(svc, p1)] and then of [(svc, p2)] are
    written, both read back as written; writing [(svc, p1)] again changes
    what [(svc, p1)] reads as and nothing else: every other (service,
    panel) reads as before, every other row is kept, and there is still
    one row for [(svc, p1)]. *)
Theorem toggle_rows_independent svc p1 p2 v1 v2 v3 ts1 ts2 ts3 d :
  p1 <> p2 ->
  let d2 := set_toggle_state svc p2 v2 ts2 (set_toggle_state svc p1 v1 ts1 d) in
  let d3 := set_toggle_state svc p1 v3 ts3 d2 in
  get_toggle_state svc p1 d2 = v1 /\ get_toggle_state svc p2 d2 = v2 /\
  get_toggle_state svc p1 d3 = v3 /\
  (forall s t, (s, t) <> (svc, p1) ->
     get_toggle_state s t d3 = get_toggle_state s t d2) /\
  (forall r, toggle_key svc p1 r = false ->
     In r (service_toggles d3) <-> In r (service_toggles d2)) /\
  length (List.filter (toggle_key svc p1) (service_toggles d3)) = 1%nat.
Proof.
  intros Hne d2 d3. repeat split.
  - unfold d2. rewrite get_set_other by congruence. apply get_set_same.
  - apply get_set_same.
  - apply get_set_same.
  - intros s t H. apply get_set_other. exact H.
  - apply rows_set_other. assumption.
  - apply rows_set_other. assumption.
  - unfold d3. rewrite rows_set_one. reflexivity.
Qed.

(** *** The order of the tracked list *)

Lemma leb_cases a b : str_le a b <-> a = b \/ str_lt a b.
Proof.
  unfold str_le, str_lt, String.leb, String.ltb.
  destruct (String.compare a b) eqn:E; split; auto; try discriminate.
  - intros _. left. apply String.compare_eq_iff. exact E.
  - intros [->|H]; [|discriminate].
    assert (String.compare b b = Eq) by (apply String_as_OT.cmp_eq; reflexivity).
    congruence.
Qed.

Lemma str_lt_trans a b c : str_lt a b -> str_lt b c -> str_lt a c.
Proof.
  unfold str_lt, String.ltb. intros H1 H2.
  destruct (String.compare a b) eqn:E1; try discriminate.
  destruct (String.compare b c) eqn:E2; try discriminate.
  apply String_as_OT.cmp_lt in E1, E2.
  pose proof (String_as_OT.lt_trans _ _ _ E1 E2) as H.
  apply String_as_OT.cmp_lt in H. unfold String_as_OT.cmp in H. rewrite H. reflexivity.
Qed.

Lemma str_lt_irrefl a : ~ str_lt a a.
Proof.
  unfold str_lt, String.ltb. intros H.
  assert (String.compare a a = Eq) by (apply String_as_OT.cmp_eq; reflexivity).
  rewrite H0 in H. discriminate.
Qed.

Lemma str_le_trans a b c : str_le a b -> str_le b c -> str_le a c.
Proof.
  rewrite !leb_cases. intros [->|H1] [->|H2]; auto.
  right. eapply str_lt_trans; eauto.
Qed.

Lemma str_le_total a b : str_le a b \/ str_le b a.
Proof. apply String.leb_total. Qed.

Lemma insert_asc_perm x l : Permutation (insert_asc x l) (x :: l).
Proof.
  induction l as [|y r IH]; cbn [insert_asc]; [reflexivity|].
  destruct (String.leb x y); [reflexivity|].
  rewrite IH. apply perm_swap.
Qed.

Lemma order_by_name_perm l : Permutation (order_by_name l) l.
Proof.
  induction l as [|x l IH]; cbn; [reflexivity|].
  fold (order_by_name l). rewrite insert_asc_perm. auto.
Qed.

Lemma insert_asc_sorted x l :
  StronglySorted str_le l -> StronglySorted str_le (insert_asc x l).
Proof.
  induction 1 as [|y r Hs IH Hy]; cbn [insert_asc].
  - constructor; constructor.
  - destruct (String.leb x y) eqn:E.
    + constructor; [constructor; auto|].
      constructor; [exact E|].
      eapply List.Forall_impl; [|exact Hy]. intros z Hz.
      eapply str_le_trans; [exact E|exact Hz].
    + constructor; [exact IH|].
      eapply Permutation_Forall; [symmetry; apply insert_asc_perm|].
      constructor; [|exact Hy].
      destruct (str_le_total x y) as [H|H]; [unfold str_le in H; congruence|exact H].
Qed.

Lemma order_by_name_sorted l : StronglySorted str_le (order_by_name l).
Proof.
  induction l as [|x l IH]; cbn; [constructor|].
  apply insert_asc_sorted. exact IH.
Qed.

Lemma sorted_strict l :
  StronglySorted str_le l -> List.NoDup l -> StronglySorted str_lt l.
Proof.
  induction 1 as [|x l Hs IH Hx]; intros Hn; [constructor|].
  inversion Hn as [|? ? Hnot Hn']; subst.
  constructor; [auto|].
  rewrite List.Forall_forall in Hx |- *. intros y Hy.
  destruct (proj1 (leb_cases x y) (Hx y Hy)) as [->|H]; [contradiction|exact H].
Qed.

Lemma sorted_unique l1 :
  forall l2, StronglySorted str_lt l1 -> StronglySorted str_lt l2 ->
             Permutation l1 l2 -> l1 = l2.
Proof.
  induction l1 as [|x1 r1 IH]; intros l2 H1 H2 Hp.
  - apply Permutation_nil in Hp. congruence.
  - destruct l2 as [|x2 r2]; [apply Permutation_sym, Permutation_nil in Hp; discriminate|].
    inversion H1 as [|? ? Hs1 Hf1]; inversion H2 as [|? ? Hs2 Hf2]; subst.
    rewrite List.Forall_forall in Hf1, Hf2.
    assert (E : x1 = x2).
    { assert (I1 : In x1 (x2 :: r2)) by (eapply Permutation_in; [exact Hp|left; reflexivity]).
      assert (I2 : In x2 (x1 :: r1))
        by (eapply Permutation_in; [symmetry; exact Hp|left; reflexivity]).
      destruct I1 as [->|I1]; [reflexivity|]. destruct I2 as [->|I2]; [reflexivity|].
      exfalso. apply (str_lt_irrefl x1).
      eapply str_lt_trans; [apply Hf1; exact I2|apply Hf2; exact I1]. }
    subst x2. f_equal. apply IH; auto.
    eapply Permutation_cons_inv. exact Hp.
Qed.

Lemma show_line_name w line i i' : show_line w line i = Ok i' -> name i' = name i.
Proof.
  unfold show_line. destruct (Str.contains _ _); [|intros [= <-]; reflexivity].
  destruct (Str.split1 _ _) as [|key [|value [|]]]; try discriminate.
  destruct (_ && _).
  { destruct (int_of_str _ _) as [n|]; [|discriminate]. cbn [bindE].
    destruct (0 <? n); [|intros [= <-]; reflexivity].
    destruct (_format_bytes n); [|discriminate]. intros [= <-]. reflexivity. }
  repeat (destruct (_ && _) || destruct (String.eqb _ _); [intros [= <-]; reflexivity|]).
  intros [= <-]. reflexivity.
Qed.

Lemma show_lines_name w lines : forall i i',
  show_lines w lines i = Ok i' -> name i' = name i.
Proof.
  induction lines as [|l lines IH]; intros i i'; cbn [show_lines].
  - intros [= <-]. reflexivity.
  - destruct (show_line w l i) as [j|] eqn:E; [|discriminate]. cbn [bindE].
    intros H. rewrite (IH _ _ H). eapply show_line_name. exact E.
Qed.

Lemma status_on_exception_name s e : name (status_on_exception s e) = s.
Proof. unfold status_on_exception. destruct (is_timeout e); reflexivity. Qed.

Lemma get_service_status_name s w : name (fst (get_service_status s w)) = s.
Proof.
  unfold get_service_status.
  destruct (run _ 5 w) as [[r1|e] w1]; [|apply status_on_exception_name].
  destruct (run _ 5 w1) as [[r2|e] w2]; [|apply status_on_exception_name].
  destruct (run _ 5 w2) as [[r3|e] w3]; [|apply status_on_exception_name].
  destruct (returncode r3 =? 0); [|reflexivity].
  destruct (show_lines _ _ _) as [i|e] eqn:E; [|apply status_on_exception_name].
  cbn [fst]. apply show_lines_name in E. exact E.
Qed.

Lemma service_data_names l : forall w, map name (fst (service_data l w)) = l.
Proof.
  induction l as [|s l IH]; intros w; cbn [service_data]; [reflexivity|].
  pose proof (get_service_status_name s w) as Hn.
  destruct (get_service_status s w) as [st w1]. cbn [fst] in Hn.
  specialize (IH w1). destruct (service_data l w1) as [l' w2].
  cbn [fst map] in *. congruence.
Qed.

(** C10.  In every state the store reaches from [init_db],
    [get_tracked_services] returns the tracked names in strictly
    ascending byte-wise order (so without duplicates); the list depends
    on the set of names only, not on the order of insertion; and the
    snapshot of [_handle_get_services] lists the services in that
    order. *)
Theorem tracked_services_sorted d :
  reachable d ->
  StronglySorted str_lt (get_tracked_services d) /\
  Permutation (get_tracked_services d) (names d) /\
  (forall d', reachable d' -> Permutation (names d') (names d) ->
              get_tracked_services d' = get_tracked_services d) /\
  (forall w, exists l w',
     _handle_get_services d w = (SendServices 200 l, w') /\
     map name l = get_tracked_services d).
Proof.
  intros Hd.
  assert (Hsorted : forall d0, reachable d0 -> StronglySorted str_lt (get_tracked_services d0)).
  { intros d0 H0. apply sorted_strict; [apply order_by_name_sorted|].
    eapply Permutation_NoDup; [symmetry; apply order_by_name_perm|].
    apply names_unique. exact H0. }
  split; [auto|]. split; [apply order_by_name_perm|]. split.
  - intros d' Hd' Hp. apply sorted_unique; auto.
    unfold get_tracked_services. fold (names d) (names d').
    rewrite !order_by_name_perm. exact Hp.
  - intros w. unfold _handle_get_services.
    pose proof (service_data_names (get_tracked_services d) w) as Hn.
    destruct (service_data _ w) as [l w']. exists l, w'. split; [reflexivity|exact Hn].
Qed.


Lemma add_twice_remove_absent_witness :
  fst (add_service "nginx" 0 init_db) = true /\
  fst (add_service "nginx" 1 (snd (add_service "nginx" 0 init_db))) = false.
Proof.
  destruct (add_twice_remove_absent "nginx" 0 1 init_db eq_refl) as (H1 & H2 & _).
  split; [exact H1|exact H2].
Defined.

Lemma toggle_rows_independent_witness :
  get_toggle_state "nginx" "logs"
    (set_toggle_state "nginx" "journal" false 1
       (set_toggle_state "nginx" "logs" true 0 init_db)) = true.
Proof.
  refine (proj1 (toggle_rows_independent "nginx" "logs" "journal" true false false
                   0 1 2 init_db _)).
  discriminate.
Defined.

Lemma tracked_services_sorted_witness :
  StronglySorted str_lt
    (get_tracked_services
       (snd (add_service "cron" 1 (snd (add_service "nginx" 0 init_db))))).
Proof.
  refine (proj1 (tracked_services_sorted _ _)).
  repeat constructor.
Defined.

End StoreFacts.

(** ** [get_ram_usage] *)

Module RamFacts.
Import Float Num Sys Dashboard Ram Spec FloatFacts FormatFacts.

Lemma primary_fell o : primary_unavailable o -> primary o = FellThrough.
Proof.
  intros [[m ->]|[[m ->]|[[m ->]|(r & -> & H)]]]; try reflexivity.
  unfold primary.
  destruct (Z.eqb_spec (returncode r) 0) as [E|]; [|reflexivity].
  destruct H as [H|[H|(l1 & E1 & H)]]; [contradiction| |].
  - destruct (Str.split _ _) as [|a [|b l]]; try reflexivity. cbn in H. lia.
  - destruct (Str.split _ _) as [|a [|b l]]; try reflexivity.
    cbn in E1. injection E1 as ->.
    destruct (Str.split_ws l1) as [|c0 [|c1 [|c2 [|c3 [|c4 [|c5 [|c6 l']]]]]]];
      try reflexivity.
    cbn in H. lia.
Qed.

Lemma round53_abs_le n d t :
  0 < d -> 0 <= t -> representable t -> Z.abs n <= t * d -> Z.abs (round53 n d) <= t.
Proof.
  intros Hd Ht Hrep Hn.
  assert (Hpos : forall m, 0 <= m -> m <= t * d -> 0 <= round53 m d <= t).
  { intros m Hm Hle. split; [|apply round53_le; auto].
    apply round53_ge; [auto|lia|exists 0, 0; repeat split; lia|lia]. }
  destruct (Z.le_gt_cases 0 n) as [H|H].
  - specialize (Hpos n H ltac:(lia)). lia.
  - specialize (Hpos (- n) ltac:(lia) ltac:(lia)).
    rewrite round53_opp in Hpos by auto. lia.
Qed.

Lemma round64_opp n d : 0 < d -> round64 (- n) d = neg (round64 n d).
Proof.
  intros Hd. unfold round64.
  replace (- n * one) with (- (n * one)) by ring.
  rewrite round53_opp by auto. rewrite Z.abs_opp.
  destruct (Z.ltb_spec (Z.abs (round53 (n * one) d)) huge) as [H|H]; cbn [neg];
    [reflexivity|].
  f_equal. pose proof huge_ge. pose proof one_pos.
  destruct (Z.ltb_spec (- round53 (n * one) d) 0), (Z.ltb_spec (round53 (n * one) d) 0);
    cbn; auto; lia.
Qed.

Lemma of_int_opp z k : of_int z = Ok (Fin k) -> of_int (- z) = Ok (Fin (- k)).
Proof.
  unfold of_int. rewrite round64_opp by lia.
  destruct (round64 z 1); try discriminate. intros [= ->]. reflexivity.
Qed.

Lemma format_bytes_total b :
  Z.abs b < float_limit -> exists s, _format_bytes b = Ok s.
Proof.
  intros Hb. destruct (Z.le_gt_cases 0 b) as [H|H].
  - destruct (format_bytes_render b ltac:(lia)) as (k & _ & _ & _ & E & _). eauto.
  - destruct (of_int_bytes (- b) ltac:(lia)) as (k & E & _).
    apply of_int_opp in E. rewrite Z.opp_involutive in E.
    unfold _format_bytes. erewrite loop_int_lt; [eauto|lia|exact E].
Qed.

Lemma meminfo_bound_pos : 0 < meminfo_bound.
Proof. unfold meminfo_bound. apply Z.pow_pos_nonneg; lia. Qed.

Lemma meminfo_bound_limit : meminfo_bound < float_limit.
Proof.
  rewrite float_limit_split. unfold meminfo_bound.
  replace (2 ^ 1000) with (2 ^ 30 * 2 ^ 970) by (rewrite <- Z.pow_add_r by lia; reflexivity).
  assert (0 < 2 ^ 970) by (apply Z.pow_pos_nonneg; lia).
  generalize dependent (2 ^ 970). intros A HA. nia.
Qed.

Lemma bound_representable j :
  0 <= j -> representable (2 ^ j * meminfo_bound * one).
Proof.
  intros Hj. unfold meminfo_bound, one.
  rewrite <- !Z.pow_add_r by lia. apply representable_pow2. lia.
Qed.

Lemma bound_lt_huge : 2 ^ 7 * meminfo_bound * one < huge.
Proof.
  rewrite huge_split. unfold meminfo_bound. pose proof one_pos.
  apply Z.mul_lt_mono_pos_r; [lia|].
  rewrite <- !Z.pow_add_r by lia. apply Z.pow_lt_mono_r; lia.
Qed.

Lemma fallback_percent_total used_bytes total_bytes :
  Z.abs used_bytes < meminfo_bound ->
  exists p, fallback_percent used_bytes total_bytes = Ok p.
Proof.
  intros Hu. unfold fallback_percent.
  destruct (Z.ltb_spec 0 total_bytes) as [Ht|]; [|eauto].
  pose proof one_pos as Hone. pose proof meminfo_bound_pos as HB.
  pose proof bound_lt_huge as Hh.
  unfold int_truediv. destruct (Z.eqb_spec total_bytes 0); [lia|].
  rewrite Z.sgn_pos, Z.abs_eq, Z.mul_1_r by lia.
  unfold round64 at 1.
  set (k := round53 (used_bytes * one) total_bytes).
  assert (Hk : Z.abs k <= 2 ^ 0 * meminfo_bound * one).
  { apply round53_abs_le; [lia|lia|apply bound_representable; lia|].
    rewrite Z.abs_mul, (Z.abs_eq one) by lia.
    change (2 ^ 0) with 1. rewrite Z.mul_1_l.
    assert (Z.abs used_bytes * one <= meminfo_bound * one) by nia.
    assert (meminfo_bound * one * 1 <= meminfo_bound * one * total_bytes)
      by (apply Z.mul_le_mono_nonneg_l; nia).
    lia. }
  change (2 ^ 0) with 1 in Hk. change (2 ^ 7) with 128 in Hh.
  destruct (Z.ltb_spec (Z.abs k) huge) as [_|Hbad]; [|exfalso; clear - Hk Hh Hbad HB Hone; nia].
  cbn [bindE mul of_Z]. unfold round64.
  set (k' := round53 (k * (100 * one) * one) (one * one)).
  assert (Hk' : Z.abs k' <= 2 ^ 7 * meminfo_bound * one).
  { apply round53_abs_le; [nia|nia|apply bound_representable; lia|].
    change (2 ^ 7) with 128.
    replace (k * (100 * one) * one) with (100 * k * (one * one)) by ring.
    rewrite Z.abs_mul, (Z.abs_eq (one * one)) by nia.
    apply Z.mul_le_mono_nonneg_r; [nia|].
    rewrite Z.abs_mul. change (Z.abs 100) with 100. clear - Hk HB Hone. nia. }
  change (2 ^ 7) with 128 in Hk'.
  destruct (Z.ltb_spec (Z.abs k') huge) as [_|Hbad]; [|exfalso; clear - Hk' Hh Hbad; lia].
  cbn [to_int]. eauto.
Qed.

Lemma get_ram_usage_fallback w :
  primary_unavailable (spawn w (length (started w)) free_command) ->
  fst (get_ram_usage w) = Ok (fallback w).
Proof.
  intros H. unfold get_ram_usage, run. cbn [spawn started].
  fold free_command. rewrite (primary_fell _ H). reflexivity.
Qed.

(** C5, as amended.  When the first tier is unavailable, [get_ram_usage]
    answers from [/proc/meminfo] alone.  Without the key [MemTotal] the
    result is the error "Unable to determine RAM usage".  With it,
    [MemAvailable] is taken when present and [MemFree] otherwise, used is
    total minus available, the four quantities go through
    [_format_bytes], and [use_percent] is
    [int((used_bytes / total_bytes) * 100)] as double arithmetic computes
    it (the quotient rounded, the product rounded, the result truncated),
    or 0 when the total is 0; the five fields are returned whenever these
    five computations succeed, which they do for quantities below
    [2^1000]. *)
Theorem ram_fallback w text (mem_data : gmap string Z) :
  primary_unavailable (spawn w (length (started w)) free_command) ->
  meminfo w = Ok text ->
  parse_meminfo (int_max_str_digits w) text = Ok mem_data ->
  (mem_data !! "MemTotal" = None ->
   fst (get_ram_usage w) = Ok (RamError "Unable to determine RAM usage")) /\
  (forall total_bytes, mem_data !! "MemTotal" = Some total_bytes ->
     let free_bytes := default 0 (mem_data !! "MemFree") in
     let available_bytes := default free_bytes (mem_data !! "MemAvailable") in
     let used_bytes := total_bytes - available_bytes in
     (forall t u f a p,
        _format_bytes total_bytes = Ok t -> _format_bytes used_bytes = Ok u ->
        _format_bytes free_bytes = Ok f -> _format_bytes available_bytes = Ok a ->
        fallback_percent used_bytes total_bytes = Ok p ->
        fst (get_ram_usage w) =
          Ok (RamUsage {| total := t; used := u; free := f; available := a;
                          use_percent := p |})) /\
     (0 <= total_bytes < meminfo_bound -> 0 <= free_bytes < meminfo_bound ->
      0 <= available_bytes < meminfo_bound ->
      exists snap,
        fst (get_ram_usage w) = Ok (RamUsage snap) /\
        _format_bytes total_bytes = Ok (total snap) /\
        _format_bytes used_bytes = Ok (used snap) /\
        _format_bytes free_bytes = Ok (free snap) /\
        _format_bytes available_bytes = Ok (available snap) /\
        fallback_percent used_bytes total_bytes = Ok (use_percent snap)) /\
     (total_bytes = 0 -> fallback_percent used_bytes total_bytes = Ok 0)).
Proof.
  intros Hp Hm Hparse. rewrite (get_ram_usage_fallback w Hp).
  unfold fallback. rewrite Hm. cbn [bindE]. rewrite Hparse. cbn [bindE].
  unfold fallback_snapshot. split.
  - intros ->. reflexivity.
  - intros total_bytes Htot. rewrite Htot. cbv zeta.
    set (free_bytes := default 0 (mem_data !! "MemFree")).
    set (available_bytes := default free_bytes (mem_data !! "MemAvailable")).
    set (used_bytes := total_bytes - available_bytes).
    assert (Hcond : forall t u f a p,
      _format_bytes total_bytes = Ok t -> _format_bytes used_bytes = Ok u ->
      _format_bytes free_bytes = Ok f -> _format_bytes available_bytes = Ok a ->
      fallback_percent used_bytes total_bytes = Ok p ->
      Ok match
        (do total_formatted <- _format_bytes total_bytes;
         do used_formatted <- _format_bytes used_bytes;
         do free_formatted <- _format_bytes free_bytes;
         do available_formatted <- _format_bytes available_bytes;
         do p0 <- fallback_percent used_bytes total_bytes;
         Ok (Some {| total := total_formatted; used := used_formatted;
                     free := free_formatted; available := available_formatted;
                     use_percent := p0 |}))
      with
      | Ok (Some snap) => RamUsage snap
      | Ok None => RamError "Unable to determine RAM usage"
      | Raise e =>
          if is_os_error e then RamError ("Error reading memory info: " ++ exn_str e)
          else RamError ("Error getting RAM usage: " ++ exn_str e)
      end = Ok (RamUsage {| total := t; used := u; free := f; available := a;
                            use_percent := p |})).
    { intros t u f a p -> -> -> -> ->. reflexivity. }
    split; [exact Hcond|]. split.
    + intros Ht Hf Ha. pose proof meminfo_bound_limit as Hlim.
      destruct (format_bytes_total total_bytes ltac:(lia)) as [t Et].
      destruct (format_bytes_total used_bytes ltac:(unfold used_bytes; lia)) as [u Eu].
      destruct (format_bytes_total free_bytes ltac:(lia)) as [f Ef].
      destruct (format_bytes_total available_bytes ltac:(lia)) as [a Ea].
      destruct (fallback_percent_total used_bytes total_bytes
                  ltac:(unfold used_bytes; lia)) as [p Ep].
      eexists. split; [exact (Hcond _ _ _ _ _ Et Eu Ef Ea Ep)|].
      cbn. auto.
    + intros ->. reflexivity.
Qed.

(** C5 as stated fails on the percentage: with 29 % of the memory in use
    the two roundings give 28.999999999999996 and [use_percent] is 28,
    not [floor(100 * used / total) = 29]. *)
Lemma ram_percent_not_floor :
  primary_unavailable (Raised (FileNotFoundError "free")) /\
  exists snap,
    fst (get_ram_usage (world_of (Raised (FileNotFoundError "free")) (Ok meminfo_16g)))
      = Ok (RamUsage snap) /\
    use_percent snap = 28 /\
    100 * (16000000 * 1024 - 11360000 * 1024) / (16000000 * 1024) = 29.
Proof.
  split; [right; left; eexists; reflexivity|].
  eexists. split; [vm_compute; reflexivity|]. split; reflexivity.
Qed.

Lemma ram_fallback_witness :
  exists snap,
    fst (get_ram_usage (world_of (Raised (FileNotFoundError "free")) (Ok meminfo_16g)))
      = Ok (RamUsage snap) /\
    _format_bytes (16000000 * 1024) = Ok (total snap) /\
    _format_bytes (16000000 * 1024 - 11360000 * 1024) = Ok (used snap).
Proof.
  set (w := world_of _ _).
  destruct (ram_fallback w meminfo_16g
              (<["MemAvailable" := 11360000 * 1024]>
                 (<["MemFree" := 1000000 * 1024]>
                    (<["MemTotal" := 16000000 * 1024]> ∅))))
    as [_ H].
  - right. left. eexists. reflexivity.
  - reflexivity.
  - vm_compute. reflexivity.
  - destruct (H (16000000 * 1024) ltac:(vm_compute; reflexivity)) as (_ & H2 & _).
    destruct H2 as (snap & E & Et & Eu & _).
    + vm_compute. split; [discriminate|reflexivity].
    + vm_compute. split; [discriminate|reflexivity].
    + vm_compute. split; [discriminate|reflexivity].
    + exists snap. split; [exact E|]. split; [exact Et|exact Eu].
Defined.


End RamFacts.

(** ** Decimal text *)

Module TextFacts.
Import Num Spec Terms FormatFacts.

Lemma of_uint_acc_value d : forall p,
  Z.pos (Pos.of_uint_acc d p) = Str.digits_value (Z.pos p) (NilEmpty.string_of_uint d).
Proof.
  induction d as [|d IH|d IH|d IH|d IH|d IH|d IH|d IH|d IH|d IH|d IH]; intros p;
    [reflexivity|..];
    cbn [Pos.of_uint_acc NilEmpty.string_of_uint Str.digits_value];
    rewrite IH; f_equal; try reflexivity;
    match goal with
    | |- _ = _ + Str.digit_val ?c =>
        let v := eval vm_compute in (Str.digit_val c) in
        change (Str.digit_val c) with v; lia
    end.
Qed.

Lemma of_uint_value d :
  Z.of_N (Pos.of_uint d) = Str.digits_value 0 (NilEmpty.string_of_uint d).
Proof.
  induction d as [|d IH|d IH|d IH|d IH|d IH|d IH|d IH|d IH|d IH|d IH];
    [reflexivity|exact IH|..];
    cbn [Pos.of_uint NilEmpty.string_of_uint Str.digits_value Z.of_N];
    rewrite of_uint_acc_value; reflexivity.
Qed.

(** [int(str(z)) == z]. *)
Lemma digits_value_str z : 0 <= z -> Str.digits_value 0 (str z) = z.
Proof.
  intros Hz. destruct z as [|p|p]; [reflexivity| |lia].
  unfold str. cbn [Z.to_int NilZero.string_of_int].
  pose proof (DecimalPos.Unsigned.of_to p) as E.
  unfold NilZero.string_of_uint.
  destruct (Pos.to_uint p) eqn:U; try (rewrite <- of_uint_value, E; reflexivity).
  discriminate E.
Qed.

Lemma digits_value_app a : forall b acc,
  Str.digits_value acc (a ++ b) = Str.digits_value (Str.digits_value acc a) b.
Proof.
  induction a as [|c a IH]; intros b acc; [reflexivity|].
  change (String c a ++ b) with (String c (a ++ b)). cbn [Str.digits_value]. apply IH.
Qed.

Lemma str_digits z : 0 <= z -> exists c r, str z = String c r /\ Str.is_digit c = true /\
                                           Str.all_digits r = true.
Proof.
  intros Hz. pose proof (str_isdigit z Hz) as D.
  destruct (str z) as [|c r]; [discriminate D|].
  cbn [Str.isdigit Str.all_digits] in D. apply andb_true_iff in D as [Dc Dr]. eauto.
Qed.

Lemma digit_not_space c : Str.is_digit c = true -> Str.is_space c = false.
Proof.
  unfold Str.is_digit, Str.is_space. intros H.
  apply andb_true_iff in H as [H1 H2]. apply N.leb_le in H1, H2.
  destruct (N.leb_spec 9 (Str.code c)), (N.leb_spec (Str.code c) 13),
    (N.leb_spec 28 (Str.code c)), (N.leb_spec (Str.code c) 32); cbn; try reflexivity; lia.
Qed.

Lemma rstrip_clean s : no_space s = true -> Str.rstrip_by Str.is_space s = s.
Proof.
  induction s as [|a r IH]; [reflexivity|].
  cbn [no_space Str.rstrip_by]. intros H. apply andb_true_iff in H as [Ha Hr].
  apply negb_true_iff in Ha. rewrite (IH Hr), Ha. destruct r; reflexivity.
Qed.

Lemma strip_clean s : no_space s = true -> Str.strip s = s.
Proof.
  intros H. unfold Str.strip. rewrite rstrip_clean by exact H.
  destruct s as [|a r]; [reflexivity|].
  cbn [no_space] in H. apply andb_true_iff in H as [Ha _]. apply negb_true_iff in Ha.
  cbn [Str.lstrip_by]. rewrite Ha. reflexivity.
Qed.

(** The white space of [float()] is part of that of [str.strip()]. *)
Lemma not_float_space c : Str.is_space c = false -> Str.is_float_space c = false.
Proof.
  unfold Str.is_float_space, Str.is_space.
  destruct (N.leb_spec 9 (Str.code c)), (N.leb_spec (Str.code c) 13),
    (N.leb_spec 28 (Str.code c)), (N.leb_spec (Str.code c) 32),
    (N.eqb_spec (Str.code c) 32); cbn; try reflexivity; try discriminate; lia.
Qed.

Lemma float_strip_clean s : no_space s = true -> Str.float_strip s = s.
Proof.
  intros H. unfold Str.float_strip.
  assert (R : Str.rstrip_by Str.is_float_space s = s).
  { induction s as [|a r IH]; [reflexivity|].
    cbn [no_space Str.rstrip_by] in *. apply andb_true_iff in H as [Ha Hr].
    apply negb_true_iff in Ha. rewrite (IH Hr), (not_float_space _ Ha).
    destruct r; reflexivity. }
  rewrite R. destruct s as [|a r]; [reflexivity|].
  cbn [no_space] in H. apply andb_true_iff in H as [Ha _]. apply negb_true_iff in Ha.
  cbn [Str.lstrip_by]. rewrite (not_float_space _ Ha). reflexivity.
Qed.

Lemma contains_append c a b : Str.contains c (a ++ String c b) = true.
Proof.
  induction a as [|x a IH].
  - change ("" ++ String c b) with (String c b). cbn [Str.contains].
    rewrite Ascii.eqb_refl. reflexivity.
  - change (String x a ++ String c b) with (String x (a ++ String c b)).
    cbn [Str.contains]. rewrite IH. apply orb_true_r.
Qed.

Lemma split1_word sep key rest :
  Str.contains sep key = false -> Str.split1 sep (key ++ String sep rest) = [key; rest].
Proof.
  induction key as [|x key IH].
  - intros _. change ("" ++ String sep rest) with (String sep rest).
    cbn [Str.split1]. rewrite Ascii.eqb_refl. reflexivity.
  - cbn [Str.contains]. intros H. apply orb_false_iff in H as [Hx Hk].
    change (String x key ++ String sep rest) with (String x (key ++ String sep rest)).
    cbn [Str.split1]. rewrite Ascii.eqb_sym, Hx, (IH Hk). reflexivity.
Qed.

Lemma int_of_str_str m n :
  0 <= n -> (m = 0%nat \/ (String.length (str n) <= m)%nat) -> int_of_str m (str n) = Ok n.
Proof.
  intros Hn Hm. unfold int_of_str. rewrite (str_isdigit n Hn). cbn [negb].
  replace (negb (Nat.eqb m 0) && Nat.ltb m (String.length (str n))) with false.
  - rewrite digits_value_str by exact Hn. reflexivity.
  - symmetry. destruct Hm as [->|Hm]; [reflexivity|].
    apply andb_false_iff. right. apply Nat.ltb_ge. exact Hm.
Qed.

End TextFacts.

(** ** [_format_bytes] below zero *)

Module SignFacts.
Import Float Num Sys Dashboard Spec FloatFacts FormatFacts UptimeFacts RamFacts.

Lemma fixed1_neg k : 0 < k -> fixed1 (Fin (- k)) = "-" ++ fixed1 (Fin k).
Proof.
  intros Hk. unfold fixed1. rewrite Z.abs_opp.
  destruct (Z.ltb_spec (- k) 0); [|lia]. destruct (Z.ltb_spec k 0); [lia|].
  reflexivity.
Qed.

(** X1.  A negative byte count is never scaled: whatever its magnitude
    (within the range of doubles), [_format_bytes] renders it in bytes,
    as a minus sign, the magnitude with one decimal, and the unit [B]. *)
Theorem format_bytes_negative b :
  - float_limit < b < 0 ->
  exists k, of_int (- b) = Ok (Fin k) /\ 0 < k /\
            _format_bytes b = Ok ("-" ++ fixed1 (Fin k) ++ "B") /\
            one_decimal (fixed1 (Fin k)).
Proof.
  intros Hb. pose proof one_pos as Hone.
  destruct (of_int_bytes (- b) ltac:(lia)) as (k & E & _ & Hk & Hs & Hl).
  assert (Hpos : 0 < k).
  { destruct (Z.lt_ge_cases (- b) (2 ^ 53)) as [H|H].
    - rewrite (Hs H). nia.
    - specialize (Hl H). nia. }
  exists k. split; [exact E|]. split; [exact Hpos|]. split.
  - pose proof (of_int_opp _ _ E) as E'. rewrite Z.opp_involutive in E'.
    unfold _format_bytes. rewrite (loop_int_lt _ _ b (- k)) by (auto; lia).
    rewrite fixed1_neg by auto. reflexivity.
  - apply fixed1_shape. lia.
Qed.

Lemma format_bytes_negative_witness :
  _format_bytes (-2147483648) = Ok "-2147483648.0B".
Proof.
  destruct (format_bytes_negative (-2147483648)) as (k & E & _ & F & _).
  - unfold float_limit. split; [vm_compute; reflexivity | lia].
  - rewrite F. vm_compute in E. injection E as <-. vm_compute. reflexivity.
Defined.

End SignFacts.

(** ** [_calculate_uptime] around the clock *)

Module ClockFacts.
Import Float Num Sys Dashboard Spec Terms FloatFacts FormatFacts UptimeFacts RamFacts.

Lemma search_match ts stamp :
  Clock.search ts = Some stamp -> exists s, Clock.match_here Clock.pattern s = Some stamp.
Proof.
  induction ts as [|c r IH]; cbn [Clock.search].
  - destruct (Clock.match_here Clock.pattern "") eqn:E; [|discriminate].
    intros [= <-]. eauto.
  - destruct (Clock.match_here Clock.pattern (String c r)) eqn:E.
    + intros [= <-]. eauto.
    + exact IH.
Qed.

Lemma digit_val_range c : Str.is_digit c = true -> 0 <= Str.digit_val c <= 9.
Proof.
  unfold Str.is_digit, Str.digit_val. intros H.
  apply andb_true_iff in H as [H1 H2].
  apply N.leb_le in H1, H2. lia.
Qed.

Lemma match_fields s m :
  Clock.match_here Clock.pattern s = Some m ->
  0 <= Clock.field m 0 4 <= 9999 /\ 0 <= Clock.field m 5 2 <= 99 /\
  0 <= Clock.field m 8 2 <= 99 /\ 0 <= Clock.field m 11 2 <= 99 /\
  0 <= Clock.field m 14 2 <= 99 /\ 0 <= Clock.field m 17 2 <= 99.
Proof.
  unfold Clock.pattern. intros H.
  repeat (destruct s as [|? s]; [discriminate H|]; cbn [Clock.match_here] in H;
          match type of H with
          | context [if Str.is_digit ?c then _ else _] =>
              destruct (Str.is_digit c) eqn:?; [|discriminate H]
          | context [if Ascii.eqb ?a ?c then _ else _] =>
              destruct (Ascii.eqb a c); [|discriminate H]
          end).
  repeat match goal with
         | D : Str.is_digit _ = true |- _ => apply digit_val_range in D
         end.
  cbn [Clock.match_here] in H. injection H as <-.
  unfold Clock.field. cbn [substring Str.digits_value].
  lia.
Qed.

Lemma days_before_month_range y m :
  1 <= m <= 12 -> 0 <= Clock.days_before_month y m <= 335.
Proof.
  intros Hm.
  assert (E : m = 1 \/ m = 2 \/ m = 3 \/ m = 4 \/ m = 5 \/ m = 6 \/ m = 7 \/ m = 8 \/
              m = 9 \/ m = 10 \/ m = 11 \/ m = 12) by lia.
  unfold Clock.days_before_month, Clock.days_in_month.
  generalize (Clock.is_leap y). intros leap.
  repeat (destruct E as [->|E];
          [destruct leap; split; apply Z.leb_le; vm_compute; reflexivity|]).
  subst m. destruct leap; split; apply Z.leb_le; vm_compute; reflexivity.
Qed.

Lemma strptime_range s m start :
  Clock.match_here Clock.pattern s = Some m -> Clock.strptime m = Ok start ->
  0 <= Clock.to_us start <= datetime_max_us + 86400 * 1000000.
Proof.
  intros Hm Hp. apply match_fields in Hm as (Hy & Hmo & Hd & Hh & Hmi & Hs).
  unfold Clock.strptime in Hp. cbn [Clock.year Clock.month Clock.day Clock.hour
    Clock.minute Clock.second] in Hp.
  destruct (_ && _) eqn:C1 in Hp; [|discriminate Hp].
  destruct (_ && _) eqn:C2 in Hp; [|discriminate Hp].
  injection Hp as <-.
  repeat (apply andb_true_iff in C1 as [C1 ?]).
  repeat (apply andb_true_iff in C2 as [C2 ?]).
  unfold Clock.to_us, datetime_max_us.
  cbn [Clock.year Clock.month Clock.day Clock.hour Clock.minute Clock.second].
  pose proof (days_before_month_range (Clock.field m 0 4) (Clock.field m 5 2) ltac:(lia)).
  unfold Clock.days_before_year.
  set (y := Clock.field m 0 4) in *. set (dm := Clock.days_before_month _ _) in *.
  clearbody y dm. Z.div_mod_to_equations. lia.
Qed.

Lemma total_seconds_opp us k :
  Clock.total_seconds us = Ok (Fin k) -> Clock.total_seconds (- us) = Ok (Fin (- k)).
Proof.
  unfold Clock.total_seconds, int_truediv.
  change (1000000 =? 0) with false. cbv iota.
  change (Z.sgn 1000000) with 1. change (Z.abs 1000000) with 1000000.
  rewrite !Z.mul_1_r. rewrite round64_opp by lia.
  destruct (round64 us 1000000); try discriminate. intros [= ->]. reflexivity.
Qed.

Lemma total_seconds_whole n :
  Z.abs n < 2 ^ 53 -> Clock.total_seconds (n * 1000000) = Ok (Fin (n * one)).
Proof.
  intros Hn. unfold Clock.total_seconds, int_truediv.
  change (1000000 =? 0) with false. cbv iota.
  change (Z.sgn 1000000) with 1. change (Z.abs 1000000) with 1000000.
  rewrite Z.mul_1_r. unfold round64.
  replace (n * 1000000 * one) with (n * one * 1000000) by ring.
  rewrite round53_exact by (try apply representable_int; lia).
  pose proof (small_lt_huge n Hn) as Hh.
  destruct (Z.ltb_spec (Z.abs (n * one)) huge); [reflexivity|lia].
Qed.

Lemma str_neg n : 0 < n -> str (- n) = "-" ++ str n.
Proof. destruct n; try lia. reflexivity. Qed.

Lemma str_head z : exists c r, str z = String c r /\ c <> "N"%char.
Proof.
  destruct (Z.le_gt_cases 0 z) as [H|H].
  - pose proof (str_isdigit z H) as D. destruct (str z) as [|c r]; [discriminate D|].
    exists c, r. split; [reflexivity|]. intros ->. discriminate D.
  - destruct z as [| |p]; try lia. exists "-"%char. eexists. split; [reflexivity|discriminate].
Qed.

Lemma str_not_na z t : str z ++ t <> "N/A".
Proof.
  destruct (str_head z) as (c & r & -> & Hc).
  change (String c r ++ t) with (String c (r ++ t)). intros [= -> _]. contradiction.
Qed.

Lemma uptime_text_not_na k : uptime_text k <> "N/A".
Proof.
  unfold uptime_text.
  destruct (k <? 60 * one); [apply str_not_na|].
  destruct (k <? 3600 * one); [apply str_not_na|].
  destruct (k <? 86400 * one); apply str_not_na.
Qed.

Lemma elapsed_range now s stamp start :
  0 <= now <= datetime_max_us ->
  Clock.match_here Clock.pattern s = Some stamp -> Clock.strptime stamp = Ok start ->
  - timedelta_max_us <= now - Clock.to_us start <= timedelta_max_us.
Proof.
  intros Hn Hm Hp. pose proof (strptime_range _ _ _ Hm Hp) as H.
  unfold datetime_max_us, timedelta_max_us in *. lia.
Qed.

(** What [_calculate_uptime] gives once the time stamp is found and
    valid, on either side of the clock. *)
Lemma calculate_uptime_value now ts stamp start :
  Clock.search ts = Some stamp -> Clock.strptime stamp = Ok start ->
  - timedelta_max_us <= now - Clock.to_us start <= timedelta_max_us ->
  exists k, Clock.total_seconds (now - Clock.to_us start) = Ok (Fin k) /\
    (0 <= now - Clock.to_us start -> 0 <= k /\ _calculate_uptime now ts = uptime_text k) /\
    (now - Clock.to_us start < 0 ->
       k <= 0 /\ _calculate_uptime now ts = str (Z.quot k one) ++ "s").
Proof.
  intros Hs Hp Hus. pose proof one_pos as Hone.
  unfold _calculate_uptime, calculate_uptime_body.
  rewrite (search_nonempty _ _ Hs), Hs, Hp. cbn [bindE].
  set (el := now - Clock.to_us start) in *.
  destruct (Z.le_gt_cases 0 el) as [H|H].
  - destruct (total_seconds_range el ltac:(lia)) as (k & E & Hrep & Hk).
    exists k. split; [exact E|]. split; [|lia]. intros _.
    rewrite E. cbn [bindE]. rewrite uptime_of_seconds_spec by auto.
    split; [lia|reflexivity].
  - destruct (total_seconds_range (- el) ltac:(lia)) as (k & E & Hrep & Hk).
    apply total_seconds_opp in E. rewrite Z.opp_involutive in E.
    exists (- k). split; [exact E|]. split; [lia|]. intros _.
    rewrite E. cbn [bindE]. unfold uptime_of_seconds, lt_int. cbn [ltb].
    destruct (Z.ltb_spec (- k) (60 * one)); [|lia].
    cbn [to_int bindE]. split; [lia|reflexivity].
Qed.

(** X2.  A start time that lies in the future is never bucketed: the
    elapsed seconds are negative, hence below 60, and the text is their
    truncation toward zero followed by [s].  A start time [n] whole
    seconds ahead reads ["-{n}s"], also for a day or more. *)
Theorem calculate_uptime_future now ts stamp start :
  Clock.search ts = Some stamp -> Clock.strptime stamp = Ok start ->
  0 <= now < Clock.to_us start ->
  (exists k, Clock.total_seconds (now - Clock.to_us start) = Ok (Fin k) /\ k <= 0 /\
             _calculate_uptime now ts = str (Z.quot k one) ++ "s") /\
  (forall n, Clock.to_us start - now = n * 1000000 ->
             _calculate_uptime now ts = "-" ++ str n ++ "s").
Proof.
  intros Hs Hp Hn.
  destruct (search_match _ _ Hs) as (s & Hm).
  pose proof (strptime_range _ _ _ Hm Hp) as Hr.
  assert (Hus : - timedelta_max_us <= now - Clock.to_us start <= timedelta_max_us).
  { unfold datetime_max_us, timedelta_max_us in *. lia. }
  destruct (calculate_uptime_value now ts stamp start Hs Hp Hus) as (k & E & _ & Hneg).
  destruct (Hneg ltac:(lia)) as [Hk R].
  split; [exists k; auto|].
  intros n Hel. rewrite R.
  assert (Hn' : 0 < n < 2 ^ 53) by (unfold datetime_max_us in Hr; lia).
  replace (now - Clock.to_us start) with (- n * 1000000) in E by lia.
  rewrite total_seconds_whole in E by lia. injection E as <-.
  rewrite Z.quot_mul by (pose proof one_pos; lia).
  rewrite str_neg by lia. reflexivity.
Qed.

Lemma calculate_uptime_future_witness :
  _calculate_uptime 63844797600000000 "Thu 2024-03-01 10:00:00 UTC" = "-86400s".
Proof.
  refine (proj2 (calculate_uptime_future 63844797600000000
            "Thu 2024-03-01 10:00:00 UTC" "2024-03-01 10:00:00"
            {| Clock.year := 2024; Clock.month := 3; Clock.day := 1;
               Clock.hour := 10; Clock.minute := 0; Clock.second := 0 |}
            _ _ _) 86400 _).
  - vm_compute. reflexivity.
  - vm_compute. reflexivity.
  - vm_compute. split; [discriminate|reflexivity].
  - vm_compute. reflexivity.
Defined.

(** X3.  For a clock within the range of [datetime], the uptime is
    ["N/A"] exactly when the text holds no time stamp of the shape
    [YYYY-MM-DD HH:MM:SS], or the first one it holds is not a valid date
    and time; every valid time stamp gives a number and a unit. *)
Theorem calculate_uptime_not_available now ts :
  0 <= now <= datetime_max_us ->
  (_calculate_uptime now ts = "N/A" <->
   Clock.search ts = None \/
   exists stamp e, Clock.search ts = Some stamp /\ Clock.strptime stamp = Raise e).
Proof.
  intros Hn. split.
  - intros R. destruct (Clock.search ts) as [stamp|] eqn:Hs; [|left; reflexivity].
    destruct (Clock.strptime stamp) as [start|e] eqn:Hp; [|right; eauto].
    exfalso. destruct (search_match _ _ Hs) as (s & Hm).
    pose proof (elapsed_range _ _ _ _ Hn Hm Hp) as Hus.
    destruct (calculate_uptime_value now ts stamp start Hs Hp Hus) as (k & E & Hpos & Hneg).
    destruct (Z.le_gt_cases 0 (now - Clock.to_us start)) as [H|H].
    + destruct (Hpos H) as [_ R']. rewrite R' in R. exact (uptime_text_not_na _ R).
    + destruct (Hneg H) as [_ R']. rewrite R' in R. exact (str_not_na _ _ R).
  - unfold _calculate_uptime, calculate_uptime_body.
    intros [Hs|(stamp & e & Hs & Hp)].
    + rewrite Hs. destruct (_ || _); reflexivity.
    + rewrite (search_nonempty _ _ Hs), Hs, Hp. reflexivity.
Qed.

Lemma calculate_uptime_not_available_witness :
  _calculate_uptime 63844797600000000 "Fri 2023-02-29 10:00:00 UTC" = "N/A".
Proof.
  apply (calculate_uptime_not_available 63844797600000000 "Fri 2023-02-29 10:00:00 UTC").
  - vm_compute. split; discriminate.
  - right. exists "2023-02-29 10:00:00", (ValueError "value out of range").
    split; vm_compute; reflexivity.
Defined.

End ClockFacts.

(** ** The store: removal, and the toggles read in bulk *)

Module ListingFacts.
Import Store Toggles Spec Terms StoreFacts.

Lemma insert_asc_least x l :
  (forall y, In y l -> str_le x y) -> insert_asc x l = x :: l.
Proof.
  destruct l as [|y r]; [reflexivity|]. intros H. cbn [insert_asc].
  rewrite (H y (or_introl eq_refl)). reflexivity.
Qed.

Lemma insert_asc_filter (p : string -> bool) x l :
  StronglySorted str_le l ->
  List.filter p (insert_asc x l) =
  if p x then insert_asc x (List.filter p l) else List.filter p l.
Proof.
  induction 1 as [|y r Hr IH Hy]; cbn [insert_asc List.filter].
  - destruct (p x); reflexivity.
  - destruct (String.leb x y) eqn:L; cbn [List.filter].
    + destruct (p x); [|reflexivity].
      symmetry. apply (insert_asc_least x (List.filter p (y :: r))).
      intros z Hz. apply filter_In in Hz as [[<-|Hz] _]; [exact L|].
      apply (str_le_trans x y z L). rewrite List.Forall_forall in Hy. exact (Hy z Hz).
    + rewrite IH. destruct (p y), (p x); cbn [insert_asc]; rewrite ?L; reflexivity.
Qed.

Lemma order_by_name_filter (p : string -> bool) l :
  order_by_name (List.filter p l) = List.filter p (order_by_name l).
Proof.
  induction l as [|x l IH]; [reflexivity|].
  cbn [List.filter]. change (order_by_name (x :: l)) with (insert_asc x (order_by_name l)).
  rewrite insert_asc_filter by apply order_by_name_sorted.
  destruct (p x); [|exact IH].
  change (order_by_name (x :: List.filter p l))
    with (insert_asc x (order_by_name (List.filter p l))).
  rewrite IH. reflexivity.
Qed.

(** X4.  Removing a service takes its name, and nothing else, out of
    the listing: the other names stay, in their order.  The name is
    absent afterwards whether or not it was tracked, and a second removal
    changes nothing. *)
Theorem remove_service_listing name d :
  get_tracked_services (remove_service name d) =
    List.filter (fun x => negb (String.eqb x name)) (get_tracked_services d) /\
  ~ In name (get_tracked_services (remove_service name d)) /\
  remove_service name (remove_service name d) = remove_service name d.
Proof.
  assert (E : get_tracked_services (remove_service name d) =
              List.filter (fun x => negb (String.eqb x name)) (get_tracked_services d)).
  { unfold get_tracked_services. fold (names (remove_service name d)). fold (names d).
    rewrite names_remove. apply order_by_name_filter. }
  split; [exact E|]. split.
  - rewrite E. intros H. apply filter_In in H as [_ H].
    rewrite String.eqb_refl in H. discriminate H.
  - apply remove_untracked. apply is_tracked_false. rewrite names_remove.
    intros H. apply filter_In in H as [_ H]. rewrite String.eqb_refl in H. discriminate H.
Qed.

(** X5.  Adding a name that is not tracked and removing it again gives
    back the rows and the listing there were, but not the counter of the
    ids: the next row gets an id that was never used. *)
Theorem add_remove_round_trip name ts d :
  is_tracked name d = false ->
  let d' := remove_service name (snd (add_service name ts d)) in
  tracked_services d' = tracked_services d /\
  get_tracked_services d' = get_tracked_services d /\
  service_toggles d' = service_toggles d /\
  tracked_seq d' = tracked_seq d + 1.
Proof.
  intros H d'.
  assert (E : tracked_services d' = tracked_services d).
  { subst d'. unfold add_service. rewrite H. cbn [snd remove_service tracked_services].
    rewrite List.filter_app. cbn [List.filter tr_service_name].
    rewrite String.eqb_refl. cbn [negb]. rewrite app_nil_r.
    apply filter_all. intros r Hr.
    destruct (String.eqb_spec (tr_service_name r) name) as [En|]; [|reflexivity].
    exfalso. apply is_tracked_false in H. apply H. unfold names.
    rewrite <- En. apply in_map. exact Hr. }
  split; [exact E|]. split; [unfold get_tracked_services; rewrite E; reflexivity|].
  subst d'. unfold add_service. rewrite H. split; reflexivity.
Qed.

Lemma add_remove_round_trip_witness :
  get_tracked_services
    (remove_service "cron" (snd (add_service "cron" 1 (snd (add_service "nginx" 0 init_db)))))
  = get_tracked_services (snd (add_service "nginx" 0 init_db)).
Proof.
  refine (proj1 (proj2 (add_remove_round_trip "cron" 1
            (snd (add_service "nginx" 0 init_db)) _))).
  vm_compute. reflexivity.
Defined.

(** *** The toggles *)












End ListingFacts.

(** ** [get_service_status]: the record and the commands *)

Module StatusFacts.
Import Float Num Sys Dashboard Spec Terms FormatFacts StoreFacts TextFacts.

Lemma show_line_ok w line i i' :
  show_line w line i = Ok i' -> record_ok i -> record_ok i'.
Proof.
  unfold show_line, record_ok. destruct (Str.contains _ _); [|intros [= <-]; auto].
  destruct (Str.split1 _ _) as [|key [|value [|]]]; try discriminate.
  destruct (_ && _).
  { destruct (int_of_str _ _) as [n|]; [|discriminate]. cbn [bindE].
    destruct (Z.ltb_spec 0 n); [|intros [= <-]; auto].
    destruct (_format_bytes n) as [m|] eqn:F; [|discriminate]. intros [= <-].
    cbn [set_memory active state memory]. intros [Ha _]. split; [exact Ha|].
    right. exists n. auto. }
  repeat match goal with
         | |- (if ?c then _ else _) = _ -> _ => destruct c; [intros [= <-]; auto|]
         end.
  intros [= <-]. auto.
Qed.

Lemma show_lines_ok w lines : forall i i',
  show_lines w lines i = Ok i' -> record_ok i -> record_ok i'.
Proof.
  induction lines as [|l lines IH]; intros i i'; cbn [show_lines].
  - intros [= <-]. auto.
  - destruct (show_line w l i) as [j|] eqn:E; [|discriminate]. cbn [bindE].
    intros H Hi. apply (IH _ _ H). eapply show_line_ok; eauto.
Qed.

Lemma status_on_exception_ok s e : record_ok (status_on_exception s e).
Proof.
  unfold status_on_exception, record_ok.
  destruct (is_timeout e); cbn; split; auto; left; reflexivity.
Qed.

(** X7.  Whatever the three commands answer, the record that
    [get_service_status] returns carries the name asked for, is active
    exactly when its state is the word [active] (so never in the timeout
    or error record), and shows as memory either ["N/A"] or a positive
    byte count in the format of [_format_bytes]. *)
Theorem service_status_record service_name w :
  name (fst (get_service_status service_name w)) = service_name /\
  (active (fst (get_service_status service_name w)) = true <->
   state (fst (get_service_status service_name w)) = "active") /\
  memory_text (memory (fst (get_service_status service_name w))).
Proof.
  split; [apply get_service_status_name|].
  assert (H : record_ok (fst (get_service_status service_name w))).
  { unfold get_service_status.
    destruct (run _ 5 w) as [[r1|e] w1]; [|apply status_on_exception_ok].
    destruct (run _ 5 w1) as [[r2|e] w2]; [|apply status_on_exception_ok].
    destruct (run _ 5 w2) as [[r3|e] w3]; [|apply status_on_exception_ok].
    assert (H0 : record_ok
              {| name := service_name; status := stdout r1;
                 active := String.eqb (Str.strip (stdout r2)) "active";
                 state := Str.strip (stdout r2);
                 memory := "N/A"; uptime := "N/A"; main_pid := "N/A";
                 load_state := "N/A"; unit_file_state := "N/A" |}).
    { split; [reflexivity|left; reflexivity]. }
    destruct (returncode r3 =? 0); [|exact H0].
    destruct (show_lines _ _ _) as [i|e] eqn:E; [|apply status_on_exception_ok].
    cbn [fst]. eapply show_lines_ok; eauto. }
  destruct H as [Ha Hm]. split; [|exact Hm].
  rewrite Ha. apply String.eqb_eq.
Qed.

Lemma get_service_status_trace service_name w :
  exists n, (1 <= n <= 3)%nat /\
    started (snd (get_service_status service_name w)) =
      (started w ++ firstn n (status_query service_name))%list /\
    (forall j c, (S j < n)%nat -> nth_error (status_query service_name) j = Some c ->
       completes (spawn w (length (started w) + j) c)) /\
    ((n < 3)%nat ->
     exists c e, nth_error (status_query service_name) (n - 1) = Some c /\
       spawn w (length (started w) + (n - 1)) c = Raised e).
Proof.
  unfold get_service_status, run. cbn [spawn started].
  rewrite !length_app. cbn [length].
  destruct (spawn w (length (started w)) _) as [r1|e] eqn:E1.
  2:{ exists 1%nat. split; [lia|]. split; [reflexivity|]. split; [intros j c Hj; lia|].
      intros _. eexists _, e. split; [reflexivity|]. rewrite Nat.add_0_r. exact E1. }
  destruct (spawn w (length (started w) + 1) _) as [r2|e] eqn:E2.
  2:{ exists 2%nat. split; [lia|]. split; [cbn [snd started]; rewrite <- app_assoc; reflexivity|].
      split.
      - intros j c Hj Hc. assert (j = 0%nat) as -> by lia. cbn in Hc. injection Hc as <-.
        rewrite Nat.add_0_r. eexists. exact E1.
      - intros _. eexists _, e. split; [reflexivity|]. exact E2. }
  exists 3%nat. split; [lia|].
  assert (Hc : forall j c, (S j < 3)%nat -> nth_error (status_query service_name) j = Some c ->
                 completes (spawn w (length (started w) + j) c)).
  { intros j c Hj Hc. destruct j as [|[|j]]; [| |lia]; cbn in Hc; injection Hc as <-.
    - rewrite Nat.add_0_r. eexists. exact E1.
    - eexists. exact E2. }
  destruct (spawn w (length (started w) + 1 + 1) _) as [r3|e] eqn:E3.
  - split; [|split; [exact Hc|lia]].
    destruct (returncode r3 =? 0);
      [destruct (show_lines _ _ _)|]; cbn [snd started]; rewrite <- !app_assoc; reflexivity.
  - split; [cbn [snd started]; rewrite <- !app_assoc; reflexivity|]. split; [exact Hc|lia].
Qed.

(** X8.  [get_service_status] starts the three queries of the unit in
    their order and stops at the first that raises: the commands started
    are the first [n] of them and nothing else, a later one is started
    only when every earlier one completed, and fewer than three are
    started only when the last one started raised. *)
Theorem status_commands service_name w :
  exists n, (1 <= n <= 3)%nat /\
    started (snd (get_service_status service_name w)) =
      (started w ++ firstn n (status_query service_name))%list /\
    (forall j c, (S j < n)%nat -> nth_error (status_query service_name) j = Some c ->
       completes (spawn w (length (started w) + j) c)) /\
    ((n < 3)%nat ->
     exists c e, nth_error (status_query service_name) (n - 1) = Some c /\
       spawn w (length (started w) + (n - 1)) c = Raised e).
Proof. exact (get_service_status_trace service_name w). Qed.




(** X10.  When a query of the unit raises anything but a timeout, the
    ones before it having completed, the record is the error record:
    status ["Error: "] followed by the text of the exception, state
    ["error"], not active, every other field ["N/A"]; no further query
    is started. *)
Theorem status_first_failure service_name w i e :
  raises_at w (status_query service_name) i e ->
  is_timeout e = false ->
  fst (get_service_status service_name w) = error_record service_name e /\
  started (snd (get_service_status service_name w)) =
    (started w ++ firstn (S i) (status_query service_name))%list.
Proof.
  intros [Hbefore (c & Hc & Hr)] Ht.
  unfold get_service_status, run. cbn [spawn started].
  rewrite !length_app. cbn [length].
  destruct i as [|[|[|i]]].
  - cbn in Hc. injection Hc as <-. rewrite Nat.add_0_r in Hr.
    rewrite Hr. unfold status_on_exception. rewrite Ht. split; reflexivity.
  - destruct (Hbefore 0%nat _ ltac:(lia) eq_refl) as [r1 E1].
    rewrite Nat.add_0_r in E1. rewrite E1.
    cbn in Hc. injection Hc as <-. rewrite Hr.
    unfold status_on_exception. rewrite Ht.
    split; [reflexivity|]. cbn [snd started]. rewrite <- app_assoc. reflexivity.
  - destruct (Hbefore 0%nat _ ltac:(lia) eq_refl) as [r1 E1].
    destruct (Hbefore 1%nat _ ltac:(lia) eq_refl) as [r2 E2].
    rewrite Nat.add_0_r in E1. rewrite E1, E2.
    cbn in Hc. injection Hc as <-.
    replace (length (started w) + 1 + 1)%nat with (length (started w) + 2)%nat by lia.
    rewrite Hr. unfold status_on_exception. rewrite Ht.
    split; [reflexivity|]. cbn [snd started].
    rewrite <- !app_assoc. reflexivity.
  - destruct i; discriminate Hc.
Qed.

Lemma status_first_failure_witness :
  fst (get_service_status "nginx"
         (world_of (Raised (FileNotFoundError "No such file or directory: 'systemctl'"))
                   (Ok "")))
  = error_record "nginx" (FileNotFoundError "No such file or directory: 'systemctl'").
Proof.
  refine (proj1 (status_first_failure "nginx" _ 0 _ _ _)).
  - split.
    + intros j c Hj. inversion Hj.
    + eexists. split; reflexivity.
  - reflexivity.
Defined.

Lemma show_line_split key value :
  Str.contains "=" key = false ->
  Str.contains "=" (key ++ String "=" value) = true /\
  Str.split1 "=" (key ++ String "=" value) = [key; value].
Proof. intros H. split; [apply contains_append|apply split1_word; exact H]. Qed.

(** X11.  A line [key=value] of the output of [systemctl show] is cut
    at its first [=], so the value may hold further ones.  A
    [MemoryCurrent] that is a positive count is shown formatted, one that
    is 0 or [[not set]] leaves the field as it is; a [MainPID] other than
    0 is kept as text; a non-empty [ActiveEnterTimestamp] gives the
    uptime at the current clock; [LoadState] and [UnitFileState] are
    kept as they are; any other key changes nothing, whatever its value,
    and neither does a [MemoryCurrent] that is not all digits or a line
    without [=]. *)
Theorem show_line_reads w i :
  (forall n m, 0 < n ->
     (int_max_str_digits w = 0%nat \/ (String.length (str n) <= int_max_str_digits w)%nat) ->
     _format_bytes n = Ok m ->
     show_line w ("MemoryCurrent=" ++ str n) i = Ok (set_memory m i)) /\
  show_line w "MemoryCurrent=0" i = Ok i /\
  show_line w "MemoryCurrent=[not set]" i = Ok i /\
  (forall pid, pid <> "0" -> show_line w ("MainPID=" ++ pid) i = Ok (set_main_pid pid i)) /\
  show_line w "MainPID=0" i = Ok i /\
  (forall ts, ts <> "" ->
     show_line w ("ActiveEnterTimestamp=" ++ ts) i =
       Ok (set_uptime (_calculate_uptime (now_us w) ts) i)) /\
  (forall v, show_line w ("LoadState=" ++ v) i = Ok (set_load_state v i)) /\
  (forall v, show_line w ("UnitFileState=" ++ v) i = Ok (set_unit_file_state v i)) /\
  (forall v, show_line w ("CPUUsageNSec=" ++ v) i = Ok i) /\
  (forall key v, Str.contains "=" key = false ->
     key <> "MemoryCurrent" -> key <> "MainPID" -> key <> "ActiveEnterTimestamp" ->
     key <> "LoadState" -> key <> "UnitFileState" ->
     show_line w (key ++ "=" ++ v) i = Ok i) /\
  (forall v, Str.isdigit v = false -> show_line w ("MemoryCurrent=" ++ v) i = Ok i) /\
  (forall line, Str.contains "=" line = false -> show_line w line i = Ok i).
Proof.
  assert (S : forall key value, Str.contains "=" key = false ->
            show_line w (key ++ String "=" value) i =
            if String.eqb key "MemoryCurrent" && negb (String.eqb value "[not set]")
               && Str.isdigit value then
              do memory_bytes <- int_of_str (int_max_str_digits w) value;
              if 0 <? memory_bytes then
                do m <- _format_bytes memory_bytes; Ok (set_memory m i)
              else Ok i
            else if String.eqb key "MainPID" && negb (String.eqb value "0") then
              Ok (set_main_pid value i)
            else if String.eqb key "ActiveEnterTimestamp" && negb (String.eqb value "") then
              Ok (set_uptime (_calculate_uptime (now_us w) value) i)
            else if String.eqb key "LoadState" then Ok (set_load_state value i)
            else if String.eqb key "UnitFileState" then Ok (set_unit_file_state value i)
            else Ok i).
  { intros key value H. unfold show_line.
    destruct (show_line_split key value H) as [-> ->]. reflexivity. }
  repeat apply conj.
  - intros n m Hn Hl Hm.
    change ("MemoryCurrent=" ++ str n) with ("MemoryCurrent" ++ String "=" (str n)).
    rewrite S by reflexivity. rewrite String.eqb_refl.
    rewrite (str_isdigit n ltac:(lia)).
    destruct (String.eqb_spec (str n) "[not set]") as [E|_].
    { pose proof (str_isdigit n ltac:(lia)) as D. rewrite E in D. discriminate D. }
    cbn [negb andb]. rewrite int_of_str_str by (auto; lia). cbn [bindE].
    destruct (Z.ltb_spec 0 n); [|lia]. rewrite Hm. reflexivity.
  - change "MemoryCurrent=0" with ("MemoryCurrent" ++ String "=" "0").
    rewrite S by reflexivity. unfold int_of_str.
    destruct (int_max_str_digits w); reflexivity.
  - change "MemoryCurrent=[not set]" with ("MemoryCurrent" ++ String "=" "[not set]").
    rewrite S by reflexivity. reflexivity.
  - intros pid Hp.
    change ("MainPID=" ++ pid) with ("MainPID" ++ String "=" pid).
    rewrite S by reflexivity. cbn [String.eqb Ascii.eqb Bool.eqb andb].
    destruct (String.eqb_spec pid "0"); [contradiction|reflexivity].
  - change "MainPID=0" with ("MainPID" ++ String "=" "0").
    rewrite S by reflexivity. reflexivity.
  - intros ts Ht.
    change ("ActiveEnterTimestamp=" ++ ts) with ("ActiveEnterTimestamp" ++ String "=" ts).
    rewrite S by reflexivity. cbn [String.eqb Ascii.eqb Bool.eqb andb].
    destruct (String.eqb_spec ts ""); [contradiction|reflexivity].
  - intros v. change ("LoadState=" ++ v) with ("LoadState" ++ String "=" v).
    rewrite S by reflexivity. reflexivity.
  - intros v. change ("UnitFileState=" ++ v) with ("UnitFileState" ++ String "=" v).
    rewrite S by reflexivity. reflexivity.
  - intros v. change ("CPUUsageNSec=" ++ v) with ("CPUUsageNSec" ++ String "=" v).
    rewrite S by reflexivity. reflexivity.
  - intros key v Hk H1 H2 H3 H4 H5.
    change (key ++ "=" ++ v) with (key ++ String "=" v).
    rewrite S by exact Hk.
    destruct (String.eqb_spec key "MemoryCurrent"); [contradiction|].
    destruct (String.eqb_spec key "MainPID"); [contradiction|].
    destruct (String.eqb_spec key "ActiveEnterTimestamp"); [contradiction|].
    destruct (String.eqb_spec key "LoadState"); [contradiction|].
    destruct (String.eqb_spec key "UnitFileState"); [contradiction|].
    reflexivity.
  - intros v Hv. change ("MemoryCurrent=" ++ v) with ("MemoryCurrent" ++ String "=" v).
    rewrite S by reflexivity. rewrite Hv, andb_false_r. reflexivity.
  - intros line Hl. unfold show_line. rewrite Hl. reflexivity.
Qed.

Lemma show_line_reads_witness :
  let w := world_of (Raised (TimeoutExpired "")) (Ok "") in
  let i := timeout_record "nginx" in
  show_line w "MemoryCurrent=1536" i = Ok (set_memory "1.5KB" i) /\
  show_line w "Description=a=b" i = Ok i /\
  show_line w "MemoryCurrent=12x" i = Ok i /\
  show_line w "no sign" i = Ok i.
Proof.
  intros w i.
  destruct (show_line_reads w i) as (M & _ & _ & _ & _ & _ & _ & _ & _ & K & D & L).
  repeat apply conj.
  - exact (M 1536 "1.5KB" ltac:(lia) ltac:(right; vm_compute; lia)
             ltac:(vm_compute; reflexivity)).
  - exact (K "Description" "a=b" eq_refl ltac:(discriminate) ltac:(discriminate)
             ltac:(discriminate) ltac:(discriminate) ltac:(discriminate)).
  - exact (D "12x" eq_refl).
  - exact (L "no sign" eq_refl).
Defined.

End StatusFacts.

(** ** [get_disk_usage]: ties, and the columns of a line *)

Module RowFacts.
Import Float Num Sys Disk Spec Terms DiskFacts TextFacts FormatFacts.

Lemma insert_desc_stable p x l :
  with_percent p (insert_desc x l) = with_percent p (x :: l).
Proof.
  unfold with_percent. induction l as [|y r IH]; [reflexivity|].
  cbn [insert_desc]. destruct (Z.leb_spec (use_percent_num y) (use_percent_num x)) as [H|H];
    [reflexivity|].
  cbn [List.filter] in *. rewrite IH.
  destruct (Z.eqb_spec (use_percent_num y) p), (Z.eqb_spec (use_percent_num x) p);
    try reflexivity. lia.
Qed.

Lemma sort_desc_stable p l : with_percent p (sort_desc l) = with_percent p l.
Proof.
  induction l as [|x l IH]; [reflexivity|].
  change (sort_desc (x :: l)) with (insert_desc x (sort_desc l)).
  rewrite insert_desc_stable. unfold with_percent in *. cbn [List.filter].
  rewrite IH. reflexivity.
Qed.

(** X12.  The sort of [get_disk_usage] is stable: the file systems that
    show the same percentage come in the order in which [df] printed
    them. *)
Theorem disk_usage_ties w r header row rows :
  spawn w (length (started w)) df_command = Completed r ->
  returncode r = 0 ->
  Str.split "010" (Str.strip (stdout r)) = header :: row :: rows ->
  exists l, fst (get_disk_usage w) = Disks l /\
    forall p, with_percent p l =
              with_percent p (concat (map (disk_row (int_max_str_digits w)) (row :: rows))).
Proof.
  intros Hr Hc Hl. unfold get_disk_usage, run. cbn [spawn started].
  fold df_command. rewrite Hr, Hc, Hl. cbn [Z.eqb negb].
  eexists. split; [reflexivity|]. intros p. apply sort_desc_stable.
Qed.

Lemma disk_usage_ties_witness :
  exists l,
    fst (get_disk_usage
           (world_of (Completed {| returncode := 0; stderr := "";
                                   stdout := "Filesystem Size Used Avail Use% Mounted on
/dev/sda1 100G 50G 50G 50% /
/dev/sdb1 10G 9G 1G 90% /data
/dev/sdc1 100G 50G 50G 50% /home" |}) (Ok ""))) = Disks l /\
    map mounted_on (with_percent 50 l) = ["/"; "/home"].
Proof.
  destruct (disk_usage_ties
              (world_of (Completed {| returncode := 0; stderr := "";
                                      stdout := "Filesystem Size Used Avail Use% Mounted on
/dev/sda1 100G 50G 50G 50% /
/dev/sdb1 10G 9G 1G 90% /data
/dev/sdc1 100G 50G 50G 50% /home" |}) (Ok ""))
              _ "Filesystem Size Used Avail Use% Mounted on"
              "/dev/sda1 100G 50G 50G 50% /"
              ["/dev/sdb1 10G 9G 1G 90% /data"; "/dev/sdc1 100G 50G 50G 50% /home"]
              eq_refl eq_refl eq_refl) as (l & E & H).
  exists l. split; [exact E|]. rewrite H. vm_compute. reflexivity.
Defined.

Lemma split_ws_blank c s : Str.is_space c = true -> Str.split_ws (String c s) = Str.split_ws s.
Proof. intros H. cbn [Str.split_ws]. rewrite H. reflexivity. Qed.

Lemma split_ws_blanks k s : Str.split_ws (blanks k ++ s) = Str.split_ws s.
Proof.
  induction k as [|k IH]; [reflexivity|].
  change (blanks (S k) ++ s) with (String " " (blanks k ++ s)).
  rewrite split_ws_blank by reflexivity. exact IH.
Qed.

Lemma word_cons a w : word (String a w) -> Str.is_space a = false /\ (w = "" \/ word w).
Proof.
  intros [_ H]. cbn [no_space] in H. apply andb_true_iff in H as [Ha Hw].
  apply negb_true_iff in Ha. split; [exact Ha|].
  destruct w as [|b w]; [left; reflexivity|right]. split; [discriminate|exact Hw].
Qed.

Lemma split_ws_word_then w : forall c s,
  word w -> Str.is_space c = true -> Str.split_ws (w ++ String c s) = w :: Str.split_ws s.
Proof.
  induction w as [|a w IH]; intros c s Hw Hc; [destruct Hw as [H _]; contradiction|].
  apply word_cons in Hw as [Ha [->|Hw]].
  - change (String a "" ++ String c s) with (String a (String c s)).
    cbn [Str.split_ws]. rewrite Ha, Hc. reflexivity.
  - change (String a w ++ String c s) with (String a (w ++ String c s)).
    specialize (IH c s Hw Hc).
    destruct w as [|b w]; [destruct Hw as [H _]; contradiction|].
    change (String b w ++ String c s) with (String b (w ++ String c s)) in *.
    destruct (word_cons _ _ Hw) as [Hb _].
    cbn [Str.split_ws] in *. rewrite Ha, Hb in *. rewrite IH. reflexivity.
Qed.

Lemma split_ws_word w : word w -> Str.split_ws w = [w].
Proof.
  induction w as [|a w IH]; intros Hw; [destruct Hw as [H _]; contradiction|].
  apply word_cons in Hw as [Ha [->|Hw]].
  - cbn [Str.split_ws]. rewrite Ha. reflexivity.
  - specialize (IH Hw).
    destruct w as [|b w]; [destruct Hw as [H _]; contradiction|].
    destruct (word_cons _ _ Hw) as [Hb _].
    cbn [Str.split_ws] in *. rewrite Ha, Hb in *. rewrite IH. reflexivity.
Qed.

Lemma append_empty s : s ++ "" = s.
Proof.
  induction s as [|c s IH]; [reflexivity|].
  change (String c s ++ "") with (String c (s ++ "")). rewrite IH. reflexivity.
Qed.

(** [split()] gives back the words of a line, whatever the blanks
    between them. *)
Lemma split_ws_spaced ws :
  List.Forall (fun kw => word (snd kw)) ws -> Str.split_ws (spaced ws) = map snd ws.
Proof.
  induction 1 as [|[k w] r Hw Hr IH]; [reflexivity|].
  cbn [spaced map snd] in *. rewrite split_ws_blanks.
  destruct r as [|kw r].
  - rewrite append_empty. apply split_ws_word. exact Hw.
  - rewrite split_ws_word_then by (auto; reflexivity). rewrite IH. reflexivity.
Qed.

Lemma digits_then_percent s :
  Str.all_digits s = true ->
  no_space (s ++ "%") = true /\ Str.rstrip_char "%" (s ++ "%") = s.
Proof.
  unfold Str.rstrip_char. induction s as [|a s IH]; [split; reflexivity|].
  cbn [Str.all_digits]. intros H. apply andb_true_iff in H as [Ha Hs].
  destruct (IH Hs) as [IH1 IH2].
  change (String a s ++ "%") with (String a (s ++ "%")).
  cbn [no_space Str.rstrip_by]. rewrite IH1, IH2, (digit_not_space a Ha). split; [reflexivity|].
  destruct s; [|reflexivity].
  destruct (Ascii.eqb_spec "%" a) as [<-|]; [discriminate Ha|reflexivity].
Qed.

Lemma percent_num_str m n :
  0 <= n -> (m = 0%nat \/ (String.length (str n) <= m)%nat) -> percent_num m (str n) = n.
Proof.
  intros Hn Hm. unfold percent_num.
  rewrite (str_isdigit n Hn), int_of_str_str by auto. reflexivity.
Qed.

(** X13.  A line of [df] of six columns or more is read back column by
    column, whatever the blanks between the columns: the percentage
    [N%] gives the text [N] and the number [N], and the words from the
    sixth column on make the mount point, with one blank between two of
    them (a run of blanks inside the name of a mount point is not
    kept). *)
Theorem disk_row_columns m fs sz us av n mp0 mp :
  List.Forall (fun kw => word (snd kw)) (fs :: sz :: us :: av :: mp0 :: mp) ->
  forall k, 0 <= n -> (m = 0%nat \/ (String.length (str n) <= m)%nat) ->
  disk_row m (spaced (fs :: sz :: us :: av :: (k, str n ++ "%") :: mp0 :: mp)) =
  [{| filesystem := snd fs; size := snd sz; used := snd us; available := snd av;
      use_percent := str n; use_percent_num := n;
      mounted_on := Str.join " " (map snd (mp0 :: mp)) |}].
Proof.
  intros Hw k Hn Hm.
  pose proof (str_isdigit n Hn) as Hd.
  assert (Ha : Str.all_digits (str n) = true) by (destruct (str n); [discriminate Hd|exact Hd]).
  destruct (digits_then_percent _ Ha) as [Hs Hr].
  unfold disk_row. rewrite split_ws_spaced.
  - cbn [map snd]. rewrite Hr, percent_num_str by auto. reflexivity.
  - inversion Hw as [|? ? H1 Hw1]; subst. inversion Hw1 as [|? ? H2 Hw2]; subst.
    inversion Hw2 as [|? ? H3 Hw3]; subst. inversion Hw3 as [|? ? H4 Hw4]; subst.
    constructor; [exact H1|]. constructor; [exact H2|]. constructor; [exact H3|].
    constructor; [exact H4|]. constructor; [|exact Hw4].
    cbn [snd]. split; [|exact Hs]. destruct (str n); discriminate.
Qed.

Lemma disk_row_columns_witness :
  disk_row 4300 "/dev/sdb1   2.0T  1.5T  500G  75% /mnt/My   Passport" =
  [{| filesystem := "/dev/sdb1"; size := "2.0T"; used := "1.5T"; available := "500G";
      use_percent := "75"; use_percent_num := 75; mounted_on := "/mnt/My Passport" |}].
Proof.
  refine (disk_row_columns 4300 (0%nat, "/dev/sdb1") (2%nat, "2.0T") (1%nat, "1.5T")
            (1%nat, "500G") 75 (0%nat, "/mnt/My") [(2%nat, "Passport")] _ 1%nat _ _).
  - repeat (constructor; [split; [discriminate|reflexivity]|]). constructor.
  - lia.
  - right. vm_compute. lia.
Defined.

End RowFacts.

(** ** [get_ram_usage]: the percentage, and what escapes *)

Module PercentFacts.
Import Float Num Sys Dashboard Ram Spec Terms FloatFacts FormatFacts UptimeFacts MemoryFacts RamFacts.

Lemma representable_0 : representable 0.
Proof. exists 0, 0. repeat split; lia. Qed.

Lemma representable_one : representable one.
Proof. unfold one. apply representable_pow2. lia. Qed.

Lemma hundred_lt_huge : 100 * one < huge.
Proof. pose proof huge_ge. pose proof one_pos. lia. Qed.

(** The quotient of two doubles, or of two ints, that lies between 0
    and 1 is rounded to a double between 0 and 1. *)
Lemma round64_unit a b :
  0 <= a <= b -> 0 < b -> exists k, round64 a b = Fin k /\ 0 <= k <= one.
Proof.
  intros Ha Hb. pose proof one_pos as Hone. pose proof hundred_lt_huge as Hh.
  unfold round64. set (k := round53 (a * one) b).
  assert (H0 : 0 <= k) by (apply round53_ge; [lia|lia|apply representable_0|nia]).
  assert (H1 : k <= one) by (apply round53_le; [lia|nia|apply representable_one|nia]).
  destruct (Z.ltb_spec (Z.abs k) huge); [eauto|lia].
Qed.

Lemma percent_of_unit k :
  0 <= k <= one -> exists p, to_int (mul (Fin k) (of_Z 100)) = Ok p /\ 0 <= p <= 100.
Proof.
  intros Hk. pose proof one_pos as Hone. pose proof hundred_lt_huge as Hh.
  cbn [mul of_Z]. unfold round64.
  set (k' := round53 (k * (100 * one) * one) (one * one)).
  assert (H0 : 0 <= k') by (apply round53_ge; [nia|lia|apply representable_0|nia]).
  assert (H1 : k' <= 100 * one).
  { apply round53_le; [nia|nia|apply representable_int; lia|].
    replace (k * (100 * one) * one) with (k * 100 * (one * one)) by ring.
    replace (100 * one * (one * one)) with (one * 100 * (one * one)) by ring.
    apply Z.mul_le_mono_nonneg_r; [nia|lia]. }
  destruct (Z.ltb_spec (Z.abs k') huge); [|lia].
  rewrite to_int_nonneg by exact H0. eexists. split; [reflexivity|].
  split; [apply Z.div_pos; lia|apply Z.div_le_upper_bound; lia].
Qed.

Lemma fallback_percent_unit used_bytes total_bytes :
  0 <= used_bytes <= total_bytes ->
  exists p, fallback_percent used_bytes total_bytes = Ok p /\ 0 <= p <= 100.
Proof.
  intros H. unfold fallback_percent.
  destruct (Z.ltb_spec 0 total_bytes) as [Ht|]; [|exists 0; split; [reflexivity|lia]].
  unfold int_truediv. destruct (Z.eqb_spec total_bytes 0); [lia|].
  rewrite Z.sgn_pos, Z.abs_eq, Z.mul_1_r by lia.
  destruct (round64_unit used_bytes total_bytes H Ht) as (k & -> & Hk).
  cbn [bindE]. apply percent_of_unit. exact Hk.
Qed.

Lemma percent_of_range u t :
  0 <= u <= t -> exists p, percent_of (Fin u) (Fin t) = Ok p /\ 0 <= p <= 100.
Proof.
  intros H. unfold percent_of, gt_int. cbn [ltb]. rewrite Z.mul_0_l.
  destruct (Z.ltb_spec 0 t) as [Ht|]; [|exists 0; split; [reflexivity|lia]].
  rewrite div_fin by lia. rewrite Z.sgn_pos, Z.abs_eq, Z.mul_1_r by lia.
  destruct (round64_unit u t H Ht) as (k & -> & Hk).
  cbn [bindE]. apply percent_of_unit. exact Hk.
Qed.

(** X14.  On both tiers the percentage lies between 0 and 100 whenever
    used lies between 0 and total: on the second tier when
    [MemAvailable] (or, without it, [MemFree]) does not exceed
    [MemTotal], on the first when the two columns of [free] parse to
    doubles in that order.  The two roundings never carry the result
    outside the range, and no exception is raised. *)
Theorem use_percent_range :
  (forall (mem_data : gmap string Z) total_bytes snap,
     mem_data !! "MemTotal" = Some total_bytes ->
     0 <= default (default 0 (mem_data !! "MemFree")) (mem_data !! "MemAvailable")
       <= total_bytes ->
     fallback_snapshot mem_data = Ok (Some snap) -> 0 <= use_percent snap <= 100) /\
  (forall total used t u,
     _parse_memory_value total = Ok (Fin t) -> _parse_memory_value used = Ok (Fin u) ->
     0 <= u <= t ->
     exists p, primary_percent total used = Ok p /\ 0 <= p <= 100).
Proof.
  split.
  - intros mem_data total_bytes snap Ht Ha. unfold fallback_snapshot. rewrite Ht.
    cbv zeta. set (available_bytes := default _ _) in *.
    destruct (_format_bytes total_bytes); [|discriminate]. cbn [bindE].
    destruct (_format_bytes (total_bytes - available_bytes)); [|discriminate]. cbn [bindE].
    destruct (_format_bytes (default 0 _)); [|discriminate]. cbn [bindE].
    destruct (_format_bytes available_bytes); [|discriminate]. cbn [bindE].
    destruct (fallback_percent_unit (total_bytes - available_bytes) total_bytes ltac:(lia))
      as (p & -> & Hp).
    cbn [bindE]. intros [= <-]. exact Hp.
  - intros total used t u Et Eu H. unfold primary_percent. rewrite Et, Eu. cbn [bindE].
    destruct (percent_of_range u t H) as (p & -> & Hp). eauto.
Qed.

Lemma parse_2G : _parse_memory_value "2G" = Ok (of_Z (2 * 1024 ^ 2)).
Proof.
  destruct (parse_memory_value_suffix "2" _ float_of_str_2) as (_ & H & _).
  change ("2" ++ "G") with "2G" in H. rewrite H, scaled_small; [reflexivity|].
  vm_compute. reflexivity.
Qed.

Lemma parse_512M : _parse_memory_value "512M" = Ok (of_Z (512 * 1024)).
Proof.
  destruct (parse_memory_value_suffix "512" _ float_of_str_512) as (_ & _ & H & _).
  change ("512" ++ "M") with "512M" in H. rewrite H, scaled_small; [reflexivity|].
  vm_compute. reflexivity.
Qed.

Lemma use_percent_range_witness :
  exists p, primary_percent "2G" "512M" = Ok p /\ 0 <= p <= 100.
Proof.
  refine (proj2 use_percent_range "2G" "512M" (2 * 1024 ^ 2 * one) (512 * 1024 * one)
            parse_2G parse_512M _).
  pose proof one_pos. lia.
Defined.

End PercentFacts.

(** ** [get_ram_usage]: what escapes, and the units of [free] *)

Module EscapeFacts.
Import Float Num Sys Dashboard Ram Spec Terms FloatFacts FormatFacts UptimeFacts MemoryFacts RamFacts PercentFacts.

Lemma parse_memory_value_raises value e :
  _parse_memory_value value = Raise e ->
  float_of_str value = Raise e \/ float_of_str (Str.drop_last value) = Raise e.
Proof.
  unfold _parse_memory_value.
  repeat (destruct (Str.endswith _ value);
          [destruct (float_of_str (Str.drop_last value)); [discriminate|intros [= ->]; auto]|]).
  destruct (float_of_str value) as [x|e'] eqn:E; [|intros [= ->]; auto].
  cbn [bindE]. destruct (div_1024_never_raises x) as [y ->]. discriminate.
Qed.

Lemma float_of_str_raises s e : float_of_str s = Raise e -> exists m, e = ValueError m.
Proof.
  unfold float_of_str. destruct (sign_of _) as [neg body].
  destruct (_ || _); [discriminate|]. destruct (String.eqb _ _); [discriminate|].
  destruct (number body) as [[[ip fp] rest]|]; [|intros [= <-]; eauto].
  destruct (exponent rest); [discriminate|intros [= <-]; eauto].
Qed.

Lemma percent_of_raises x y e :
  percent_of x y = Raise e ->
  (exists m, e = ZeroDivisionError m) \/ (exists m, e = ValueError m) \/
  e = OverflowError "cannot convert float infinity to integer".
Proof.
  unfold percent_of. destruct (gt_int y 0); [|discriminate].
  destruct (div x y) as [q|e'] eqn:D.
  - cbn [bindE]. destruct (mul q (of_Z 100)); cbn [to_int]; try discriminate;
      intros [= <-]; eauto.
  - cbn [bindE]. intros [= <-]. left. unfold div in D.
    destruct y as [[| |]| |]; try discriminate D. injection D as <-. eauto.
Qed.

Lemma primary_percent_raises total used e :
  primary_percent total used = Raise e ->
  e = OverflowError "cannot convert float infinity to integer".
Proof.
  unfold primary_percent.
  destruct (_parse_memory_value total) as [x|e1] eqn:E1.
  - cbn [bindE]. destruct (_parse_memory_value used) as [y|e2] eqn:E2.
    + cbn [bindE]. destruct (percent_of y x) as [p|e3] eqn:E3; [discriminate|].
      destruct (percent_of_raises _ _ _ E3) as [[m ->] | [[m ->] | ->]];
        [discriminate|discriminate|intros [= <-]; reflexivity].
    + cbn [bindE].
      destruct (parse_memory_value_raises _ _ E2) as [H|H];
        apply float_of_str_raises in H as [m ->]; discriminate.
  - cbn [bindE].
    destruct (parse_memory_value_raises _ _ E1) as [H|H];
      apply float_of_str_raises in H as [m ->]; discriminate.
Qed.

(** X15.  [get_ram_usage] lets an exception through in two cases only:
    [free] could not be run and the exception is none of the three
    classes caught (a timeout, a missing file, a sub-process error), or
    [free] ran with exit code 0 and the quotient of its used and total
    columns is infinite, which [int()] refuses with an [OverflowError];
    the first case always raises.  The second tier never raises. *)
Theorem ram_usage_raises w e :
  (fst (get_ram_usage w) = Raise e ->
   (spawn w (length (started w)) free_command = Raised e /\
    is_subprocess_error e = false /\ is_file_not_found e = false) \/
   (exists r, spawn w (length (started w)) free_command = Completed r /\
      returncode r = 0 /\
      e = OverflowError "cannot convert float infinity to integer")) /\
  (spawn w (length (started w)) free_command = Raised e ->
   is_subprocess_error e = false -> is_file_not_found e = false ->
   fst (get_ram_usage w) = Raise e).
Proof.
  unfold get_ram_usage, run. cbn [spawn started]. fold free_command.
  destruct (spawn w (length (started w)) free_command) as [r|e'] eqn:E; cbn [primary].
  - split; [|discriminate].
    destruct (Z.eqb_spec (returncode r) 0) as [Hc|]; [|discriminate].
    destruct (Str.split _ _) as [|h [|line1 rest]]; try discriminate.
    destruct (Str.split_ws line1) as [|c0 [|c1 [|c2 [|c3 [|c4 [|c5 [|c6 l']]]]]]];
      try discriminate.
    destruct (primary_percent c1 c2) as [p|e1] eqn:P; [discriminate|].
    cbn [fst]. intros [= <-]. right. exists r.
    split; [reflexivity|]. split; [exact Hc|]. eapply primary_percent_raises. exact P.
  - split.
    + destruct (is_subprocess_error e' || is_file_not_found e') eqn:C; [discriminate|].
      cbn [fst]. intros [= <-]. apply orb_false_iff in C as [C1 C2]. left. auto.
    + intros [= <-] H1 H2. rewrite H1, H2. reflexivity.
Qed.

Lemma primary_percent_inf :
  primary_percent "2G" "inf" = Raise (OverflowError "cannot convert float infinity to integer").
Proof.
  unfold primary_percent. rewrite parse_2G.
  change (_parse_memory_value "inf") with (Ok (Inf false)).
  cbn [bindE]. unfold percent_of, gt_int, of_Z. cbn [ltb].
  pose proof one_pos.
  destruct (Z.ltb_spec (0 * one) (2 * 1024 ^ 2 * one)); [|lia].
  cbn [div]. destruct (2 * 1024 ^ 2 * one) eqn:E; [lia| |]; cbn [bindE mul];
    (destruct (Z.eqb_spec (100 * one) 0); [lia|reflexivity]).
Qed.

Lemma ram_usage_raises_witness :
  fst (get_ram_usage (world_of (Raised (OSError "Permission denied: 'free'")) (Ok "")))
  = Raise (OSError "Permission denied: 'free'") /\
  exists r,
    spawn (world_of (Completed free_inf) (Ok "")) 0 free_command = Completed r /\
    returncode r = 0 /\
    fst (get_ram_usage (world_of (Completed free_inf) (Ok "")))
    = Raise (OverflowError "cannot convert float infinity to integer").
Proof.
  split.
  - apply (proj2 (ram_usage_raises _ _)); reflexivity.
  - assert (E : fst (get_ram_usage (world_of (Completed free_inf) (Ok "")))
                = Raise (OverflowError "cannot convert float infinity to integer")).
    { unfold get_ram_usage, run. cbn [spawn started world_of].
      change (primary (Completed free_inf))
        with (match primary_percent "2G" "inf" with
              | Ok p => Returned {| total := "2G"; used := "inf"; free := "0";
                                    available := "0"; use_percent := p |}
              | Raise e => Escaped e
              end).
      rewrite primary_percent_inf. reflexivity. }
    destruct (proj1 (ram_usage_raises _ _) E) as [[H _]|(r & Hr & Hc & _)].
    + discriminate H.
    + exists r. auto.
Defined.

(** *** A column in units that [_parse_memory_value] does not know *)

Section Suffix.
Variable c : ascii.
Hypothesis Hc : foreign_suffix c = true.

Local Abbreviation ends s := (Str.endswith c s = true).

Lemma foreign_facts :
  Str.is_digit c = false /\ Str.is_space c = false /\
  c <> "."%char /\ c <> "+"%char /\ c <> "-"%char /\
  Ascii.eqb c "T" = false /\ Ascii.eqb c "G" = false /\
  Ascii.eqb c "M" = false /\ Ascii.eqb c "K" = false /\
  Str.lower c <> "e"%char /\ Str.lower c <> "f"%char /\
  Str.lower c <> "n"%char /\ Str.lower c <> "y"%char.
Proof.
  unfold foreign_suffix in Hc. apply negb_true_iff in Hc. cbn [existsb] in Hc.
  repeat (apply orb_false_iff in Hc as [Hc ?]).
  repeat match goal with
         | H : Ascii.eqb _ _ = false |- _ => apply Ascii.eqb_neq in H
         | H : (_ || _) = false |- _ => apply orb_false_iff in H as [? ?]
         end.
  repeat split; try assumption; try (apply Ascii.eqb_neq; assumption).
Qed.

Lemma ends_cons a r : ends (String a r) -> (r = "" /\ a = c) \/ (r <> "" /\ ends r).
Proof.
  destruct r as [|b r]; cbn [Str.endswith].
  - intros H. apply Ascii.eqb_eq in H. auto.
  - intros H. right. split; [discriminate|exact H].
Qed.

Lemma endswith_other c' s : ends s -> Str.endswith c' s = Ascii.eqb c c'.
Proof.
  induction s as [|a r IH]; [discriminate|].
  destruct r as [|b r]; cbn [Str.endswith] in *.
  - intros H. apply Ascii.eqb_eq in H. subst a. reflexivity.
  - exact IH.
Qed.

Lemma rstrip_ends (p : ascii -> bool) s : p c = false -> ends s -> Str.rstrip_by p s = s.
Proof.
  intros Hp. induction s as [|a r IH]; [reflexivity|]. intros H.
  cbn [Str.rstrip_by]. destruct (ends_cons _ _ H) as [[-> ->]|[Hr Hr']].
  - cbn [Str.rstrip_by]. rewrite Hp. reflexivity.
  - rewrite (IH Hr'). destruct r; [contradiction|reflexivity].
Qed.

Lemma lstrip_ends (p : ascii -> bool) s : p c = false -> ends s -> ends (Str.lstrip_by p s).
Proof.
  intros Hp. induction s as [|a r IH]; [auto|]. intros H.
  cbn [Str.lstrip_by]. destruct (p a) eqn:Pa; [|exact H].
  destruct (ends_cons _ _ H) as [[-> ->]|[Hr Hr']]; [congruence|auto].
Qed.

Lemma sign_of_ends s : ends s -> ends (snd (sign_of s)).
Proof.
  destruct foreign_facts as (_ & _ & _ & Hplus & Hminus & _).
  intros H. unfold sign_of.
  destruct s as [|a r]; [exact H|].
  destruct (Ascii.eqb_spec a "-") as [->|Ha].
  { cbn [snd]. destruct (ends_cons _ _ H) as [[_ E]|[_ Hr]]; [congruence|exact Hr]. }
  destruct (Ascii.eqb_spec a "+") as [->|Hb].
  { cbn [snd]. destruct (ends_cons _ _ H) as [[_ E]|[_ Hr]]; [congruence|exact Hr]. }
  destruct a as [[] [] [] [] [] [] [] []]; try exact H; congruence.
Qed.

Lemma lowercase_ends s : ends s -> Str.endswith (Str.lower c) (Str.lowercase s) = true.
Proof.
  induction s as [|a r IH]; [discriminate|]. intros H.
  destruct (ends_cons _ _ H) as [[-> ->]|[Hr Hr']].
  - cbn. apply Ascii.eqb_refl.
  - specialize (IH Hr'). destruct r as [|b r]; [contradiction|]. exact IH.
Qed.

Lemma digitpart_tail_ends n : forall s,
  (String.length s <= n)%nat -> ends s -> ends (snd (digitpart_tail s)).
Proof.
  destruct foreign_facts as (Hd & _).
  induction n as [|n IH]; intros s Hn H.
  { destruct s; [exact H|cbn in Hn; lia]. }
  destruct s as [|a r]; [exact H|]. cbn [String.length] in Hn.
  cbn [digitpart_tail]. destruct (Str.is_digit a) eqn:Da.
  - destruct (ends_cons _ _ H) as [[_ ->]|[_ Hr]]; [congruence|].
    specialize (IH r ltac:(lia) Hr). destruct (digitpart_tail r). exact IH.
  - destruct (Ascii.eqb a "_"); [|exact H].
    destruct r as [|b r']; [exact H|].
    destruct (Str.is_digit b) eqn:Db; [|exact H].
    destruct (ends_cons _ _ H) as [[E _]|[_ Hr]]; [discriminate E|].
    destruct (ends_cons _ _ Hr) as [[_ ->]|[_ Hr']]; [congruence|].
    cbn [String.length] in Hn.
    specialize (IH r' ltac:(lia) Hr'). destruct (digitpart_tail r'). exact IH.
Qed.

Lemma digitpart_ends s ds rest : digitpart s = Some (ds, rest) -> ends s -> ends rest.
Proof.
  destruct foreign_facts as (Hd & _).
  unfold digitpart. destruct s as [|a r]; [discriminate|].
  destruct (Str.is_digit a) eqn:Da; [|discriminate].
  intros E H. destruct (ends_cons _ _ H) as [[_ ->]|[_ Hr]]; [congruence|].
  pose proof (digitpart_tail_ends _ r (le_n _) Hr) as T.
  destruct (digitpart_tail r). injection E as _ <-. exact T.
Qed.

Lemma after_point r : ends (String "." r) -> ends r.
Proof.
  destruct foreign_facts as (_ & _ & Hp & _).
  intros H. destruct (ends_cons _ _ H) as [[_ E]|[_ Hr]]; [congruence|exact Hr].
Qed.

Lemma number_ends s ip fp rest : number s = Some (ip, fp, rest) -> ends s -> ends rest.
Proof.
  unfold number. intros E H.
  destruct (digitpart s) as [[ip' rest']|] eqn:D.
  - pose proof (digitpart_ends _ _ _ D H) as H'.
    destruct rest' as [|a r]; [injection E as _ _ <-; exact H'|].
    destruct (Ascii.eqb_spec a ".") as [->|Ha].
    + apply after_point in H'.
      destruct (digitpart r) as [[fp' rest'']|] eqn:D'.
      * injection E as _ _ <-. eapply digitpart_ends; eauto.
      * injection E as _ _ <-. exact H'.
    + destruct a as [[] [] [] [] [] [] [] []]; try (injection E as _ _ <-; exact H');
        congruence.
  - destruct s as [|a r]; [discriminate|].
    destruct (Ascii.eqb_spec a ".") as [->|Ha].
    + apply after_point in H.
      destruct (digitpart r) as [[fp' rest'']|] eqn:D'; [|discriminate].
      injection E as _ _ <-. eapply digitpart_ends; eauto.
    + destruct a as [[] [] [] [] [] [] [] []]; try discriminate; congruence.
Qed.

Lemma exponent_ends rest : ends rest -> exponent rest = None.
Proof.
  destruct foreign_facts as (_ & _ & _ & _ & _ & _ & _ & _ & _ & He & _).
  intros H. unfold exponent. destruct rest as [|x r]; [discriminate H|].
  destruct (Ascii.eqb_spec (Str.lower x) "e") as [Hx|]; [|reflexivity].
  destruct (ends_cons _ _ H) as [[_ ->]|[_ Hr]]; [congruence|].
  pose proof (sign_of_ends _ Hr) as Hs. destruct (sign_of r) as [neg r']. cbn [snd] in Hs.
  destruct (digitpart r') as [[ds rest']|] eqn:D; [|reflexivity].
  pose proof (digitpart_ends _ _ _ D Hs) as H'.
  destruct rest'; [discriminate H'|reflexivity].
Qed.

Lemma float_of_str_foreign s : ends s -> exists m, float_of_str s = Raise (ValueError m).
Proof.
  destruct foreign_facts as (_ & Hsp & _ & _ & _ & _ & _ & _ & _ & _ & Hf & Hn & Hy).
  apply TextFacts.not_float_space in Hsp.
  intros H. unfold float_of_str, Str.float_strip.
  rewrite (rstrip_ends _ _ Hsp H).
  pose proof (sign_of_ends _ (lstrip_ends _ _ Hsp H)) as Hb.
  destruct (sign_of _) as [neg body]. cbn [snd] in Hb.
  pose proof (lowercase_ends _ Hb) as Hl.
  destruct (String.eqb_spec (Str.lowercase body) "inf") as [E|_].
  { rewrite E in Hl. cbn [Str.endswith] in Hl. apply Ascii.eqb_eq in Hl. congruence. }
  destruct (String.eqb_spec (Str.lowercase body) "infinity") as [E|_].
  { rewrite E in Hl. cbn [Str.endswith] in Hl. apply Ascii.eqb_eq in Hl. congruence. }
  cbn [orb].
  destruct (String.eqb_spec (Str.lowercase body) "nan") as [E|_].
  { rewrite E in Hl. cbn [Str.endswith] in Hl. apply Ascii.eqb_eq in Hl. congruence. }
  destruct (number body) as [[[ip fp] rest]|] eqn:N; [|eauto].
  rewrite (exponent_ends _ (number_ends _ _ _ _ N Hb)). eauto.
Qed.

Lemma parse_memory_value_foreign value :
  ends value -> exists m, _parse_memory_value value = Raise (ValueError m).
Proof.
  destruct foreign_facts as (_ & _ & _ & _ & _ & HT & HG & HM & HK & _).
  intros H. unfold _parse_memory_value.
  rewrite !(endswith_other _ _ H), HT, HG, HM, HK.
  destruct (float_of_str_foreign _ H) as [m ->]. eauto.
Qed.

Lemma primary_percent_foreign total used :
  ends total \/ ends used -> primary_percent total used = Ok 0.
Proof.
  intros H. unfold primary_percent.
  destruct (_parse_memory_value total) as [x|e1] eqn:E1.
  - destruct H as [H|H]; [destruct (parse_memory_value_foreign _ H); congruence|].
    destruct (parse_memory_value_foreign _ H) as [m ->]. reflexivity.
  - cbn [bindE].
    destruct (parse_memory_value_raises _ _ E1) as [F|F];
      apply float_of_str_raises in F as [m ->]; reflexivity.
Qed.

End Suffix.

(** X16.  [_parse_memory_value] knows the suffixes [T], [G], [M] and
    [K] only.  A column that ends in another unit letter, such as the
    [i] of the binary units [Gi], [Mi], [Ki] that [free -h] prints, or
    the [B] of a count of bytes, is refused with a [ValueError], and the
    first tier then reports 0 as [use_percent], whatever the memory in
    use. *)
Theorem free_units_percent c total used :
  foreign_suffix c = true ->
  (forall value, Str.endswith c value = true ->
     exists m, _parse_memory_value value = Raise (ValueError m)) /\
  (Str.endswith c total = true \/ Str.endswith c used = true ->
   primary_percent total used = Ok 0).
Proof.
  intros Hc. split.
  - intros value. apply parse_memory_value_foreign. exact Hc.
  - apply primary_percent_foreign. exact Hc.
Qed.

Lemma free_units_percent_witness :
  primary_percent "15Gi" "4.2Gi" = Ok 0 /\
  fst (get_ram_usage (world_of (Completed free_iec) (Ok ""))) =
    Ok (RamUsage {| total := "15Gi"; used := "4.2Gi"; free := "8.1Gi";
                    available := "10Gi"; use_percent := 0 |}).
Proof.
  pose proof (proj2 (free_units_percent "i" "15Gi" "4.2Gi" eq_refl)
                (or_introl eq_refl)) as E.
  split; [exact E|].
  vm_compute. reflexivity.
Defined.

End EscapeFacts.

(** ** The lines of [/proc/meminfo] *)

Module MeminfoFacts.
Import Num Sys Ram Spec Terms FormatFacts TextFacts RowFacts.

(** [line.split(sep, 1)] has two parts as soon as [sep in line]. *)
Lemma split1_pair sep line :
  Str.contains sep line = true -> exists k v, Str.split1 sep line = [k; v].
Proof.
  induction line as [|x line IH]; [discriminate|].
  cbn [Str.contains Str.split1]. rewrite (Ascii.eqb_sym x sep).
  destruct (Ascii.eqb sep x); cbn [orb]; [eauto|].
  intros H. destruct (IH H) as (k & v & ->). eauto.
Qed.

Lemma split_ws_lstrip s : Str.split_ws (Str.lstrip_by Str.is_space s) = Str.split_ws s.
Proof.
  induction s as [|a r IH]; [reflexivity|].
  cbn [Str.lstrip_by]. destruct (Str.is_space a) eqn:Ha; [|reflexivity].
  rewrite IH. cbn [Str.split_ws]. rewrite Ha. reflexivity.
Qed.

Lemma rstrip_head a r :
  Str.rstrip_by Str.is_space (String a r) = "" \/
  exists t, Str.rstrip_by Str.is_space (String a r) = String a t.
Proof.
  cbn [Str.rstrip_by]. destruct (Str.rstrip_by Str.is_space r).
  - destruct (Str.is_space a); eauto.
  - eauto.
Qed.

Lemma split_ws_rstrip s : Str.split_ws (Str.rstrip_by Str.is_space s) = Str.split_ws s.
Proof.
  induction s as [|a r IH]; [reflexivity|].
  cbn [Str.rstrip_by].
  destruct r as [|b r0].
  - cbn [Str.rstrip_by]. destruct (Str.is_space a) eqn:Ha; [|reflexivity].
    cbn [Str.split_ws]. rewrite Ha. reflexivity.
  - destruct (rstrip_head b r0) as [E|(t & E)]; rewrite E in *.
    + destruct (Str.is_space a) eqn:Ha.
      * cbn [Str.split_ws]. rewrite Ha. exact IH.
      * cbn [Str.split_ws] in *. rewrite Ha.
        destruct (Str.is_space b); [rewrite <- IH; reflexivity|].
        rewrite <- IH. reflexivity.
    + cbn [Str.split_ws] in *. destruct (Str.is_space a); [exact IH|].
      destruct (Str.is_space b); [rewrite IH; reflexivity|].
      rewrite IH. reflexivity.
Qed.

Lemma split_ws_strip s : Str.split_ws (Str.strip s) = Str.split_ws s.
Proof. unfold Str.strip. rewrite split_ws_lstrip. apply split_ws_rstrip. Qed.

(** X17.  A line of [/proc/meminfo], that is a key, a colon, blanks,
    a count of kilobytes and possibly a unit, puts the count times 1024
    under the key, replacing what an earlier line put there.  No text
    makes the reading of a line fail, except a count longer than the
    limit on the digits of [int()]. *)
Theorem meminfo_line_reads m (mem_data : gmap string Z) :
  (forall key k n rest,
     word key -> Str.contains ":" key = false -> 0 <= n ->
     (m = 0%nat \/ (String.length (str n) <= m)%nat) ->
     List.Forall (fun kw => word (snd kw)) rest ->
     meminfo_line m (key ++ ":" ++ spaced ((k, str n) :: rest)) mem_data =
       Ok (<[key := n * 1024]> mem_data)) /\
  (forall line e, meminfo_line m line mem_data = Raise e ->
     m <> 0%nat /\ e = ValueError "Exceeds the limit for integer string conversion").
Proof.
  split.
  - intros key k n rest Hk Hc Hn Hm Hr.
    unfold meminfo_line.
    change (key ++ ":" ++ spaced ((k, str n) :: rest))
      with (key ++ String ":" (spaced ((k, str n) :: rest))).
    rewrite contains_append, split1_word by exact Hc.
    rewrite split_ws_strip, split_ws_spaced.
    + cbn [map snd]. rewrite (str_isdigit n Hn), int_of_str_str by auto.
      cbn [bindE]. rewrite strip_clean by apply Hk. reflexivity.
    + constructor; [|exact Hr]. cbn [snd].
      destruct (str_digits n Hn) as (c & r & E & Dc & Dr). rewrite E.
      split; [discriminate|]. cbn [no_space].
      rewrite (digit_not_space c Dc). cbn [negb andb].
      clear - Dr. induction r as [|a r IH]; [reflexivity|].
      cbn [Str.all_digits] in Dr. apply andb_true_iff in Dr as [Da Dr].
      cbn [no_space]. rewrite (digit_not_space a Da), (IH Dr). reflexivity.
  - intros line e. unfold meminfo_line.
    destruct (Str.contains ":" line) eqn:C; [|discriminate].
    destruct (split1_pair _ _ C) as (key & value & ->).
    destruct (Str.split_ws (Str.strip value)) as [|v0 vs]; [discriminate|].
    destruct (Str.isdigit v0) eqn:D; [|discriminate].
    unfold int_of_str. rewrite D. cbn [negb].
    destruct (Nat.eqb_spec m 0) as [->|Hm]; [discriminate|]. cbn [negb andb].
    destruct (Nat.ltb m (String.length v0)); [|discriminate].
    cbn [bindE]. intros [= <-]. auto.
Qed.

Lemma meminfo_line_reads_witness :
  meminfo_line 4300 "MemTotal:       16000000 kB" ∅ = Ok {[ "MemTotal" := 16000000 * 1024 ]}.
Proof.
  exact (proj1 (meminfo_line_reads 4300 ∅) "MemTotal" 7%nat 16000000 [(0%nat, "kB")]
           ltac:(split; [discriminate|reflexivity]) eq_refl ltac:(lia)
           ltac:(right; vm_compute; lia)
           ltac:(repeat constructor; discriminate)).
Defined.

End MeminfoFacts.

(** ** [get_service_logs] and [get_full_journal] *)

Module JournalFacts.
Import Num Sys Journal Spec Terms.

Section Decoder.
Context {value : Type}.
Variable json_loads : string -> loaded value.

Lemma journal_lines_spec lines : forall json_logs,
  journal_lines json_loads lines json_logs =
  match first_raised json_loads lines with
  | Some e => Raise e
  | None => Ok (json_logs ++ entries_of json_loads lines)%list
  end.
Proof.
  induction lines as [|line rest IH]; intros json_logs;
    cbn [journal_lines first_raised entries_of flat_map].
  - rewrite app_nil_r. reflexivity.
  - destruct (String.eqb (Str.strip line) ""); [apply IH|].
    destruct (json_loads line) as [v|m|e]; [|apply IH|reflexivity].
    rewrite IH. destruct (first_raised json_loads rest); [reflexivity|].
    rewrite <- app_assoc. reflexivity.
Qed.

Lemma entries_of_length lines :
  (length (entries_of json_loads lines) <= length lines)%nat.
Proof.
  induction lines as [|line rest IH]; [apply le_n|].
  cbn [entries_of flat_map length]. fold (entries_of json_loads rest).
  rewrite length_app.
  destruct (String.eqb (Str.strip line) ""); [cbn; lia|].
  destruct (json_loads line); cbn; lia.
Qed.

Lemma journal_of_spec failure r :
  returncode r = 0 ->
  journal_of json_loads failure r =
  match first_raised json_loads (output_lines r) with
  | Some e => Raise e
  | None => Ok (Entries (entries_of json_loads (output_lines r)))
  end.
Proof.
  intros Hc. unfold journal_of. rewrite Hc. cbn [Z.eqb negb].
  fold (output_lines r). rewrite journal_lines_spec.
  destruct (first_raised _ _); reflexivity.
Qed.

(** X18.  When [journalctl] exits with code 0, the two methods return
    the decoded value of every line of its output that is not blank and
    decodes, in the order of the output: a line that does not decode is
    left out and costs no other line its entry, so there are at most as
    many entries as lines.  If the decoder raises anything but a
    [JSONDecodeError] on a line, no entry is returned at all, only the
    text of that exception after the prefix of the method. *)
Theorem journal_entries service_name lines w r :
  returncode r = 0 ->
  (length (entries_of json_loads (output_lines r)) <= length (output_lines r))%nat /\
  (str_of_int (int_max_str_digits w) lines = Ok (str lines) ->
   spawn w (length (started w)) (logs_command service_name lines) = Completed r ->
   fst (get_service_logs json_loads service_name lines w) =
   match first_raised json_loads (output_lines r) with
   | Some e => Text ("Error getting logs: " ++ exn_str e)
   | None => Entries (entries_of json_loads (output_lines r))
   end) /\
  (spawn w (length (started w)) (journal_command service_name) = Completed r ->
   fst (get_full_journal json_loads service_name w) =
   match first_raised json_loads (output_lines r) with
   | Some e => Text ("Error getting journal: " ++ exn_str e)
   | None => Entries (entries_of json_loads (output_lines r))
   end).
Proof.
  intros Hc. split; [apply entries_of_length|]. split.
  - intros Hs Hr. unfold get_service_logs, run. rewrite Hs. cbn [spawn started].
    fold (logs_command service_name lines). rewrite Hr.
    rewrite journal_of_spec by exact Hc.
    destruct (first_raised _ _); reflexivity.
  - intros Hr. unfold get_full_journal, run. cbn [spawn started].
    fold (journal_command service_name). rewrite Hr.
    rewrite journal_of_spec by exact Hc.
    destruct (first_raised _ _); reflexivity.
Qed.

End Decoder.

Lemma journal_entries_witness :
  fst (get_full_journal
         (fun line => if String.eqb line "{}" then Loaded 0%nat
                      else JSONDecodeError "Expecting value")
         "nginx"
         (world_of (Completed {| returncode := 0; stderr := "";
                                 stdout := "{}
-- No entries --

{}
" |}) (Ok "")))
  = Entries [0%nat; 0%nat].
Proof.
  exact (proj2 (proj2 (journal_entries
           (fun line => if String.eqb line "{}" then Loaded 0%nat
                        else JSONDecodeError "Expecting value")
           "nginx" 50
           (world_of (Completed {| returncode := 0; stderr := "";
                                   stdout := "{}
-- No entries --

{}
" |}) (Ok ""))
           {| returncode := 0; stderr := "";
              stdout := "{}
-- No entries --

{}
" |} eq_refl)) eq_refl).
Defined.

End JournalFacts.

(** ** The dispatch of the requests *)

Module RouterFacts.
Import Num Store Router Spec Terms StoreFacts TextFacts.

Lemma length_append a b : String.length (a ++ b) = (String.length a + String.length b)%nat.
Proof.
  induction a as [|c a IH]; [reflexivity|].
  change (String c a ++ b) with (String c (a ++ b)). cbn [String.length]. rewrite IH. reflexivity.
Qed.

Lemma append_assoc a b c : (a ++ b) ++ c = a ++ (b ++ c).
Proof.
  induction a as [|x a IH]; [reflexivity|].
  change (String x a ++ b) with (String x (a ++ b)).
  change (String x (a ++ b) ++ c) with (String x ((a ++ b) ++ c)).
  rewrite IH. reflexivity.
Qed.

Lemma drop_append p s : drop (String.length p) (p ++ s) = s.
Proof. induction p as [|c p IH]; [reflexivity|exact IH]. Qed.

Lemma prefix_append p s : String.prefix p (p ++ s) = true.
Proof.
  induction p as [|c p IH]; [destruct s; reflexivity|].
  change (String c p ++ s) with (String c (p ++ s)). cbn [String.prefix].
  destruct (ascii_dec c c); [exact IH|contradiction].
Qed.

Lemma prefix_split p : forall s,
  String.prefix p s = true -> s = p ++ drop (String.length p) s.
Proof.
  induction p as [|c p IH]; intros s; [reflexivity|].
  destruct s as [|a s]; [discriminate|]. cbn [String.prefix].
  destruct (ascii_dec c a) as [->|]; [|discriminate].
  intros H. change (String a p ++ drop (String.length (String a p)) (String a s))
    with (String a (p ++ drop (String.length p) s)).
  rewrite <- (IH s H). reflexivity.
Qed.

Lemma endswith_append p s : endswith p (s ++ p) = true.
Proof.
  unfold endswith. rewrite length_append.
  replace (String.length s + String.length p - String.length p)%nat
    with (String.length s) by lia.
  rewrite drop_append, String.eqb_refl.
  apply andb_true_iff. split; [apply Nat.leb_le; lia|reflexivity].
Qed.

(** A path under the base URL loses the base URL, and only it. *)
Lemma strip_base_url_under base p : p <> "" -> strip_base_url base (base ++ p) = p.
Proof.
  intros Hp. unfold strip_base_url, startswith.
  destruct (String.eqb_spec base "") as [->|_]; [reflexivity|].
  cbn [negb andb]. rewrite prefix_append, drop_append.
  destruct (String.eqb_spec p ""); [contradiction|reflexivity].
Qed.

Lemma split_nonempty sep s : Str.split sep s <> [].
Proof.
  destruct s as [|c r]; [discriminate|]. cbn [Str.split].
  destruct (Ascii.eqb c sep); [discriminate|].
  destruct (Str.split sep r); discriminate.
Qed.

Lemma split_word sep w : forall r,
  Str.contains sep w = false ->
  Str.split sep (w ++ String sep r) = w :: Str.split sep r.
Proof.
  induction w as [|c w IH]; intros r.
  - intros _. change ("" ++ String sep r) with (String sep r).
    cbn [Str.split]. rewrite Ascii.eqb_refl. reflexivity.
  - cbn [Str.contains]. intros H. apply orb_false_iff in H as [Hc Hw].
    change (String c w ++ String sep r) with (String c (w ++ String sep r)).
    cbn [Str.split]. rewrite Ascii.eqb_sym, Hc, (IH r Hw). reflexivity.
Qed.

Lemma split_last sep w : Str.contains sep w = false -> Str.split sep w = [w].
Proof.
  induction w as [|c w IH]; [reflexivity|].
  cbn [Str.contains]. intros H. apply orb_false_iff in H as [Hc Hw].
  cbn [Str.split]. rewrite Ascii.eqb_sym, Hc, (IH Hw). reflexivity.
Qed.

Lemma split_services rest :
  Str.split "/" ("/api/services/" ++ rest) = "" :: "api" :: "services" :: Str.split "/" rest.
Proof.
  change ("/api/services/" ++ rest)
    with ("" ++ String "/" ("api" ++ String "/" ("services" ++ String "/" rest))).
  rewrite !split_word by reflexivity. reflexivity.
Qed.

(** [path.split("/")[3]] is there on every path that starts with
    [/api/services/]. *)
Lemma service_segment_total path :
  startswith "/api/services/" path = true -> exists s, service_segment path = Ok s.
Proof.
  intros H. apply prefix_split in H. rewrite H. unfold service_segment.
  rewrite split_services.
  destruct (Str.split "/" _) as [|x xs] eqn:E; [exfalso; exact (split_nonempty _ _ E)|].
  exists x. reflexivity.
Qed.

Lemma service_segment_name name tail :
  Str.contains "/" name = false ->
  service_segment ("/api/services/" ++ name ++ String "/" tail) = Ok name /\
  service_segment ("/api/services/" ++ name) = Ok name.
Proof.
  intros H. unfold service_segment. rewrite !split_services. split.
  - rewrite split_word by exact H. reflexivity.
  - rewrite split_last by exact H. reflexivity.
Qed.

Lemma longer_differs p rest q :
  (String.length q < String.length p)%nat -> String.eqb (p ++ rest) q = false.
Proof.
  intros H. destruct (String.eqb_spec (p ++ rest) q) as [E|]; [|reflexivity].
  apply (f_equal String.length) in E. rewrite length_append in E. lia.
Qed.

Lemma int_of_text_50 m : m = 0%nat \/ (2 <= m)%nat -> int_of_text m "50" = Ok 50.
Proof.
  intros H. unfold int_of_text.
  change (sign_of (Str.lstrip_by is_c_space (Str.rstrip_by is_c_space "50")))
    with (false, "50"). cbv iota.
  change (digitpart "50") with (Some ("50", "")). cbv iota.
  change (String.length "50") with 2%nat.
  replace (negb (Nat.eqb m 0) && Nat.ltb m 2) with false; [reflexivity|].
  symmetry. destruct H as [->|H]; [reflexivity|].
  apply andb_false_iff. right. apply Nat.ltb_ge. exact H.
Qed.

(** X19.  The requests for the logs and for the journal of a service
    reach their handlers with the name that stands between
    [/api/services/] and the last segment, under any base URL, and with
    the number of lines of the query, 50 when the query names none.  On
    no path does [do_GET] fail to find the segment of the name: the only
    exceptions come from the [lines] of the query. *)
Theorem do_GET_service base m name (query_params : gmap string (list string)) :
  Str.contains "/" name = false ->
  do_GET base m (base ++ "/api/services/" ++ name ++ "/logs") query_params =
    (do v <- lines_param query_params;
     do lines <- int_of_text m v;
     Ok (HandleGetLogs name lines)) /\
  (query_params !! "lines" = None -> m = 0%nat \/ (2 <= m)%nat ->
   do_GET base m (base ++ "/api/services/" ++ name ++ "/logs") query_params =
     Ok (HandleGetLogs name 50)) /\
  do_GET base m (base ++ "/api/services/" ++ name ++ "/journal") query_params =
    Ok (HandleGetJournal name) /\
  (forall path e, do_GET base m path query_params = Raise e ->
     lines_param query_params = Raise e \/
     exists v, lines_param query_params = Ok v /\ int_of_text m v = Raise e).
Proof.
  intros Hn.
  assert (L : do_GET base m (base ++ "/api/services/" ++ name ++ "/logs") query_params =
              (do v <- lines_param query_params;
               do lines <- int_of_text m v;
               Ok (HandleGetLogs name lines))).
  { unfold do_GET. rewrite strip_base_url_under by discriminate.
    rewrite !longer_differs by (cbn; lia).
    unfold startswith. rewrite prefix_append.
    rewrite <- (append_assoc "/api/services/" name "/logs") at 1.
    rewrite endswith_append. cbn [andb].
    rewrite (proj1 (service_segment_name name "logs" Hn)). reflexivity. }
  split; [exact L|]. split; [|split].
  - intros Hq Hm. rewrite L. unfold lines_param. rewrite Hq. cbn [default bindE].
    rewrite int_of_text_50 by exact Hm. reflexivity.
  - unfold do_GET. rewrite strip_base_url_under by discriminate.
    rewrite !longer_differs by (cbn; lia).
    unfold startswith. rewrite prefix_append.
    assert (E : endswith "/logs" ("/api/services/" ++ name ++ "/journal") = false).
    { unfold endswith. rewrite !length_append. cbn [String.length].
      replace (14 + (String.length name + 8) - 5)%nat
        with (String.length ("/api/services/" ++ name ++ "/jo"))
        by (rewrite !length_append; cbn [String.length]; lia).
      replace ("/api/services/" ++ name ++ "/journal")
        with (("/api/services/" ++ name ++ "/jo") ++ "urnal")
        by (rewrite !append_assoc; reflexivity).
      rewrite drop_append. apply andb_false_iff. right. reflexivity. }
    rewrite E. cbn [andb].
    rewrite <- (append_assoc "/api/services/" name "/journal") at 1.
    rewrite endswith_append. cbn [andb].
    rewrite (proj1 (service_segment_name name "journal" Hn)). reflexivity.
  - intros path e. unfold do_GET.
    set (p := strip_base_url base path).
    destruct (String.eqb p "/"); [discriminate|].
    destruct (String.eqb p "/api/services"); [discriminate|].
    destruct (startswith "/api/services/" p) eqn:S; cbn [andb].
    + destruct (service_segment_total p S) as [s ->]. cbn [bindE].
      destruct (endswith "/logs" p).
      * destruct (lines_param query_params) as [v|e'] eqn:Lp; [|intros [= <-]; auto].
        cbn [bindE]. destruct (int_of_text m v) as [n|e'] eqn:I; [discriminate|].
        intros [= <-]. right. eauto.
      * destruct (endswith "/journal" p); [discriminate|].
        repeat (destruct (String.eqb p _); [discriminate|]). discriminate.
    + repeat (destruct (String.eqb p _); [discriminate|]). discriminate.
Qed.

Lemma do_GET_service_witness :
  do_GET "/dash" 4300 "/dash/api/services/nginx.service/logs" {[ "lines" := ["+1_0 "] ]}
  = Ok (HandleGetLogs "nginx.service" 10).
Proof.
  rewrite (proj1 (do_GET_service "/dash" 4300 "nginx.service" _ eq_refl)).
  vm_compute. reflexivity.
Defined.

Lemma split_length sep s :
  Str.contains sep s = true -> (2 <= length (Str.split sep s))%nat.
Proof.
  induction s as [|c r IH]; [discriminate|].
  cbn [Str.contains Str.split]. rewrite (Ascii.eqb_sym c sep).
  destruct (Ascii.eqb sep c); cbn [orb].
  - intros _. pose proof (split_nonempty sep r).
    destruct (Str.split sep r); [contradiction|cbn; lia].
  - intros H. specialize (IH H). destruct (Str.split sep r); cbn in *; lia.
Qed.

(** X20.  [DELETE /api/services/<name>], under any base URL, answers
    200 with the message "Stopped tracking <name>" whether or not the
    name was tracked; afterwards the name is not tracked and every other
    name is tracked exactly if it was.  A name with a slash in it is
    answered 404, and the store is left as it was. *)
Theorem do_DELETE_service base name d :
  (Str.contains "/" name = false ->
   do_DELETE base (base ++ "/api/services/" ++ name) d =
     Ok (DeleteDone 200 true ("Stopped tracking " ++ name), remove_service name d) /\
   is_tracked name (remove_service name d) = false /\
   forall other, other <> name ->
     is_tracked other (remove_service name d) = is_tracked other d) /\
  (Str.contains "/" name = true ->
   do_DELETE base (base ++ "/api/services/" ++ name) d =
     Ok (DeleteError 404 "Not Found", d)).
Proof.
  split; intros Hn.
  - split; [|split].
    + unfold do_DELETE. rewrite strip_base_url_under by discriminate.
      unfold startswith. rewrite prefix_append. rewrite split_services.
      rewrite (split_last "/" name Hn). cbn [length Nat.eqb andb].
      rewrite (proj2 (service_segment_name name "" Hn)). reflexivity.
    + apply is_tracked_false. rewrite names_remove. intros H.
      apply filter_In in H as [_ H]. rewrite String.eqb_refl in H. discriminate H.
    + intros other Ho.
      destruct (is_tracked other d) eqn:T.
      * apply is_tracked_In. rewrite names_remove. apply filter_In.
        split; [apply is_tracked_In; exact T|].
        destruct (String.eqb_spec other name); [contradiction|reflexivity].
      * apply is_tracked_false. rewrite names_remove. intros H.
        apply filter_In in H as [H _]. apply is_tracked_false in T. contradiction.
  - unfold do_DELETE. rewrite strip_base_url_under by discriminate.
    unfold startswith. rewrite prefix_append. rewrite split_services.
    pose proof (split_length "/" name Hn) as L. cbn [length andb].
    destruct (length (Str.split "/" name)) as [|[|n]]; [lia|lia|reflexivity].
Qed.

Lemma do_DELETE_service_witness :
  do_DELETE "" "/api/services/nginx" (snd (add_service "nginx" 0 init_db)) =
  Ok (DeleteDone 200 true "Stopped tracking nginx",
      remove_service "nginx" (snd (add_service "nginx" 0 init_db))).
Proof.
  exact (proj1 (proj1 (do_DELETE_service "" "nginx" (snd (add_service "nginx" 0 init_db)))
                  eq_refl)).
Defined.

End RouterFacts.

(** ** [_format_memory_kb] and [_parse_memory_value] *)

Module KbFacts.
Import Float Num Dashboard Memory Spec Terms FloatFacts FormatFacts UptimeFacts MemoryFacts TextFacts.

Lemma fixed1_whole n : 0 <= n -> fixed1 (of_Z n) = str n ++ ".0".
Proof.
  intros Hn. pose proof one_pos as Hone. unfold fixed1, of_Z.
  rewrite Z.abs_eq by nia.
  replace (10 * (n * one)) with (10 * n * one) by ring.
  rewrite rne_exact by exact Hone.
  destruct (Z.ltb_spec (n * one) 0); [nia|].
  rewrite Z.mul_comm, Z.div_mul, Z_mod_mult by lia. reflexivity.
Qed.

Lemma round64_whole n d : 0 < d -> Z.abs n < 2 ^ 53 -> round64 (n * d) d = of_Z n.
Proof.
  intros Hd Hn. unfold round64, of_Z.
  replace (n * d * one) with (n * one * d) by ring.
  rewrite round53_exact by (auto using representable_int).
  pose proof (small_lt_huge n Hn).
  destruct (Z.ltb_spec (Z.abs (n * one)) huge); [reflexivity|lia].
Qed.

Lemma int_truediv_whole n d :
  0 < d -> Z.abs n < 2 ^ 53 -> int_truediv (n * d) d = Ok (of_Z n).
Proof.
  intros Hd Hn. unfold int_truediv.
  destruct (Z.eqb_spec d 0); [lia|].
  rewrite Z.sgn_pos, Z.abs_eq, Z.mul_1_r by lia.
  rewrite round64_whole by auto. reflexivity.
Qed.

Lemma digits_no_space s t :
  Str.all_digits s = true -> no_space t = true -> no_space (s ++ t) = true.
Proof.
  induction s as [|a r IH]; [auto|].
  cbn [Str.all_digits]. intros H Ht. apply andb_true_iff in H as [Ha Hr].
  change (String a r ++ t) with (String a (r ++ t)). cbn [no_space].
  rewrite (digit_not_space a Ha), (IH Hr Ht). reflexivity.
Qed.

Lemma digitpart_tail_digits s t :
  Str.all_digits s = true -> digitpart_tail (s ++ String "." t) = (s, String "." t).
Proof.
  induction s as [|a r IH]; [reflexivity|].
  cbn [Str.all_digits]. intros H. apply andb_true_iff in H as [Ha Hr].
  change (String a r ++ String "." t) with (String a (r ++ String "." t)).
  cbn [digitpart_tail]. rewrite Ha, (IH Hr). reflexivity.
Qed.

Lemma digit_head c r :
  Str.is_digit c = true ->
  sign_of (String c r) = (false, String c r) /\
  String.eqb (Str.lowercase (String c r)) "inf" = false /\
  String.eqb (Str.lowercase (String c r)) "infinity" = false /\
  String.eqb (Str.lowercase (String c r)) "nan" = false.
Proof.
  intros H.
  destruct c as [[] [] [] [] [] [] [] []]; try discriminate H; repeat split; reflexivity.
Qed.

(** [float()] on the text of a whole number with one decimal zero. *)
Lemma float_of_str_whole n : 0 <= n < 2 ^ 53 -> float_of_str (str n ++ ".0") = Ok (of_Z n).
Proof.
  intros Hn. destruct (str_digits n ltac:(lia)) as (c & r & E & Dc & Dr).
  pose proof (digits_value_str n ltac:(lia)) as V.
  unfold float_of_str. rewrite E in *.
  rewrite float_strip_clean
    by (apply (digits_no_space (String c r)); [cbn; rewrite Dc, Dr|]; reflexivity).
  change (String c r ++ ".0") with (String c (r ++ ".0")).
  destruct (digit_head c (r ++ ".0") Dc) as (-> & -> & -> & ->).
  cbn [orb]. unfold number, digitpart.
  rewrite Dc, (digitpart_tail_digits r "0" Dr).
  change (if Str.is_digit "0" then _ else _)
    with (let '(ds, rest) := digitpart_tail "" in Some (String "0" ds, rest)) at 1.
  cbn [digitpart_tail exponent Z.of_nat String.length].
  rewrite digits_value_app, V.
  change (Str.digits_value n "0") with (10 * n + Str.digit_val "0").
  change (Str.digit_val "0") with 0.
  change (0 <=? 0 - Z.of_nat 1) with false. cbv iota.
  change (10 ^ (- (0 - Z.of_nat 1))) with 10.
  replace (10 * n + 0) with (n * 10) by ring.
  rewrite round64_whole by lia. reflexivity.
Qed.

Lemma parse_whole n u x :
  0 <= n < 2 ^ 53 ->
  (forall p y, float_of_str p = Ok y ->
     _parse_memory_value (p ++ String u "") = Ok (scaled y x)) ->
  Z.abs (n * x) < 2 ^ 53 ->
  _parse_memory_value (str n ++ ".0" ++ String u "") = Ok (of_Z (n * x)).
Proof.
  intros Hn Hp Hx.
  replace (str n ++ ".0" ++ String u "") with ((str n ++ ".0") ++ String u "").
  - rewrite (Hp _ _ (float_of_str_whole n Hn)). rewrite scaled_small by exact Hx. reflexivity.
  - generalize (str n). intros s. induction s as [|c s IH]; [reflexivity|].
    change (String c s ++ ".0") with (String c (s ++ ".0")).
    change (String c (s ++ ".0") ++ String u "") with (String c ((s ++ ".0") ++ String u "")).
    rewrite IH. reflexivity.
Qed.

(** X21.  [_format_memory_kb] and [_parse_memory_value] are inverse to
    each other on the whole multiples of a unit: a count of kilobytes
    that is [n] times 1, 1024, 1024^2 or 1024^3, within the range of its
    unit, is written as [n.0] with the suffix [K], [M], [G] or [T], and
    this text is read back as the same count, exactly. *)
Theorem format_memory_round_trip n :
  (0 <= n < 1024 ->
   _format_memory_kb (PyInt n) = Ok (str n ++ ".0K") /\
   _parse_memory_value (str n ++ ".0K") = Ok (of_Z n)) /\
  (1 <= n < 1024 ->
   _format_memory_kb (PyInt (n * 1024)) = Ok (str n ++ ".0M") /\
   _parse_memory_value (str n ++ ".0M") = Ok (of_Z (n * 1024))) /\
  (1 <= n < 1024 ->
   _format_memory_kb (PyInt (n * 1024 ^ 2)) = Ok (str n ++ ".0G") /\
   _parse_memory_value (str n ++ ".0G") = Ok (of_Z (n * 1024 ^ 2))) /\
  (1 <= n < 2 ^ 23 ->
   _format_memory_kb (PyInt (n * 1024 ^ 3)) = Ok (str n ++ ".0T") /\
   _parse_memory_value (str n ++ ".0T") = Ok (of_Z (n * 1024 ^ 3))).
Proof.
  assert (A : forall s u, (s ++ ".0") ++ u = s ++ ".0" ++ u).
  { intros s u. induction s as [|c s IH]; [reflexivity|].
    change (String c s ++ ".0") with (String c (s ++ ".0")).
    change (String c (s ++ ".0") ++ u) with (String c ((s ++ ".0") ++ u)).
    rewrite IH. reflexivity. }
  split; [|split; [|split]]; intros Hn.
  - split.
    + unfold _format_memory_kb, ge_int.
      destruct (Z.leb_spec (1024 * 1024 * 1024) n); [lia|].
      destruct (Z.leb_spec (1024 * 1024) n); [lia|].
      destruct (Z.leb_spec 1024 n); [lia|].
      unfold format_1f. rewrite of_int_small by lia. cbn [bindE].
      fold (of_Z n). rewrite fixed1_whole by lia. rewrite A. reflexivity.
    + replace n with (n * 1) at 2 by ring.
      apply (parse_whole n "K" 1); [lia| |lia].
      intros p y E. destruct (parse_memory_value_suffix p y E) as (_ & _ & _ & ->).
      f_equal. destruct y as [k| |]; try reflexivity.
      unfold scaled. rewrite Z.mul_1_r.
      pose proof (float_of_str_is_double _ _ E) as [_ Hk]. cbn in Hk.
      destruct (Z.ltb_spec (Z.abs k) huge); [reflexivity|lia].
  - split.
    + unfold _format_memory_kb, ge_int.
      destruct (Z.leb_spec (1024 * 1024 * 1024) (n * 1024)); [lia|].
      destruct (Z.leb_spec (1024 * 1024) (n * 1024)); [lia|].
      destruct (Z.leb_spec 1024 (n * 1024)); [|lia].
      unfold truediv_int. rewrite int_truediv_whole by lia. cbn [bindE].
      rewrite fixed1_whole by lia. rewrite A. reflexivity.
    + apply (parse_whole n "M" 1024); [lia| |lia].
      intros p y E. destruct (parse_memory_value_suffix p y E) as (_ & _ & -> & _).
      reflexivity.
  - split.
    + unfold _format_memory_kb, ge_int.
      destruct (Z.leb_spec (1024 * 1024 * 1024) (n * 1024 ^ 2)); [lia|].
      destruct (Z.leb_spec (1024 * 1024) (n * 1024 ^ 2)); [|lia].
      unfold truediv_int. change (1024 * 1024) with (1024 ^ 2).
      rewrite int_truediv_whole by lia. cbn [bindE].
      rewrite fixed1_whole by lia. rewrite A. reflexivity.
    + apply (parse_whole n "G" (1024 ^ 2)); [lia| |lia].
      intros p y E. destruct (parse_memory_value_suffix p y E) as (_ & -> & _ & _).
      reflexivity.
  - split.
    + unfold _format_memory_kb, ge_int.
      destruct (Z.leb_spec (1024 * 1024 * 1024) (n * 1024 ^ 3)); [|lia].
      unfold truediv_int. change (1024 * 1024 * 1024) with (1024 ^ 3).
      rewrite int_truediv_whole by lia. cbn [bindE].
      rewrite fixed1_whole by lia. rewrite A. reflexivity.
    + apply (parse_whole n "T" (1024 ^ 3)); [lia| |lia].
      intros p y E. destruct (parse_memory_value_suffix p y E) as (-> & _ & _ & _).
      reflexivity.
Qed.

Lemma format_memory_round_trip_witness :
  _format_memory_kb (PyInt (15 * 1024 ^ 2)) = Ok "15.0G" /\
  _parse_memory_value "15.0G" = Ok (of_Z (15 * 1024 ^ 2)).
Proof.
  exact (proj1 (proj2 (proj2 (format_memory_round_trip 15))) ltac:(lia)).
Defined.

End KbFacts.
